(** * AgriConnect: storage schema, row-level security and client operations

    A shallow embedding of
    - [supabase/migrations/20251016160138_create_agriconnect_schema.sql]
      (tables, constraints and row-level-security policies), and
    - the React components that build the requests sent to that storage
      ([Marketplace], [ProductDetailModal], [AddProductModal], [Orders]),
    followed by the properties the specification states about them. *)

From Stdlib Require Import Bool List String Ascii QArith Permutation Sorted.
From Stdlib Require Import Floats.PrimFloat Floats.FloatOps Floats.SpecFloat.
Import ListNotations.

Set Implicit Arguments.
Local Open Scope string_scope.
Local Open Scope bool_scope.

(** ** SQL values and three-valued logic *)

(** Column types of the migration.  [uuid] and [timestamptz] are carried in
    their text form; [numeric] is PostgreSQL's exact decimal type, taken
    here over the rationals (its NaN and infinities, which no number in a
    JSON body denotes, are left out).  Text is a [string]: a sequence of
    characters compared position by position. *)
Abbreviation uuid := string (only parsing).
Abbreviation timestamptz := string (only parsing).
Abbreviation numeric := Q (only parsing).

(** A nullable SQL value is an [option]; [None] is NULL.  A SQL boolean
    expression evaluates to TRUE, FALSE or NULL. *)
Abbreviation tri := (option bool) (only parsing).

Definition sql_and (a b : tri) : tri :=
  match a, b with
  | Some false, _ => Some false
  | _, Some false => Some false
  | Some true, Some true => Some true
  | _, _ => None
  end.

Definition sql_or (a b : tri) : tri :=
  match a, b with
  | Some true, _ => Some true
  | _, Some true => Some true
  | Some false, Some false => Some false
  | _, _ => None
  end.

(** [x = y], [x >= y], [x > y]: NULL as soon as one operand is NULL. *)
Definition sql_cmp (A : Type) (cmp : A -> A -> bool) (x y : option A) : tri :=
  match x, y with
  | Some a, Some b => Some (cmp a b)
  | _, _ => None
  end.

Definition Qlt_bool (x y : Q) : bool := negb (Qle_bool y x).

Definition sql_eq_text := sql_cmp String.eqb.
Definition sql_eq_bool := sql_cmp Bool.eqb.
Definition sql_ge := sql_cmp (fun a b : Q => Qle_bool b a).
Definition sql_gt := sql_cmp (fun a b : Q => Qlt_bool b a).

(** [x IN ('a', 'b', ...)] over non-null literals. *)
Definition sql_in (x : option string) (l : list string) : tri :=
  match x with
  | Some a => Some (existsb (String.eqb a) l)
  | None => None
  end.

(** A row passes a policy expression (USING, WITH CHECK) or a WHERE clause
    only when the expression is TRUE; a CHECK constraint is violated only
    when its expression is FALSE. *)
Definition is_true (t : tri) : bool :=
  match t with Some true => true | _ => false end.

Definition not_false (t : tri) : bool :=
  match t with Some false => false | _ => true end.

Definition is_null (A : Type) (x : option A) : bool :=
  match x with Some _ => false | None => true end.

(** A column in the JSON object of an insert or update request: the key is
    absent ([Omitted]) or present with a value, possibly [null]. *)
Inductive field (A : Type) : Type :=
| Omitted
| Supplied (v : option A).
Arguments Omitted {A}.

Definition supplied (A : Type) (f : field A) : bool :=
  match f with Omitted => false | Supplied _ => true end.

(** The column names a request names, out of a table's columns in order. *)
Definition supplied_names (columns : list (string * bool)) : list string :=
  map fst (filter snd columns).

(** On insert an omitted column takes the column default (NULL when the
    column has none); on update it keeps the stored value. *)
Definition insert_value (A : Type) (default : option A) (f : field A) : option A :=
  match f with Omitted => default | Supplied v => v end.

Definition update_value (A : Type) (old : option A) (f : field A) : option A :=
  match f with Omitted => old | Supplied v => v end.

(** What [now()] and [gen_random_uuid()] evaluate to in one statement. *)
Record ServerEnv : Type := {
  now : timestamptz;
  gen_random_uuid : uuid
}.

(** Why the storage rejects a write. *)
Inductive Error : Type :=
| PolicyViolation
| NotNullViolation
| CheckViolation
| UniqueViolation
| ForeignKeyViolation.

Inductive result (A : Type) : Type :=
| Ok (a : A)
| Err (e : Error).
Arguments Err {A}.

(** The first failure among per-row verdicts, in row order. *)
Fixpoint first_error (l : list (option Error)) : option Error :=
  match l with
  | [] => None
  | Some e :: _ => Some e
  | None :: l' => first_error l'
  end.

(** No two rows carry the same primary key. *)
Fixpoint unique_keys (keys : list (option uuid)) : bool :=
  match keys with
  | [] => true
  | k :: ks => negb (existsb (fun k' => is_true (sql_eq_text k k')) ks) && unique_keys ks
  end.

(** A foreign key (MATCH SIMPLE): NULL passes, a value must be among the
    referenced keys. *)
Definition references (keys : list (option uuid)) (fk : option uuid) : bool :=
  match fk with
  | None => true
  | Some _ => existsb (fun k => is_true (sql_eq_text k fk)) keys
  end.

(** ** The four tables *)

Module Schema.

(** Each table is one record of columns, indexed by what a column holds:
    [cols option] is a stored or candidate row (every column nullable
    until the constraints are checked), [cols field] a request payload. *)

Module Profiles.
Record cols (F : Type -> Type) : Type := {
  id : F uuid;
  user_type : F string;
  full_name : F string;
  phone : F string;
  location : F string;
  latitude : F numeric;
  longitude : F numeric;
  bio : F string;
  avatar_url : F string;
  created_at : F timestamptz;
  updated_at : F timestamptz
}.
Abbreviation row := (cols option) (only parsing).

(** "Anyone can view profiles": USING (true). *)
Definition select_using (uid : option uuid) (r : row) : tri := Some true.

Abbreviation payload := (cols field) (only parsing).

Definition new_row (env : ServerEnv) (p : payload) : row := {|
  id := insert_value None (id p);
  user_type := insert_value None (user_type p);
  full_name := insert_value None (full_name p);
  phone := insert_value None (phone p);
  location := insert_value None (location p);
  latitude := insert_value None (latitude p);
  longitude := insert_value None (longitude p);
  bio := insert_value None (bio p);
  avatar_url := insert_value None (avatar_url p);
  created_at := insert_value (Some (now env)) (created_at p);
  updated_at := insert_value (Some (now env)) (updated_at p)
|}.

Definition assign (p : payload) (r : row) : row := {|
  id := update_value (id r) (id p);
  user_type := update_value (user_type r) (user_type p);
  full_name := update_value (full_name r) (full_name p);
  phone := update_value (phone r) (phone p);
  location := update_value (location r) (location p);
  latitude := update_value (latitude r) (latitude p);
  longitude := update_value (longitude r) (longitude p);
  bio := update_value (bio r) (bio p);
  avatar_url := update_value (avatar_url r) (avatar_url p);
  created_at := update_value (created_at r) (created_at p);
  updated_at := update_value (updated_at r) (updated_at p)
|}.

Definition not_null (r : row) : bool :=
  negb (is_null (id r) || is_null (user_type r) || is_null (full_name r)).

(** CHECK (user_type IN ('farmer', 'retailer')). *)
Definition checks (r : row) : bool :=
  not_false (sql_in (user_type r) ["farmer"; "retailer"]).

(** "Users can insert own profile": WITH CHECK (auth.uid() = id). *)
Definition insert_check (uid : option uuid) (r : row) : tri :=
  sql_eq_text uid (id r).

(** "Users can update own profile". *)
Definition update_using (uid : option uuid) (r : row) : tri :=
  sql_eq_text uid (id r).
Definition update_check (uid : option uuid) (r : row) : tri :=
  sql_eq_text uid (id r).
End Profiles.

(** EXISTS (SELECT 1 FROM profiles WHERE id = auth.uid() AND user_type = role).
    The sub-select runs under the requester's own rights; for an
    authenticated requester the profiles SELECT policy hides nothing. *)
Definition exists_profile (profiles : list Profiles.row) (uid : option uuid)
    (role : string) : bool :=
  existsb
    (fun p =>
       is_true (Profiles.select_using uid p) &&
       is_true (sql_and (sql_eq_text (Profiles.id p) uid)
                        (sql_eq_text (Profiles.user_type p) (Some role))))
    profiles.

Module Products.
Record cols (F : Type -> Type) : Type := {
  id : F uuid;
  farmer_id : F uuid;
  name : F string;
  description : F string;
  category : F string;
  price : F numeric;
  unit : F string;
  quantity_available : F numeric;
  image_url : F string;
  location : F string;
  is_available : F bool;
  created_at : F timestamptz;
  updated_at : F timestamptz
}.
Abbreviation row := (cols option) (only parsing).
Abbreviation payload := (cols field) (only parsing).

(** The keys present in a request body. *)
Definition supplied_columns (p : payload) : list string :=
  supplied_names
    [("id", supplied (id p)); ("farmer_id", supplied (farmer_id p));
     ("name", supplied (name p)); ("description", supplied (description p));
     ("category", supplied (category p)); ("price", supplied (price p));
     ("unit", supplied (unit p));
     ("quantity_available", supplied (quantity_available p));
     ("image_url", supplied (image_url p)); ("location", supplied (location p));
     ("is_available", supplied (is_available p));
     ("created_at", supplied (created_at p));
     ("updated_at", supplied (updated_at p))].

(** Column defaults applied to the columns an insert omits. *)
Definition new_row (env : ServerEnv) (p : payload) : row := {|
  id := insert_value (Some (gen_random_uuid env)) (id p);
  farmer_id := insert_value None (farmer_id p);
  name := insert_value None (name p);
  description := insert_value None (description p);
  category := insert_value None (category p);
  price := insert_value None (price p);
  unit := insert_value (Some "kg") (unit p);
  quantity_available := insert_value None (quantity_available p);
  image_url := insert_value None (image_url p);
  location := insert_value None (location p);
  is_available := insert_value (Some true) (is_available p);
  created_at := insert_value (Some (now env)) (created_at p);
  updated_at := insert_value (Some (now env)) (updated_at p)
|}.

(** UPDATE ... SET: the supplied columns replace the stored ones. *)
Definition assign (p : payload) (r : row) : row := {|
  id := update_value (id r) (id p);
  farmer_id := update_value (farmer_id r) (farmer_id p);
  name := update_value (name r) (name p);
  description := update_value (description r) (description p);
  category := update_value (category r) (category p);
  price := update_value (price r) (price p);
  unit := update_value (unit r) (unit p);
  quantity_available := update_value (quantity_available r) (quantity_available p);
  image_url := update_value (image_url r) (image_url p);
  location := update_value (location r) (location p);
  is_available := update_value (is_available r) (is_available p);
  created_at := update_value (created_at r) (created_at p);
  updated_at := update_value (updated_at r) (updated_at p)
|}.

Definition not_null (r : row) : bool :=
  negb (is_null (id r) || is_null (farmer_id r) || is_null (name r)
        || is_null (category r) || is_null (price r) || is_null (unit r)
        || is_null (quantity_available r)).

(** CHECK (price >= 0), CHECK (quantity_available >= 0). *)
Definition checks (r : row) : bool :=
  not_false (sql_ge (price r) (Some 0%Q))
  && not_false (sql_ge (quantity_available r) (Some 0%Q)).

(** "Anyone can view available products". *)
Definition select_using (uid : option uuid) (r : row) : tri :=
  sql_or (sql_eq_bool (is_available r) (Some true))
         (sql_eq_text (farmer_id r) uid).

(** "Farmers can insert own products". *)
Definition insert_check (profiles : list Profiles.row) (uid : option uuid)
    (r : row) : tri :=
  sql_and (sql_eq_text (farmer_id r) uid)
          (Some (exists_profile profiles uid "farmer")).

(** "Farmers can update own products". *)
Definition update_using (uid : option uuid) (r : row) : tri :=
  sql_eq_text (farmer_id r) uid.
Definition update_check (uid : option uuid) (r : row) : tri :=
  sql_eq_text (farmer_id r) uid.

(** "Farmers can delete own products". *)
Definition delete_using (uid : option uuid) (r : row) : tri :=
  sql_eq_text (farmer_id r) uid.
End Products.

Module Orders.
Record cols (F : Type -> Type) : Type := {
  id : F uuid;
  product_id : F uuid;
  retailer_id : F uuid;
  farmer_id : F uuid;
  quantity : F numeric;
  total_price : F numeric;
  status : F string;
  payment_method : F string;
  delivery_address : F string;
  notes : F string;
  created_at : F timestamptz;
  updated_at : F timestamptz
}.
Abbreviation row := (cols option) (only parsing).
Abbreviation payload := (cols field) (only parsing).

(** The keys present in a request body. *)
Definition supplied_columns (p : payload) : list string :=
  supplied_names
    [("id", supplied (id p)); ("product_id", supplied (product_id p));
     ("retailer_id", supplied (retailer_id p));
     ("farmer_id", supplied (farmer_id p));
     ("quantity", supplied (quantity p));
     ("total_price", supplied (total_price p));
     ("status", supplied (status p));
     ("payment_method", supplied (payment_method p));
     ("delivery_address", supplied (delivery_address p));
     ("notes", supplied (notes p));
     ("created_at", supplied (created_at p));
     ("updated_at", supplied (updated_at p))].

Definition new_row (env : ServerEnv) (p : payload) : row := {|
  id := insert_value (Some (gen_random_uuid env)) (id p);
  product_id := insert_value None (product_id p);
  retailer_id := insert_value None (retailer_id p);
  farmer_id := insert_value None (farmer_id p);
  quantity := insert_value None (quantity p);
  total_price := insert_value None (total_price p);
  status := insert_value (Some "pending") (status p);
  payment_method := insert_value None (payment_method p);
  delivery_address := insert_value None (delivery_address p);
  notes := insert_value None (notes p);
  created_at := insert_value (Some (now env)) (created_at p);
  updated_at := insert_value (Some (now env)) (updated_at p)
|}.

Definition assign (p : payload) (r : row) : row := {|
  id := update_value (id r) (id p);
  product_id := update_value (product_id r) (product_id p);
  retailer_id := update_value (retailer_id r) (retailer_id p);
  farmer_id := update_value (farmer_id r) (farmer_id p);
  quantity := update_value (quantity r) (quantity p);
  total_price := update_value (total_price r) (total_price p);
  status := update_value (status r) (status p);
  payment_method := update_value (payment_method r) (payment_method p);
  delivery_address := update_value (delivery_address r) (delivery_address p);
  notes := update_value (notes r) (notes p);
  created_at := update_value (created_at r) (created_at p);
  updated_at := update_value (updated_at r) (updated_at p)
|}.

Definition not_null (r : row) : bool :=
  negb (is_null (id r) || is_null (product_id r) || is_null (retailer_id r)
        || is_null (farmer_id r) || is_null (quantity r)
        || is_null (total_price r) || is_null (status r)
        || is_null (payment_method r) || is_null (delivery_address r)).

(** CHECK (quantity > 0), CHECK (total_price >= 0),
    CHECK (status IN (...)), CHECK (payment_method IN (...)). *)
Definition checks (r : row) : bool :=
  not_false (sql_gt (quantity r) (Some 0%Q))
  && not_false (sql_ge (total_price r) (Some 0%Q))
  && not_false (sql_in (status r) ["pending"; "accepted"; "rejected"; "completed"])
  && not_false (sql_in (payment_method r) ["online"; "cash_on_delivery"]).

(** "Users can view own orders". *)
Definition select_using (uid : option uuid) (r : row) : tri :=
  sql_or (sql_eq_text (retailer_id r) uid) (sql_eq_text (farmer_id r) uid).

(** "Retailers can create orders". *)
Definition insert_check (profiles : list Profiles.row) (uid : option uuid)
    (r : row) : tri :=
  sql_and (sql_eq_text (retailer_id r) uid)
          (Some (exists_profile profiles uid "retailer")).

(** "Order parties can update orders". *)
Definition update_using (uid : option uuid) (r : row) : tri :=
  sql_or (sql_eq_text (retailer_id r) uid) (sql_eq_text (farmer_id r) uid).
Definition update_check (uid : option uuid) (r : row) : tri :=
  sql_or (sql_eq_text (retailer_id r) uid) (sql_eq_text (farmer_id r) uid).
End Orders.

Module Messages.
Record cols (F : Type -> Type) : Type := {
  id : F uuid;
  sender_id : F uuid;
  receiver_id : F uuid;
  product_id : F uuid;
  message : F string;
  is_read : F bool;
  created_at : F timestamptz
}.
Abbreviation row := (cols option) (only parsing).
Abbreviation payload := (cols field) (only parsing).

Definition new_row (env : ServerEnv) (p : payload) : row := {|
  id := insert_value (Some (gen_random_uuid env)) (id p);
  sender_id := insert_value None (sender_id p);
  receiver_id := insert_value None (receiver_id p);
  product_id := insert_value None (product_id p);
  message := insert_value None (message p);
  is_read := insert_value (Some false) (is_read p);
  created_at := insert_value (Some (now env)) (created_at p)
|}.

Definition not_null (r : row) : bool :=
  negb (is_null (id r) || is_null (sender_id r) || is_null (receiver_id r)
        || is_null (message r)).

(** UPDATE ... SET: the supplied columns replace the stored ones. *)
Definition assign (p : payload) (r : row) : row := {|
  id := update_value (id r) (id p);
  sender_id := update_value (sender_id r) (sender_id p);
  receiver_id := update_value (receiver_id r) (receiver_id p);
  product_id := update_value (product_id r) (product_id p);
  message := update_value (message r) (message p);
  is_read := update_value (is_read r) (is_read p);
  created_at := update_value (created_at r) (created_at p)
|}.

(** ON DELETE SET NULL on [product_id]. *)
Definition clear_product (r : row) : row := {|
  id := id r;
  sender_id := sender_id r;
  receiver_id := receiver_id r;
  product_id := None;
  message := message r;
  is_read := is_read r;
  created_at := created_at r
|}.

(** "Users can view own messages". *)
Definition select_using (uid : option uuid) (r : row) : tri :=
  sql_or (sql_eq_text (sender_id r) uid) (sql_eq_text (receiver_id r) uid).

(** "Users can send messages". *)
Definition insert_check (uid : option uuid) (r : row) : tri :=
  sql_eq_text (sender_id r) uid.

(** "Users can update own received messages". *)
Definition update_using (uid : option uuid) (r : row) : tri :=
  sql_eq_text (receiver_id r) uid.
Definition update_check (uid : option uuid) (r : row) : tri :=
  sql_eq_text (receiver_id r) uid.
End Messages.

(** ** The database and its statements *)

Record DB : Type := {
  profiles : list Profiles.row;
  products : list Products.row;
  orders : list Orders.row;
  messages : list Messages.row
}.

(** Every policy is granted TO authenticated: a request without a principal
    ([auth.uid()] is NULL) is covered by no policy and sees or writes nothing. *)
Definition authenticated (uid : option uuid) : bool := negb (is_null uid).

(** *** SELECT: rows failing the policy or the WHERE clause are left out. *)

Definition select_profiles (db : DB) (uid : option uuid)
    (where_ : Profiles.row -> tri) : list Profiles.row :=
  filter (fun r => authenticated uid && is_true (Profiles.select_using uid r)
                   && is_true (where_ r))
         (profiles db).

Definition select_products (db : DB) (uid : option uuid)
    (where_ : Products.row -> tri) : list Products.row :=
  filter (fun r => authenticated uid && is_true (Products.select_using uid r)
                   && is_true (where_ r))
         (products db).

Definition select_orders (db : DB) (uid : option uuid)
    (where_ : Orders.row -> tri) : list Orders.row :=
  filter (fun r => authenticated uid && is_true (Orders.select_using uid r)
                   && is_true (where_ r))
         (orders db).

Definition select_messages (db : DB) (uid : option uuid)
    (where_ : Messages.row -> tri) : list Messages.row :=
  filter (fun r => authenticated uid && is_true (Messages.select_using uid r)
                   && is_true (where_ r))
         (messages db).

(** *** INSERT: defaults, then the WITH CHECK policy, then NOT NULL and
    CHECK constraints, then the primary key, then the foreign keys. *)

Definition insert_product (db : DB) (uid : option uuid) (env : ServerEnv)
    (p : Products.payload) : result DB :=
  let r := Products.new_row env p in
  if negb (authenticated uid
           && is_true (Products.insert_check (profiles db) uid r))
  then Err PolicyViolation
  else if negb (Products.not_null r) then Err NotNullViolation
  else if negb (Products.checks r) then Err CheckViolation
  else if negb (unique_keys (map (@Products.id _) (products db ++ [r])))
  then Err UniqueViolation
  else if negb (references (map (@Profiles.id _) (profiles db)) (Products.farmer_id r))
  then Err ForeignKeyViolation
  else Ok {| profiles := profiles db;
             products := products db ++ [r];
             orders := orders db;
             messages := messages db |}.

Definition insert_order (db : DB) (uid : option uuid) (env : ServerEnv)
    (p : Orders.payload) : result DB :=
  let r := Orders.new_row env p in
  if negb (authenticated uid
           && is_true (Orders.insert_check (profiles db) uid r))
  then Err PolicyViolation
  else if negb (Orders.not_null r) then Err NotNullViolation
  else if negb (Orders.checks r) then Err CheckViolation
  else if negb (unique_keys (map (@Orders.id _) (orders db ++ [r])))
  then Err UniqueViolation
  else if negb (references (map (@Products.id _) (products db)) (Orders.product_id r)
                && references (map (@Profiles.id _) (profiles db)) (Orders.retailer_id r)
                && references (map (@Profiles.id _) (profiles db)) (Orders.farmer_id r))
  then Err ForeignKeyViolation
  else Ok {| profiles := profiles db;
             products := products db;
             orders := orders db ++ [r];
             messages := messages db |}.

Definition insert_message (db : DB) (uid : option uuid) (env : ServerEnv)
    (p : Messages.payload) : result DB :=
  let r := Messages.new_row env p in
  if negb (authenticated uid && is_true (Messages.insert_check uid r))
  then Err PolicyViolation
  else if negb (Messages.not_null r) then Err NotNullViolation
  else if negb (unique_keys (map (@Messages.id _) (messages db ++ [r])))
  then Err UniqueViolation
  else if negb (references (map (@Profiles.id _) (profiles db)) (Messages.sender_id r)
                && references (map (@Profiles.id _) (profiles db)) (Messages.receiver_id r)
                && references (map (@Products.id _) (products db)) (Messages.product_id r))
  then Err ForeignKeyViolation
  else Ok {| profiles := profiles db;
             products := products db;
             orders := orders db;
             messages := messages db ++ [r] |}.

(** *** UPDATE ... WHERE.  The statement touches the stored rows that pass
    the UPDATE policy's USING, the WHERE clause and, because the WHERE
    clause reads the table, the SELECT policy; other rows are skipped
    without an error.  Each new row must pass WITH CHECK (and the SELECT
    policy again) and the constraints, or the whole statement fails. *)

Definition products_target (uid : option uuid) (where_ : Products.row -> tri)
    (r : Products.row) : bool :=
  authenticated uid && is_true (Products.select_using uid r)
  && is_true (Products.update_using uid r) && is_true (where_ r).

Definition products_verdict (uid : option uuid) (r' : Products.row) : option Error :=
  if negb (is_true (Products.update_check uid r')
           && is_true (Products.select_using uid r'))
  then Some PolicyViolation
  else if negb (Products.not_null r') then Some NotNullViolation
  else if negb (Products.checks r') then Some CheckViolation
  else None.

Definition update_products (db : DB) (uid : option uuid)
    (where_ : Products.row -> tri) (p : Products.payload) : result DB :=
  let target := products_target uid where_ in
  let rows' := map (fun r => if target r then Products.assign p r else r) (products db) in
  let changed := map (Products.assign p) (filter target (products db)) in
  match first_error (map (products_verdict uid) changed) with
  | Some e => Err e
  | None =>
      if negb (unique_keys (map (@Products.id _) rows')) then Err UniqueViolation
      else if negb (forallb (fun r' => references (map (@Profiles.id _) (profiles db))
                                                  (Products.farmer_id r')) changed
                    && forallb (references (map (@Products.id _) rows'))
                               (map (@Orders.product_id _) (orders db))
                    && forallb (references (map (@Products.id _) rows'))
                               (map (@Messages.product_id _) (messages db)))
      then Err ForeignKeyViolation
      else Ok {| profiles := profiles db;
                 products := rows';
                 orders := orders db;
                 messages := messages db |}
  end.

Definition orders_target (uid : option uuid) (where_ : Orders.row -> tri)
    (r : Orders.row) : bool :=
  authenticated uid && is_true (Orders.select_using uid r)
  && is_true (Orders.update_using uid r) && is_true (where_ r).

Definition orders_verdict (uid : option uuid) (r' : Orders.row) : option Error :=
  if negb (is_true (Orders.update_check uid r')
           && is_true (Orders.select_using uid r'))
  then Some PolicyViolation
  else if negb (Orders.not_null r') then Some NotNullViolation
  else if negb (Orders.checks r') then Some CheckViolation
  else None.

Definition update_orders (db : DB) (uid : option uuid)
    (where_ : Orders.row -> tri) (p : Orders.payload) : result DB :=
  let target := orders_target uid where_ in
  let rows' := map (fun r => if target r then Orders.assign p r else r) (orders db) in
  let changed := map (Orders.assign p) (filter target (orders db)) in
  match first_error (map (orders_verdict uid) changed) with
  | Some e => Err e
  | None =>
      if negb (unique_keys (map (@Orders.id _) rows')) then Err UniqueViolation
      else if negb (forallb
                      (fun r' =>
                         references (map (@Products.id _) (products db)) (Orders.product_id r')
                         && references (map (@Profiles.id _) (profiles db)) (Orders.retailer_id r')
                         && references (map (@Profiles.id _) (profiles db)) (Orders.farmer_id r'))
                      changed)
      then Err ForeignKeyViolation
      else Ok {| profiles := profiles db;
                 products := products db;
                 orders := rows';
                 messages := messages db |}
  end.

(** *** Statements on profiles.  [id] also references the auth provider's
    user table; a row that passes the policies carries the requester's own
    id, which is such a user, so that foreign key never fails here. *)

Definition insert_profile (db : DB) (uid : option uuid) (env : ServerEnv)
    (p : Profiles.payload) : result DB :=
  let r := Profiles.new_row env p in
  if negb (authenticated uid && is_true (Profiles.insert_check uid r))
  then Err PolicyViolation
  else if negb (Profiles.not_null r) then Err NotNullViolation
  else if negb (Profiles.checks r) then Err CheckViolation
  else if negb (unique_keys (map (@Profiles.id _) (profiles db ++ [r])))
  then Err UniqueViolation
  else Ok {| profiles := profiles db ++ [r];
             products := products db;
             orders := orders db;
             messages := messages db |}.

Definition profiles_target (uid : option uuid) (where_ : Profiles.row -> tri)
    (r : Profiles.row) : bool :=
  authenticated uid && is_true (Profiles.select_using uid r)
  && is_true (Profiles.update_using uid r) && is_true (where_ r).

Definition profiles_verdict (uid : option uuid) (r' : Profiles.row) : option Error :=
  if negb (is_true (Profiles.update_check uid r')
           && is_true (Profiles.select_using uid r'))
  then Some PolicyViolation
  else if negb (Profiles.not_null r') then Some NotNullViolation
  else if negb (Profiles.checks r') then Some CheckViolation
  else None.

Definition update_profiles (db : DB) (uid : option uuid)
    (where_ : Profiles.row -> tri) (p : Profiles.payload) : result DB :=
  let target := profiles_target uid where_ in
  let rows' := map (fun r => if target r then Profiles.assign p r else r) (profiles db) in
  let changed := map (Profiles.assign p) (filter target (profiles db)) in
  match first_error (map (profiles_verdict uid) changed) with
  | Some e => Err e
  | None =>
      if negb (unique_keys (map (@Profiles.id _) rows')) then Err UniqueViolation
      else if negb (forallb (references (map (@Profiles.id _) rows'))
                            (map (@Products.farmer_id _) (products db))
                    && forallb (references (map (@Profiles.id _) rows'))
                               (map (@Orders.retailer_id _) (orders db))
                    && forallb (references (map (@Profiles.id _) rows'))
                               (map (@Orders.farmer_id _) (orders db))
                    && forallb (references (map (@Profiles.id _) rows'))
                               (map (@Messages.sender_id _) (messages db))
                    && forallb (references (map (@Profiles.id _) rows'))
                               (map (@Messages.receiver_id _) (messages db)))
      then Err ForeignKeyViolation
      else Ok {| profiles := rows';
                 products := products db;
                 orders := orders db;
                 messages := messages db |}
  end.

Definition messages_target (uid : option uuid) (where_ : Messages.row -> tri)
    (r : Messages.row) : bool :=
  authenticated uid && is_true (Messages.select_using uid r)
  && is_true (Messages.update_using uid r) && is_true (where_ r).

Definition messages_verdict (uid : option uuid) (r' : Messages.row) : option Error :=
  if negb (is_true (Messages.update_check uid r')
           && is_true (Messages.select_using uid r'))
  then Some PolicyViolation
  else if negb (Messages.not_null r') then Some NotNullViolation
  else None.

Definition update_messages (db : DB) (uid : option uuid)
    (where_ : Messages.row -> tri) (p : Messages.payload) : result DB :=
  let target := messages_target uid where_ in
  let rows' := map (fun r => if target r then Messages.assign p r else r) (messages db) in
  let changed := map (Messages.assign p) (filter target (messages db)) in
  match first_error (map (messages_verdict uid) changed) with
  | Some e => Err e
  | None =>
      if negb (unique_keys (map (@Messages.id _) rows')) then Err UniqueViolation
      else if negb (forallb
                      (fun r' =>
                         references (map (@Profiles.id _) (profiles db)) (Messages.sender_id r')
                         && references (map (@Profiles.id _) (profiles db)) (Messages.receiver_id r')
                         && references (map (@Products.id _) (products db)) (Messages.product_id r'))
                      changed)
      then Err ForeignKeyViolation
      else Ok {| profiles := profiles db;
                 products := products db;
                 orders := orders db;
                 messages := rows' |}
  end.

(** *** DELETE ... WHERE on products.  The statement removes the stored rows
    that pass the DELETE policy's USING, the WHERE clause and the SELECT
    policy; other rows are skipped without an error.  The foreign keys that
    reference a removed listing then act, with the rights of the tables'
    owner: its orders are removed (ON DELETE CASCADE) and its messages lose
    the reference (ON DELETE SET NULL). *)

Definition products_doomed (uid : option uuid) (where_ : Products.row -> tri)
    (r : Products.row) : bool :=
  authenticated uid && is_true (Products.select_using uid r)
  && is_true (Products.delete_using uid r) && is_true (where_ r).

(** The foreign key [fk] names one of [keys]. *)
Definition refers_to (keys : list (option uuid)) (fk : option uuid) : bool :=
  existsb (fun k => is_true (sql_eq_text k fk)) keys.

Definition delete_products (db : DB) (uid : option uuid)
    (where_ : Products.row -> tri) : result DB :=
  let gone := map (@Products.id _) (filter (products_doomed uid where_) (products db)) in
  Ok {| profiles := profiles db;
        products := filter (fun r => negb (products_doomed uid where_ r)) (products db);
        orders := filter (fun o => negb (refers_to gone (Orders.product_id o))) (orders db);
        messages := map (fun m => if refers_to gone (Messages.product_id m)
                                  then Messages.clear_product m else m)
                        (messages db) |}.

(** *** ORDER BY created_at DESC.  NULLs come first; rows with equal
    timestamps, whose order PostgreSQL leaves open, stay in storage order.
    The comparison of two [timestamptz] values is the storage's own. *)

Section OrderBy.
Variable timestamptz_leb : timestamptz -> timestamptz -> bool.
Variable A : Type.
Variable key : A -> option timestamptz.

Definition desc_before (a b : option timestamptz) : bool :=
  match a, b with
  | None, _ => true
  | Some _, None => false
  | Some x, Some y => timestamptz_leb y x
  end.

Fixpoint insert_desc (x : A) (l : list A) : list A :=
  match l with
  | [] => [x]
  | y :: l' =>
      if desc_before (key x) (key y) then x :: y :: l' else y :: insert_desc x l'
  end.

Definition order_by_desc (l : list A) : list A := fold_right insert_desc [] l.

End OrderBy.

(** A to-one resource embedded in a select (the listing's owner, the
    order's listing and parties): the referenced row, if the requester may
    read it. *)
Definition embed_profile (db : DB) (uid : option uuid) (fk : option uuid)
    : option Profiles.row :=
  find (fun p => authenticated uid && is_true (Profiles.select_using uid p)
                 && is_true (sql_eq_text (Profiles.id p) fk))
       (profiles db).

Definition embed_product (db : DB) (uid : option uuid) (fk : option uuid)
    : option Products.row :=
  find (fun l => authenticated uid && is_true (Products.select_using uid l)
                 && is_true (sql_eq_text (Products.id l) fk))
       (products db).

(** The state a statement leaves behind: a rejected write is rolled back
    as a whole. *)
Definition commit (db : DB) (res : result DB) : DB :=
  match res with
  | Ok db' => db'
  | Err _ => db
  end.

(** *** Requests.  What an API client can send that may change a table, and
    the database after a sequence of requests.  (No policy covers a DELETE
    on profiles, orders or messages, which therefore removes nothing.) *)

Inductive Statement : Type :=
| InsertProfile (p : Profiles.payload)
| UpdateProfiles (where_ : Profiles.row -> tri) (p : Profiles.payload)
| InsertProduct (p : Products.payload)
| UpdateProducts (where_ : Products.row -> tri) (p : Products.payload)
| DeleteProducts (where_ : Products.row -> tri)
| InsertOrder (p : Orders.payload)
| UpdateOrders (where_ : Orders.row -> tri) (p : Orders.payload)
| InsertMessage (p : Messages.payload)
| UpdateMessages (where_ : Messages.row -> tri) (p : Messages.payload).

Record Request : Type := {
  req_uid : option uuid;
  req_env : ServerEnv;
  req_statement : Statement
}.

Definition execute (db : DB) (rq : Request) : result DB :=
  match req_statement rq with
  | InsertProfile p => insert_profile db (req_uid rq) (req_env rq) p
  | UpdateProfiles w p => update_profiles db (req_uid rq) w p
  | InsertProduct p => insert_product db (req_uid rq) (req_env rq) p
  | UpdateProducts w p => update_products db (req_uid rq) w p
  | DeleteProducts w => delete_products db (req_uid rq) w
  | InsertOrder p => insert_order db (req_uid rq) (req_env rq) p
  | UpdateOrders w p => update_orders db (req_uid rq) w p
  | InsertMessage p => insert_message db (req_uid rq) (req_env rq) p
  | UpdateMessages w p => update_messages db (req_uid rq) w p
  end.

Definition run (db : DB) (rqs : list Request) : DB :=
  fold_left (fun d rq => commit d (execute d rq)) rqs db.

Definition empty_db : DB :=
  {| profiles := []; products := []; orders := []; messages := [] |}.

End Schema.

(** ** The client: TypeScript interfaces and component handlers *)

Module Client.
Import Schema.

(** *** [lib/supabase.ts] *)

Inductive UserType : Type := farmer | retailer.

Inductive OrderStatus : Type := pending | accepted | rejected | completed.

Inductive PaymentMethod : Type := online | cash_on_delivery.

Definition UserType_eqb (a b : UserType) : bool :=
  match a, b with
  | farmer, farmer | retailer, retailer => true
  | _, _ => false
  end.

Definition OrderStatus_eqb (a b : OrderStatus) : bool :=
  match a, b with
  | pending, pending | accepted, accepted
  | rejected, rejected | completed, completed => true
  | _, _ => false
  end.

(** The text a status literal is sent as. *)
Definition status_text (s : OrderStatus) : string :=
  match s with
  | pending => "pending"
  | accepted => "accepted"
  | rejected => "rejected"
  | completed => "completed"
  end.

(** The signed-in user of the auth session. *)
Module User.
Record t : Type := { id : string }.
End User.

Module Profile.
Record t : Type := {
  id : string;
  user_type : UserType;
  full_name : string;
  phone : option string;
  location : option string;
  latitude : option float;
  longitude : option float;
  bio : option string;
  avatar_url : option string;
  created_at : string;
  updated_at : string
}.
End Profile.

Module Product.
Record t : Type := {
  id : string;
  farmer_id : string;
  name : string;
  description : option string;
  category : string;
  price : float;
  unit : string;
  quantity_available : float;
  image_url : option string;
  location : option string;
  is_available : bool;
  created_at : string;
  updated_at : string;
  profiles : option Profile.t
}.
End Product.

Module Order.
Record t : Type := {
  id : string;
  product_id : string;
  retailer_id : string;
  farmer_id : string;
  quantity : float;
  total_price : float;
  status : OrderStatus;
  payment_method : PaymentMethod;
  delivery_address : string;
  notes : option string;
  created_at : string;
  updated_at : string;
  products : option Product.t;
  retailer : option Profile.t;
  farmer : option Profile.t
}.

(** [{ ...o, status }] *)
Definition with_status (o : t) (s : OrderStatus) : t := {|
  id := id o;
  product_id := product_id o;
  retailer_id := retailer_id o;
  farmer_id := farmer_id o;
  quantity := quantity o;
  total_price := total_price o;
  status := s;
  payment_method := payment_method o;
  delivery_address := delivery_address o;
  notes := notes o;
  created_at := created_at o;
  updated_at := updated_at o;
  products := products o;
  retailer := retailer o;
  farmer := farmer o
|}.
End Order.

(** The principal a request is made as.  [useAuth()] hands the components
    the user of the auth session, and the storage client signs every request
    with that session, so [auth.uid()] is [user?.id]. *)
Definition session_uid (user : option User.t) : option uuid :=
  option_map User.id user.

(** [s || null] on a string: the empty string is falsy. *)
Definition or_null (s : string) : option string :=
  if s =? "" then None else Some s.

(** [user?.id] as an object property: [undefined] drops the key from the
    request body. *)
Definition user_id_field (user : option User.t) : field uuid :=
  match user with
  | Some u => Supplied (Some (User.id u))
  | None => Omitted
  end.

(** [.eq('id', x)] *)
Definition eq_product_id (x : string) (r : Products.row) : tri :=
  sql_eq_text (Products.id r) (Some x).

Definition eq_order_id (x : string) (r : Orders.row) : tri :=
  sql_eq_text (Orders.id r) (Some x).

(** *** String search used by the marketplace *)

Fixpoint startsWith (s q : string) : bool :=
  match q, s with
  | EmptyString, _ => true
  | String _ _, EmptyString => false
  | String b q', String a s' => Ascii.eqb a b && startsWith s' q'
  end.

(** [s.includes(q)]: [q] occurs in [s] at some position. *)
Fixpoint includes (s q : string) : bool :=
  startsWith s q
  || match s with
     | EmptyString => false
     | String _ s' => includes s' q
     end.

Section Runtime.

(** Built-ins of the JavaScript runtime and of the wire format, which the
    handlers call and the repository does not define:
    - [parseFloat] reads a number off the front of a string (NaN if none);
    - [toLowerCase] is the locale-independent Unicode lower-casing;
    - [numeric_of_number] is the [numeric] a column receives for a number
      in the JSON body ([null] for NaN and the infinities). *)
Variable parseFloat : string -> float.
Variable toLowerCase : string -> string.
Variable numeric_of_number : float -> option numeric.

(** *** [Marketplace]: [filterProducts] *)

Definition matches_query (query : string) (p : Product.t) : bool :=
  includes (toLowerCase (Product.name p)) query
  || match Product.description p with
     | Some d => includes (toLowerCase d) query
     | None => false
     end
  || match Product.location p with
     | Some l => includes (toLowerCase l) query
     | None => false
     end.

Definition filterProducts (products : list Product.t)
    (searchQuery selectedCategory : string) : list Product.t :=
  let filtered := products in
  let filtered :=
    if negb (selectedCategory =? "All")
    then filter (fun p => Product.category p =? selectedCategory) filtered
    else filtered in
  let filtered :=
    if negb (searchQuery =? "")
    then let query := toLowerCase searchQuery in
         filter (matches_query query) filtered
    else filtered in
  filtered.

(** *** [ProductDetailModal]: [handlePlaceOrder] *)

Record OrderData : Type := {
  od_quantity : string;
  od_payment_method : string;
  od_delivery_address : string;
  od_notes : string
}.

Definition order_payload (user : option User.t) (product : Product.t)
    (orderData : OrderData) : Orders.payload :=
  let quantity := parseFloat (od_quantity orderData) in
  let totalPrice := (quantity * Product.price product)%float in
  {| Orders.id := Omitted;
     Orders.product_id := Supplied (Some (Product.id product));
     Orders.retailer_id := user_id_field user;
     Orders.farmer_id := Supplied (Some (Product.farmer_id product));
     Orders.quantity := Supplied (numeric_of_number quantity);
     Orders.total_price := Supplied (numeric_of_number totalPrice);
     Orders.status := Supplied (Some "pending");
     Orders.payment_method := Supplied (Some (od_payment_method orderData));
     Orders.delivery_address := Supplied (Some (od_delivery_address orderData));
     Orders.notes := Supplied (or_null (od_notes orderData));
     Orders.created_at := Omitted;
     Orders.updated_at := Omitted |}.

Definition handlePlaceOrder (db : DB) (env : ServerEnv) (user : option User.t)
    (product : Product.t) (orderData : OrderData) : result DB :=
  insert_order db (session_uid user) env (order_payload user product orderData).

(** *** [AddProductModal]: [handleSubmit] *)

Record FormData : Type := {
  fd_name : string;
  fd_description : string;
  fd_category : string;
  fd_price : string;
  fd_unit : string;
  fd_quantity_available : string;
  fd_image_url : string;
  fd_location : string
}.

(** [productData], with [farmer_id] as the insert path spreads it in. *)
Definition productData (formData : FormData) (farmer_id : field uuid)
    : Products.payload :=
  {| Products.id := Omitted;
     Products.farmer_id := farmer_id;
     Products.name := Supplied (Some (fd_name formData));
     Products.description := Supplied (Some (fd_description formData));
     Products.category := Supplied (Some (fd_category formData));
     Products.price := Supplied (numeric_of_number (parseFloat (fd_price formData)));
     Products.unit := Supplied (Some (fd_unit formData));
     Products.quantity_available :=
       Supplied (numeric_of_number (parseFloat (fd_quantity_available formData)));
     Products.image_url := Supplied (or_null (fd_image_url formData));
     Products.location := Supplied (or_null (fd_location formData));
     Products.is_available := Omitted;
     Products.created_at := Omitted;
     Products.updated_at := Omitted |}.

Definition handleSubmit (db : DB) (env : ServerEnv) (user : option User.t)
    (product : option Product.t) (formData : FormData) : result DB :=
  match product with
  | Some p =>
      update_products db (session_uid user) (eq_product_id (Product.id p))
                      (productData formData Omitted)
  | None =>
      insert_product db (session_uid user) env
                     (productData formData (user_id_field user))
  end.

End Runtime.

(** *** [Orders]: [handleUpdateStatus] and the status buttons *)

Definition status_payload (status : OrderStatus) (updated_at : string)
    : Orders.payload :=
  {| Orders.id := Omitted;
     Orders.product_id := Omitted;
     Orders.retailer_id := Omitted;
     Orders.farmer_id := Omitted;
     Orders.quantity := Omitted;
     Orders.total_price := Omitted;
     Orders.status := Supplied (Some (status_text status));
     Orders.payment_method := Omitted;
     Orders.delivery_address := Omitted;
     Orders.notes := Omitted;
     Orders.created_at := Omitted;
     Orders.updated_at := Supplied (Some updated_at) |}.

(** The handler's effect on the storage and on the component's [orders]
    state; [date] is [new Date().toISOString()].  On an error both are left
    as they were (the handler only alerts). *)
Definition handleUpdateStatus (db : DB) (user : option User.t)
    (orders : list Order.t) (date : string)
    (orderId : string) (status : OrderStatus) : DB * list Order.t :=
  match update_orders db (session_uid user) (eq_order_id orderId)
                      (status_payload status date) with
  | Ok db' =>
      (db', map (fun o => if Order.id o =? orderId
                          then Order.with_status o status else o) orders)
  | Err _ => (db, orders)
  end.

(** [profile?.user_type === 'farmer'] *)
Definition is_farmer (profile : option Profile.t) : bool :=
  match profile with
  | Some p => UserType_eqb (Profile.user_type p) farmer
  | None => false
  end.

(** The statuses for which the order card renders a button calling
    [handleUpdateStatus(order.id, _)]: Accept and Reject, then Complete. *)
Definition status_buttons (profile : option Profile.t) (order : Order.t)
    : list OrderStatus :=
  (if is_farmer profile && OrderStatus_eqb (Order.status order) pending
   then [accepted; rejected] else [])
  ++ (if is_farmer profile && OrderStatus_eqb (Order.status order) accepted
      then [completed] else []).

(** [{ ...p, is_available }] *)
Definition with_is_available (p : Product.t) (v : bool) : Product.t := {|
  Product.id := Product.id p;
  Product.farmer_id := Product.farmer_id p;
  Product.name := Product.name p;
  Product.description := Product.description p;
  Product.category := Product.category p;
  Product.price := Product.price p;
  Product.unit := Product.unit p;
  Product.quantity_available := Product.quantity_available p;
  Product.image_url := Product.image_url p;
  Product.location := Product.location p;
  Product.is_available := v;
  Product.created_at := Product.created_at p;
  Product.updated_at := Product.updated_at p;
  Product.profiles := Product.profiles p
|}.

(** [filteredOrders]: the tab selected above the list. *)
Inductive OrdersFilter : Type :=
| all
| only (s : OrderStatus).

Definition filteredOrders (filter_ : OrdersFilter) (orders : list Order.t)
    : list Order.t :=
  match filter_ with
  | all => orders
  | only s => filter (fun o => OrderStatus_eqb (Order.status o) s) orders
  end.

(** *** [FarmerDashboard]: [handleDelete], [handleToggleAvailability] *)

(** [{ is_available: v }] *)
Definition availability_payload (v : bool) : Products.payload :=
  {| Products.id := Omitted;
     Products.farmer_id := Omitted;
     Products.name := Omitted;
     Products.description := Omitted;
     Products.category := Omitted;
     Products.price := Omitted;
     Products.unit := Omitted;
     Products.quantity_available := Omitted;
     Products.image_url := Omitted;
     Products.location := Omitted;
     Products.is_available := Supplied (Some v);
     Products.created_at := Omitted;
     Products.updated_at := Omitted |}.

(** The handler's effect on the storage and on the component's [products]
    state.  An error is only logged. *)
Definition handleToggleAvailability (db : DB) (user : option User.t)
    (products : list Product.t) (product : Product.t) : DB * list Product.t :=
  match update_products db (session_uid user) (eq_product_id (Product.id product))
                        (availability_payload (negb (Product.is_available product))) with
  | Ok db' =>
      (db', map (fun p => if Product.id p =? Product.id product
                          then with_is_available p (negb (Product.is_available p))
                          else p) products)
  | Err _ => (db, products)
  end.

(** [confirmed] is the answer to the confirmation dialog. *)
Definition handleDelete (db : DB) (user : option User.t)
    (products : list Product.t) (confirmed : bool) (id : string)
    : DB * list Product.t :=
  if negb confirmed then (db, products)
  else match delete_products db (session_uid user) (eq_product_id id) with
       | Ok db' => (db', filter (fun p => negb (Product.id p =? id)) products)
       | Err _ => (db, products)
       end.

(** *** The queries behind [loadProducts] and [loadOrders]: the rows each
    component stores as its state. *)

Section Queries.
Variable timestamptz_leb : timestamptz -> timestamptz -> bool.

(** [Marketplace]: every listing flagged available, newest first, each
    with its owner's profile embedded. *)
Definition Marketplace_loadProducts (db : DB) (user : option User.t)
    : list (Products.row * option Profiles.row) :=
  map (fun r => (r, embed_profile db (session_uid user) (Products.farmer_id r)))
      (order_by_desc timestamptz_leb (@Products.created_at _)
         (select_products db (session_uid user)
            (fun r => sql_eq_bool (Products.is_available r) (Some true)))).

(** [FarmerDashboard]: the listings whose [farmer_id] is the user's id.  The
    effect that calls it runs only with a user. *)
Definition FarmerDashboard_loadProducts (db : DB) (user : User.t)
    : list Products.row :=
  order_by_desc timestamptz_leb (@Products.created_at _)
    (select_products db (Some (User.id user))
       (fun r => sql_eq_text (Products.farmer_id r) (Some (User.id user)))).

(** An order with its embedded listing and parties. *)
Record OrderEntry : Type := {
  entry_order : Orders.row;
  entry_products : option Products.row;
  entry_retailer : option Profiles.row;
  entry_farmer : option Profiles.row
}.

(** [Orders]: a farmer's incoming orders, anyone else's purchases. *)
Definition Orders_loadOrders (db : DB) (user : User.t) (profile : option Profile.t)
    : list OrderEntry :=
  let uid := Some (User.id user) in
  let isFarmer := is_farmer profile in
  map (fun o => {| entry_order := o;
                   entry_products := embed_product db uid (Orders.product_id o);
                   entry_retailer := embed_profile db uid (Orders.retailer_id o);
                   entry_farmer := embed_profile db uid (Orders.farmer_id o) |})
      (order_by_desc timestamptz_leb (@Orders.created_at _)
         (select_orders db uid
            (fun o => sql_eq_text (if isFarmer then Orders.farmer_id o
                                   else Orders.retailer_id o) uid))).

End Queries.

(** *** [App] and [Navbar]: which view a signed-in profile gets *)

Inductive View : Type := FarmerDashboardView | MarketplaceView | OrdersView.

Inductive Screen : Type :=
| LoadingScreen
| AuthScreen
| MainScreen (v : View).

Definition renderView (profile : Profile.t) (currentView : string) : View :=
  if UserType_eqb (Profile.user_type profile) farmer
  then if currentView =? "dashboard" then FarmerDashboardView
       else if currentView =? "orders" then OrdersView
       else FarmerDashboardView
  else if currentView =? "marketplace" then MarketplaceView
       else if currentView =? "orders" then OrdersView
       else MarketplaceView.

Definition AppContent (loading : bool) (user : option User.t)
    (profile : option Profile.t) (currentView : string) : Screen :=
  if loading then LoadingScreen
  else match user, profile with
       | Some _, Some p => MainScreen (renderView p currentView)
       | _, _ => AuthScreen
       end.

(** The navigation items, as id and label. *)
Definition navItems (profile : option Profile.t) : list (string * string) :=
  if is_farmer profile
  then [("dashboard", "My Products"); ("orders", "Orders"); ("messages", "Messages")]
  else [("marketplace", "Marketplace"); ("orders", "My Orders");
        ("messages", "Messages")].

(** *** Concrete runtime functions for worked examples *)

Definition lower_ascii (c : ascii) : ascii :=
  let n := nat_of_ascii c in
  if Nat.leb 65 n && Nat.leb n 90 then ascii_of_nat (n + 32) else c.

(** Lower-casing restricted to the letters A-Z. *)
Fixpoint ascii_toLowerCase (s : string) : string :=
  match s with
  | EmptyString => EmptyString
  | String c s' => String (lower_ascii c) (ascii_toLowerCase s')
  end.

Definition digit_value (c : ascii) : option float :=
  match c with
  | "0"%char => Some 0%float | "1"%char => Some 1%float
  | "2"%char => Some 2%float | "3"%char => Some 3%float
  | "4"%char => Some 4%float | "5"%char => Some 5%float
  | "6"%char => Some 6%float | "7"%char => Some 7%float
  | "8"%char => Some 8%float | "9"%char => Some 9%float
  | _ => None
  end.

Fixpoint digits_value (s : string) (acc : float) : option float :=
  match s with
  | EmptyString => Some acc
  | String c s' =>
      match digit_value c with
      | Some d => digits_value s' (acc * 10 + d)%float
      | None => None
      end
  end.

(** [parseFloat] on strings of decimal digits; NaN elsewhere. *)
Definition digits_parseFloat (s : string) : float :=
  match s with
  | EmptyString => nan
  | _ => match digits_value s 0%float with
         | Some f => f
         | None => nan
         end
  end.

(** The exact value of a finite double; it is the [numeric] the storage
    receives whenever that value prints as itself (integers below 2^53). *)
Definition exact_numeric (f : float) : option numeric :=
  match Prim2SF f with
  | S754_zero _ => Some 0%Q
  | S754_finite s m e =>
      Some (Qred ((if s then - (Zpos m # 1) else (Zpos m # 1)) * Qpower (2 # 1) e))%Q
  | _ => None
  end.

Definition utc_digit (c : ascii) : option Z :=
  let n := nat_of_ascii c in
  if Nat.leb 48 n && Nat.leb n 57 then Some (Z.of_nat (n - 48)%nat) else None.

(** Reads YYYY-MM-DDTHH:MM:SS[.f...]Z as the number YYYYMMDDHHMMSS plus the
    fraction of a second: the digits before the point build the whole part,
    those after it the fraction, and reading stops at the zone. *)
Fixpoint utc_digits (s : string) (in_fraction : bool) (whole num : Z)
    (den : positive) : Q :=
  match s with
  | EmptyString => ((whole # 1) + (num # den))%Q
  | String c s' =>
      if Ascii.eqb c "Z"%char || Ascii.eqb c "+"%char
      then ((whole # 1) + (num # den))%Q
      else if Ascii.eqb c "."%char then utc_digits s' true whole num den
      else match utc_digit c with
           | Some d =>
               if in_fraction
               then utc_digits s' true whole (num * 10 + d)%Z (den * 10)%positive
               else utc_digits s' false (whole * 10 + d)%Z num den
           | None => utc_digits s' in_fraction whole num den
           end
  end.

Definition utc_key (s : string) : Q := utc_digits s false 0%Z 0%Z 1%positive.

(** The order of instants on timestamps written in UTC with zero-padded
    fields, YYYY-MM-DDTHH:MM:SS, with or without a fraction of a second,
    and a final Z. *)
Definition utc_leb (a b : string) : bool := Qle_bool (utc_key a) (utc_key b).

End Client.

Import Schema.

(** ** Specification vocabulary *)

(** The requester's identity record carries the given role. *)
Definition has_role (db : DB) (uid : uuid) (role : string) : Prop :=
  exists pr, In pr (profiles db)
             /\ Profiles.id pr = Some uid
             /\ Profiles.user_type pr = Some role.

(** A stored order row meets the table's constraints and foreign keys. *)
Definition order_row_valid (db : DB) (r : Orders.row) : Prop :=
  Orders.not_null r = true
  /\ Orders.checks r = true
  /\ references (map (@Products.id _) (products db)) (Orders.product_id r) = true
  /\ references (map (@Profiles.id _) (profiles db)) (Orders.retailer_id r) = true
  /\ references (map (@Profiles.id _) (profiles db)) (Orders.farmer_id r) = true.

(** The orders table as the storage keeps it: distinct primary keys, every
    row valid. *)
Definition orders_consistent (db : DB) : Prop :=
  unique_keys (map (@Orders.id _) (orders db)) = true
  /\ Forall (order_row_valid db) (orders db).

Definition profile_row_valid (r : Profiles.row) : Prop :=
  Profiles.not_null r = true /\ Profiles.checks r = true.

Definition product_row_valid (db : DB) (r : Products.row) : Prop :=
  Products.not_null r = true
  /\ Products.checks r = true
  /\ references (map (@Profiles.id _) (profiles db)) (Products.farmer_id r) = true.

Definition message_row_valid (db : DB) (r : Messages.row) : Prop :=
  Messages.not_null r = true
  /\ references (map (@Profiles.id _) (profiles db)) (Messages.sender_id r) = true
  /\ references (map (@Profiles.id _) (profiles db)) (Messages.receiver_id r) = true
  /\ references (map (@Products.id _) (products db)) (Messages.product_id r) = true.

(** Everything the schema declares holds of the stored rows: primary keys
    are distinct, NOT NULL and CHECK constraints hold, foreign keys name
    stored rows. *)
Definition db_consistent (db : DB) : Prop :=
  (unique_keys (map (@Profiles.id _) (profiles db)) = true
   /\ Forall profile_row_valid (profiles db))
  /\ (unique_keys (map (@Products.id _) (products db)) = true
      /\ Forall (product_row_valid db) (products db))
  /\ orders_consistent db
  /\ (unique_keys (map (@Messages.id _) (messages db)) = true
      /\ Forall (message_row_valid db) (messages db)).

(** The Orders view shows what is stored: every card is a stored order the
    user is a party to, with the stored status. *)
Definition orders_in_sync (db : DB) (uid : string) (cards : list Client.Order.t) : Prop :=
  Forall (fun o =>
            exists r, In r (orders db)
                      /\ Orders.id r = Some (Client.Order.id o)
                      /\ (Orders.retailer_id r = Some uid \/ Orders.farmer_id r = Some uid)
                      /\ Orders.status r = Some (Client.status_text (Client.Order.status o)))
         cards.

(** The request body [p] with its [farmer_id] replaced by [g]. *)
Definition naming_farmer (p : Orders.payload) (g : uuid) : Orders.payload := {|
  Orders.id := Orders.id p;
  Orders.product_id := Orders.product_id p;
  Orders.retailer_id := Orders.retailer_id p;
  Orders.farmer_id := Supplied (Some g);
  Orders.quantity := Orders.quantity p;
  Orders.total_price := Orders.total_price p;
  Orders.status := Orders.status p;
  Orders.payment_method := Orders.payment_method p;
  Orders.delivery_address := Orders.delivery_address p;
  Orders.notes := Orders.notes p;
  Orders.created_at := Orders.created_at p;
  Orders.updated_at := Orders.updated_at p
|}.

(** The farmer's dashboard shows what is stored: every card is a stored
    listing of the user, with the stored availability flag. *)
Definition listings_in_sync (db : DB) (uid : string) (cards : list Client.Product.t)
    : Prop :=
  Forall (fun c =>
            exists r, In r (products db)
                      /\ Products.id r = Some (Client.Product.id c)
                      /\ Products.farmer_id r = Some uid
                      /\ Products.is_available r = Some (Client.Product.is_available c))
         cards.

Section SearchVocabulary.
Import Client.
Variable toLowerCase : string -> string.



(** The same selection as one boolean test per listing. *)
Definition listing_selectedb (c q : string) (p : Product.t) : bool :=
  ((c =? "All") || (Product.category p =? c))
  && ((q =? "") || matches_query toLowerCase (toLowerCase q) p).

End SearchVocabulary.

(** ** A worked scenario: farmer F lists tomatoes, retailer R orders 5 kg *)

Module Scenario.
Import Client.

Definition profile_row (id role full_name : string) : Profiles.row := {|
  Profiles.id := Some id;
  Profiles.user_type := Some role;
  Profiles.full_name := Some full_name;
  Profiles.phone := None;
  Profiles.location := None;
  Profiles.latitude := None;
  Profiles.longitude := None;
  Profiles.bio := None;
  Profiles.avatar_url := None;
  Profiles.created_at := Some "2025-10-16T16:01:38Z";
  Profiles.updated_at := Some "2025-10-16T16:01:38Z"
|}.

Definition farmer_F : Profiles.row := profile_row "farmer-F" "farmer" "F".
Definition farmer_G : Profiles.row := profile_row "farmer-G" "farmer" "G".
Definition retailer_R : Profiles.row := profile_row "retailer-R" "retailer" "R".

Definition tomatoes : Products.row := {|
  Products.id := Some "listing-1";
  Products.farmer_id := Some "farmer-F";
  Products.name := Some "Tomatoes";
  Products.description := None;
  Products.category := Some "Vegetables";
  Products.price := Some (20 # 1);
  Products.unit := Some "kg";
  Products.quantity_available := Some (100 # 1);
  Products.image_url := None;
  Products.location := None;
  Products.is_available := Some true;
  Products.created_at := Some "2025-10-16T17:00:00Z";
  Products.updated_at := Some "2025-10-16T17:00:00Z"
|}.

(** R's order for 5 kg, with the given status and farmer. *)
Definition order_row (status farmer_id : string) : Orders.row := {|
  Orders.id := Some "order-1";
  Orders.product_id := Some "listing-1";
  Orders.retailer_id := Some "retailer-R";
  Orders.farmer_id := Some farmer_id;
  Orders.quantity := Some (5 # 1);
  Orders.total_price := Some (100 # 1);
  Orders.status := Some status;
  Orders.payment_method := Some "cash_on_delivery";
  Orders.delivery_address := Some "1 Market Road";
  Orders.notes := None;
  Orders.created_at := Some "2025-10-17T09:00:00Z";
  Orders.updated_at := Some "2025-10-17T09:00:00Z"
|}.

Definition db_with (orders : list Orders.row) : DB := {|
  profiles := [farmer_F; farmer_G; retailer_R];
  products := [tomatoes];
  orders := orders;
  messages := []
|}.

Definition env : ServerEnv := {|
  now := "2025-10-17T09:00:00Z";
  gen_random_uuid := "order-1"
|}.

(** The listing as R's marketplace shows it. *)
Definition tomatoes_listing : Product.t := {|
  Product.id := "listing-1";
  Product.farmer_id := "farmer-F";
  Product.name := "Tomatoes";
  Product.description := None;
  Product.category := "Vegetables";
  Product.price := 20%float;
  Product.unit := "kg";
  Product.quantity_available := 100%float;
  Product.image_url := None;
  Product.location := None;
  Product.is_available := true;
  Product.created_at := "2025-10-16T17:00:00Z";
  Product.updated_at := "2025-10-16T17:00:00Z";
  Product.profiles := None
|}.

(** F's identity record as the auth context hands it to the views. *)
Definition profile_F : Profile.t := {|
  Profile.id := "farmer-F";
  Profile.user_type := farmer;
  Profile.full_name := "F";
  Profile.phone := None;
  Profile.location := None;
  Profile.latitude := None;
  Profile.longitude := None;
  Profile.bio := None;
  Profile.avatar_url := None;
  Profile.created_at := "2025-10-16T16:01:38Z";
  Profile.updated_at := "2025-10-16T16:01:38Z"
|}.

Definition user_R : User.t := {| User.id := "retailer-R" |}.
Definition user_F : User.t := {| User.id := "farmer-F" |}.

Definition five_kg : OrderData := {|
  od_quantity := "5";
  od_payment_method := "cash_on_delivery";
  od_delivery_address := "1 Market Road";
  od_notes := ""
|}.

(** R's order as the Orders view holds it, with the given status. *)
Definition order_card (status : OrderStatus) : Order.t := {|
  Order.id := "order-1";
  Order.product_id := "listing-1";
  Order.retailer_id := "retailer-R";
  Order.farmer_id := "farmer-F";
  Order.quantity := 5%float;
  Order.total_price := 100%float;
  Order.status := status;
  Order.payment_method := cash_on_delivery;
  Order.delivery_address := "1 Market Road";
  Order.notes := None;
  Order.created_at := "2025-10-17T09:00:00Z";
  Order.updated_at := "2025-10-17T09:00:00Z";
  Order.products := None;
  Order.retailer := None;
  Order.farmer := None
|}.

(** An update that names only [farmer_id]. *)
Definition repoint_farmer (farmer_id : string) : Orders.payload := {|
  Orders.id := Omitted;
  Orders.product_id := Omitted;
  Orders.retailer_id := Omitted;
  Orders.farmer_id := Supplied (Some farmer_id);
  Orders.quantity := Omitted;
  Orders.total_price := Omitted;
  Orders.status := Omitted;
  Orders.payment_method := Omitted;
  Orders.delivery_address := Omitted;
  Orders.notes := Omitted;
  Orders.created_at := Omitted;
  Orders.updated_at := Omitted
|}.

(** An update of a profile that names only [user_type]. *)
Definition switch_role (role : string) : Profiles.payload := {|
  Profiles.id := Omitted;
  Profiles.user_type := Supplied (Some role);
  Profiles.full_name := Omitted;
  Profiles.phone := Omitted;
  Profiles.location := Omitted;
  Profiles.latitude := Omitted;
  Profiles.longitude := Omitted;
  Profiles.bio := Omitted;
  Profiles.avatar_url := Omitted;
  Profiles.created_at := Omitted;
  Profiles.updated_at := Omitted
|}.

(** F's listing once F has switched its availability off. *)
Definition tomatoes_hidden : Products.row := {|
  Products.id := Some "listing-1";
  Products.farmer_id := Some "farmer-F";
  Products.name := Some "Tomatoes";
  Products.description := None;
  Products.category := Some "Vegetables";
  Products.price := Some (20 # 1);
  Products.unit := Some "kg";
  Products.quantity_available := Some (100 # 1);
  Products.image_url := None;
  Products.location := None;
  Products.is_available := Some false;
  Products.created_at := Some "2025-10-16T17:00:00Z";
  Products.updated_at := Some "2025-10-16T17:00:00Z"
|}.

Definition db_hidden : DB := {|
  profiles := [farmer_F; farmer_G; retailer_R];
  products := [tomatoes_hidden];
  orders := [];
  messages := []
|}.

(** The form of the product modal, as F fills it to list or re-price
    tomatoes. *)
Definition tomatoes_form (price : string) : FormData := {|
  fd_name := "Tomatoes";
  fd_description := "";
  fd_category := "Vegetables";
  fd_price := price;
  fd_unit := "kg";
  fd_quantity_available := "100";
  fd_image_url := "";
  fd_location := ""
|}.

(** A message from [sender] to [receiver] about no listing. *)
Definition message_body (sender receiver : string) : Messages.payload := {|
  Messages.id := Omitted;
  Messages.sender_id := Supplied (Some sender);
  Messages.receiver_id := Supplied (Some receiver);
  Messages.product_id := Omitted;
  Messages.message := Supplied (Some "Are the tomatoes still available?");
  Messages.is_read := Omitted;
  Messages.created_at := Omitted
|}.

(** The tomatoes as a marketplace that loaded them at another price still
    shows them. *)
Definition tomatoes_loaded_at (price : float) : Product.t := {|
  Product.id := "listing-1";
  Product.farmer_id := "farmer-F";
  Product.name := "Tomatoes";
  Product.description := None;
  Product.category := "Vegetables";
  Product.price := price;
  Product.unit := "kg";
  Product.quantity_available := 100%float;
  Product.image_url := None;
  Product.location := None;
  Product.is_available := true;
  Product.created_at := "2025-10-16T17:00:00Z";
  Product.updated_at := "2025-10-16T17:00:00Z";
  Product.profiles := None
|}.

(** An order for 5 kg of the tomatoes that R sends to the storage itself,
    naming [farmer_id] as the farmer. *)
Definition direct_order (farmer_id : string) : Orders.payload := {|
  Orders.id := Omitted;
  Orders.product_id := Supplied (Some "listing-1");
  Orders.retailer_id := Supplied (Some "retailer-R");
  Orders.farmer_id := Supplied (Some farmer_id);
  Orders.quantity := Supplied (Some (5 # 1));
  Orders.total_price := Supplied (Some (100 # 1));
  Orders.status := Omitted;
  Orders.payment_method := Supplied (Some "cash_on_delivery");
  Orders.delivery_address := Supplied (Some "1 Market Road");
  Orders.notes := Omitted;
  Orders.created_at := Omitted;
  Orders.updated_at := Omitted
|}.

(** F's second listing, added half a second after the tomatoes. *)
Definition onions : Products.row := {|
  Products.id := Some "listing-2";
  Products.farmer_id := Some "farmer-F";
  Products.name := Some "Onions";
  Products.description := None;
  Products.category := Some "Vegetables";
  Products.price := Some (30 # 1);
  Products.unit := Some "kg";
  Products.quantity_available := Some (50 # 1);
  Products.image_url := None;
  Products.location := None;
  Products.is_available := Some true;
  Products.created_at := Some "2025-10-16T17:00:00.5Z";
  Products.updated_at := Some "2025-10-16T17:00:00.5Z"
|}.

(** F's third listing, added the next day. *)
Definition carrots : Products.row := {|
  Products.id := Some "listing-3";
  Products.farmer_id := Some "farmer-F";
  Products.name := Some "Carrots";
  Products.description := None;
  Products.category := Some "Vegetables";
  Products.price := Some (25 # 1);
  Products.unit := Some "kg";
  Products.quantity_available := Some (40 # 1);
  Products.image_url := None;
  Products.location := None;
  Products.is_available := Some true;
  Products.created_at := Some "2025-10-17T08:30:00Z";
  Products.updated_at := Some "2025-10-17T08:30:00Z"
|}.

(** R's order for onions, placed at the given instant. *)
Definition onions_order (id created_at : string) : Orders.row := {|
  Orders.id := Some id;
  Orders.product_id := Some "listing-2";
  Orders.retailer_id := Some "retailer-R";
  Orders.farmer_id := Some "farmer-F";
  Orders.quantity := Some (2 # 1);
  Orders.total_price := Some (60 # 1);
  Orders.status := Some "pending";
  Orders.payment_method := Some "online";
  Orders.delivery_address := Some "1 Market Road";
  Orders.notes := None;
  Orders.created_at := Some created_at;
  Orders.updated_at := Some created_at
|}.

(** Three listings and three orders, stored oldest first. *)
Definition db_busy : DB := {|
  profiles := [farmer_F; farmer_G; retailer_R];
  products := [tomatoes; onions; carrots];
  orders := [order_row "pending" "farmer-F";
             onions_order "order-2" "2025-10-17T09:00:00.25Z";
             onions_order "order-3" "2025-10-18T07:15:00Z"];
  messages := []
|}.

End Scenario.

(** ** Three-valued logic: when does an expression come out TRUE *)

(** A statement that returned [Ok] passed its next guard. *)
Ltac pass_guard H :=
  match type of H with
  | (if negb ?c then _ else _) = Ok _ =>
      let E := fresh "E" in destruct c eqn:E; simpl in H; [|discriminate]
  end.

Lemma is_true_sql_or (a b : tri) :
  is_true (sql_or a b) = true <-> is_true a = true \/ is_true b = true.
Proof.
  destruct a as [[|]|], b as [[|]|]; simpl; intuition discriminate.
Qed.

Lemma is_true_sql_and (a b : tri) :
  is_true (sql_and a b) = true <-> is_true a = true /\ is_true b = true.
Proof.
  destruct a as [[|]|], b as [[|]|]; simpl; intuition discriminate.
Qed.

Lemma is_true_eq_text (x : option string) (a : string) :
  is_true (sql_eq_text x (Some a)) = true <-> x = Some a.
Proof.
  destruct x as [s|]; simpl.
  - destruct (String.eqb_spec s a) as [->|Hne]; split; intro H;
      try reflexivity; try discriminate.
    inversion H; contradiction.
  - split; discriminate.
Qed.

Lemma is_true_eq_bool (x : option bool) (b : bool) :
  is_true (sql_eq_bool x (Some b)) = true <-> x = Some b.
Proof.
  destruct x as [[|]|], b; simpl; split; intro H;
    try reflexivity; try discriminate.
Qed.

Lemma is_true_Some (b : bool) : is_true (Some b) = b.
Proof. destruct b; reflexivity. Qed.

Lemma exists_profile_spec (db : DB) (uid : uuid) (role : string) :
  exists_profile (profiles db) (Some uid) role = true <-> has_role db uid role.
Proof.
  unfold exists_profile, has_role. rewrite existsb_exists.
  split.
  - intros (pr & Hin & H). exists pr. split; [exact Hin|].
    apply andb_true_iff in H. destruct H as [_ H].
    apply is_true_sql_and in H. destruct H as [H1 H2].
    apply is_true_eq_text in H1. apply is_true_eq_text in H2. tauto.
  - intros (pr & Hin & H1 & H2). exists pr. split; [exact Hin|].
    apply andb_true_iff. split; [reflexivity|].
    apply is_true_sql_and. split; apply is_true_eq_text; assumption.
Qed.

(** ** Listings: who may read, who may insert *)

(** C1.  A principal P reads listing L exactly when L is stored and its
    availability flag is true or P is its owning farmer; every other row
    is left out of the result, which is always a plain list of rows. *)
Theorem products_read_visibility :
  forall (db : DB) (P : uuid) (where_ : Products.row -> tri) (L : Products.row),
    In L (select_products db (Some P) where_) <->
    In L (products db)
    /\ (Products.is_available L = Some true \/ Products.farmer_id L = Some P)
    /\ is_true (where_ L) = true.
Proof.
  intros db P where_ L. unfold select_products.
  rewrite filter_In. simpl.
  rewrite andb_true_iff. unfold Products.select_using.
  rewrite is_true_sql_or, is_true_eq_bool, is_true_eq_text.
  tauto.
Qed.

(** C4.  A listing insert gets through the insert policy exactly when the
    row's farmer_id is the requester and the requester's identity record
    has role farmer: with both, the statement is never refused by the
    policy, and it is stored whenever the table's constraints hold; an
    insert that breaks either conjunct is refused, and a successful insert
    satisfies both. *)
Theorem products_insert_policy :
  forall (db : DB) (uid : uuid) (env : ServerEnv) (p : Products.payload),
    let r := Products.new_row env p in
    (is_true (Products.insert_check (profiles db) (Some uid) r) = true <->
     Products.farmer_id r = Some uid /\ has_role db uid "farmer")
    /\ (insert_product db (Some uid) env p <> Err PolicyViolation <->
        Products.farmer_id r = Some uid /\ has_role db uid "farmer")
    /\ (Products.farmer_id r <> Some uid ->
        insert_product db (Some uid) env p = Err PolicyViolation)
    /\ (~ has_role db uid "farmer" ->
        insert_product db (Some uid) env p = Err PolicyViolation)
    /\ (forall db', insert_product db (Some uid) env p = Ok db' ->
        Products.farmer_id r = Some uid /\ has_role db uid "farmer")
    /\ (Products.farmer_id r = Some uid /\ has_role db uid "farmer" ->
        product_row_valid db r ->
        unique_keys (map (@Products.id _) (products db ++ [r])) = true ->
        insert_product db (Some uid) env p
        = Ok {| profiles := profiles db;
                products := products db ++ [r];
                orders := orders db;
                messages := messages db |}).
Proof.
  intros db uid env p r.
  assert (Hpol : is_true (Products.insert_check (profiles db) (Some uid) r) = true <->
                 Products.farmer_id r = Some uid /\ has_role db uid "farmer").
  { unfold Products.insert_check.
    rewrite is_true_sql_and, is_true_eq_text, is_true_Some, exists_profile_spec.
    tauto. }
  split; [exact Hpol|].
  assert (Hrej : is_true (Products.insert_check (profiles db) (Some uid) r) = false ->
                 insert_product db (Some uid) env p = Err PolicyViolation).
  { intro E. unfold insert_product. fold r. change (authenticated (Some uid)) with true.
    rewrite E. reflexivity. }
  assert (Hpass : is_true (Products.insert_check (profiles db) (Some uid) r) = true ->
                  insert_product db (Some uid) env p <> Err PolicyViolation).
  { intro E. unfold insert_product. fold r. change (authenticated (Some uid)) with true.
    rewrite E. cbn [negb andb].
    repeat match goal with
           | |- context [negb ?b] => destruct b; cbn [negb]
           end; discriminate. }
  destruct (is_true (Products.insert_check (profiles db) (Some uid) r)) eqn:E.
  - assert (H : Products.farmer_id r = Some uid /\ has_role db uid "farmer")
      by (apply Hpol; reflexivity).
    split; [split; [intros _; exact H | intros _; apply Hpass; reflexivity]|].
    split; [tauto|]. split; [tauto|]. split; [intros; exact H|].
    intros _ (Hnn & Hck & Hfk) Hu.
    unfold insert_product. fold r. change (authenticated (Some uid)) with true.
    rewrite E, Hnn, Hck, Hu, Hfk. reflexivity.
  - assert (H : ~ (Products.farmer_id r = Some uid /\ has_role db uid "farmer"))
      by (intro H; apply Hpol in H; discriminate).
    specialize (Hrej eq_refl).
    split; [split; [intro Hne; contradiction | intro Hc; contradiction]|].
    split; [intros _; exact Hrej|]. split; [intros _; exact Hrej|].
    split; [intros db' Hok; rewrite Hrej in Hok; discriminate|].
    intros Hc. contradiction.
Qed.

(** ** Orders: the insert statement taken apart *)

Lemma insert_order_inv (db db' : DB) (uid : option uuid) (env : ServerEnv)
    (p : Orders.payload) :
  insert_order db uid env p = Ok db' ->
  let r := Orders.new_row env p in
  authenticated uid = true
  /\ is_true (Orders.insert_check (profiles db) uid r) = true
  /\ Orders.not_null r = true
  /\ Orders.checks r = true
  /\ db' = {| profiles := profiles db;
              products := products db;
              orders := orders db ++ [r];
              messages := messages db |}.
Proof.
  intros H r. unfold insert_order in H. fold r in H.
  pass_guard H. pass_guard H. pass_guard H. pass_guard H. pass_guard H.
  match goal with
  | Hp : authenticated uid && _ = true |- _ =>
      apply andb_true_iff in Hp; destruct Hp
  end.
  inversion H. repeat split; assumption.
Qed.

Lemma Qlt_bool_iff (x y : Q) : Qlt_bool x y = true <-> (x < y)%Q.
Proof.
  unfold Qlt_bool. rewrite negb_true_iff. split.
  - intro H. apply Qnot_le_lt. intro Hle.
    apply Qle_bool_iff in Hle. congruence.
  - intro H. destruct (Qle_bool y x) eqn:E; [|reflexivity].
    apply Qle_bool_iff in E. exfalso. exact (Qlt_not_le _ _ H E).
Qed.

Lemma orders_quantity_positive (r : Orders.row) :
  Orders.not_null r = true -> Orders.checks r = true ->
  exists q t, Orders.quantity r = Some q /\ (0 < q)%Q
              /\ Orders.total_price r = Some t /\ (0 <= t)%Q.
Proof.
  unfold Orders.not_null, Orders.checks. intros Hn Hc.
  rewrite negb_true_iff in Hn. repeat rewrite orb_false_iff in Hn.
  repeat rewrite andb_true_iff in Hc.
  destruct Hn as [[[[[[[[_ _] _] _] Hq] Ht] _] _] _].
  destruct Hc as [[[Hcq Hct] _] _].
  destruct (Orders.quantity r) as [q|]; [|discriminate].
  destruct (Orders.total_price r) as [t|]; [|discriminate].
  exists q, t. simpl in Hcq, Hct.
  destruct (Qlt_bool 0 q) eqn:E1; [|discriminate].
  destruct (Qle_bool 0 t) eqn:E2; [|discriminate].
  apply Qlt_bool_iff in E1. apply Qle_bool_iff in E2. auto.
Qed.

Lemma orders_checks_fail (r : Orders.row) :
  (exists q, Orders.quantity r = Some q /\ (q <= 0)%Q)
  \/ (exists t, Orders.total_price r = Some t /\ (t < 0)%Q) ->
  Orders.checks r = false.
Proof.
  unfold Orders.checks. intros [(q & -> & Hq) | (t & -> & Ht)]; simpl.
  - assert (E : Qlt_bool 0 q = false).
    { destruct (Qlt_bool 0 q) eqn:E; [|reflexivity].
      apply Qlt_bool_iff in E. exfalso. exact (Qlt_not_le _ _ E Hq). }
    rewrite E. reflexivity.
  - assert (E : Qle_bool 0 t = false).
    { destruct (Qle_bool 0 t) eqn:E; [|reflexivity].
      apply Qle_bool_iff in E. exfalso. exact (Qlt_not_le _ _ Ht E). }
    rewrite E, andb_false_r. reflexivity.
Qed.

(** C3.  An order insert gets through the insert policy exactly when the
    row's retailer_id is the requester and the requester's identity record
    has role retailer: with both, the statement is never refused by the
    policy, and it is stored whenever the table's constraints hold; an
    insert whose retailer_id differs from the requester is refused, and a
    successful insert satisfies both conjuncts. *)
Theorem orders_insert_policy :
  forall (db : DB) (uid : uuid) (env : ServerEnv) (p : Orders.payload),
    let r := Orders.new_row env p in
    (is_true (Orders.insert_check (profiles db) (Some uid) r) = true <->
     Orders.retailer_id r = Some uid /\ has_role db uid "retailer")
    /\ (insert_order db (Some uid) env p <> Err PolicyViolation <->
        Orders.retailer_id r = Some uid /\ has_role db uid "retailer")
    /\ (Orders.retailer_id r <> Some uid ->
        insert_order db (Some uid) env p = Err PolicyViolation)
    /\ (~ has_role db uid "retailer" ->
        insert_order db (Some uid) env p = Err PolicyViolation)
    /\ (forall db', insert_order db (Some uid) env p = Ok db' ->
        Orders.retailer_id r = Some uid /\ has_role db uid "retailer")
    /\ (Orders.retailer_id r = Some uid /\ has_role db uid "retailer" ->
        order_row_valid db r ->
        unique_keys (map (@Orders.id _) (orders db ++ [r])) = true ->
        insert_order db (Some uid) env p
        = Ok {| profiles := profiles db;
                products := products db;
                orders := orders db ++ [r];
                messages := messages db |}).
Proof.
  intros db uid env p r.
  assert (Hpol : is_true (Orders.insert_check (profiles db) (Some uid) r) = true <->
                 Orders.retailer_id r = Some uid /\ has_role db uid "retailer").
  { unfold Orders.insert_check.
    rewrite is_true_sql_and, is_true_eq_text, is_true_Some, exists_profile_spec.
    tauto. }
  split; [exact Hpol|].
  assert (Hrej : is_true (Orders.insert_check (profiles db) (Some uid) r) = false ->
                 insert_order db (Some uid) env p = Err PolicyViolation).
  { intro E. unfold insert_order. fold r. change (authenticated (Some uid)) with true.
    rewrite E. reflexivity. }
  assert (Hpass : is_true (Orders.insert_check (profiles db) (Some uid) r) = true ->
                  insert_order db (Some uid) env p <> Err PolicyViolation).
  { intro E. unfold insert_order. fold r. change (authenticated (Some uid)) with true.
    rewrite E. cbn [negb andb].
    repeat match goal with
           | |- context [negb ?b] => destruct b; cbn [negb]
           end; discriminate. }
  destruct (is_true (Orders.insert_check (profiles db) (Some uid) r)) eqn:E.
  - assert (H : Orders.retailer_id r = Some uid /\ has_role db uid "retailer")
      by (apply Hpol; reflexivity).
    split; [split; [intros _; exact H | intros _; apply Hpass; reflexivity]|].
    split; [tauto|]. split; [tauto|]. split; [intros; exact H|].
    intros _ (Hnn & Hck & Hfp & Hfr & Hff) Hu.
    unfold insert_order. fold r. change (authenticated (Some uid)) with true.
    rewrite E, Hnn, Hck, Hu, Hfp, Hfr, Hff. reflexivity.
  - assert (H : ~ (Orders.retailer_id r = Some uid /\ has_role db uid "retailer"))
      by (intro H; apply Hpol in H; discriminate).
    specialize (Hrej eq_refl).
    split; [split; [intro Hne; contradiction | intro Hc; contradiction]|].
    split; [intros _; exact Hrej|]. split; [intros _; exact Hrej|].
    split; [intros db' Hok; rewrite Hrej in Hok; discriminate|].
    intros Hc. contradiction.
Qed.

(** C8.  An order insert succeeds only with quantity > 0 and
    total_price >= 0; a zero or negative quantity, or a negative
    total_price, makes the statement fail and leaves the database as it
    was.  When the policy and the NOT NULL constraints let the row through,
    the failure is the check violation. *)
Theorem orders_insert_constraints :
  forall (db : DB) (uid : option uuid) (env : ServerEnv) (p : Orders.payload),
    let r := Orders.new_row env p in
    (forall db', insert_order db uid env p = Ok db' ->
       exists q t, Orders.quantity r = Some q /\ (0 < q)%Q
                   /\ Orders.total_price r = Some t /\ (0 <= t)%Q)
    /\ (forall q, Orders.quantity r = Some q -> (q <= 0)%Q ->
          (exists e, insert_order db uid env p = Err e)
          /\ commit db (insert_order db uid env p) = db)
    /\ (forall t, Orders.total_price r = Some t -> (t < 0)%Q ->
          (exists e, insert_order db uid env p = Err e)
          /\ commit db (insert_order db uid env p) = db)
    /\ ((exists q, Orders.quantity r = Some q /\ (q <= 0)%Q)
        \/ (exists t, Orders.total_price r = Some t /\ (t < 0)%Q) ->
        authenticated uid = true ->
        is_true (Orders.insert_check (profiles db) uid r) = true ->
        Orders.not_null r = true ->
        insert_order db uid env p = Err CheckViolation).
Proof.
  intros db uid env p r.
  assert (Hok : forall db', insert_order db uid env p = Ok db' ->
                exists q t, Orders.quantity r = Some q /\ (0 < q)%Q
                            /\ Orders.total_price r = Some t /\ (0 <= t)%Q).
  { intros db' H. apply insert_order_inv in H.
    apply orders_quantity_positive; tauto. }
  split; [exact Hok|].
  split; [|split].
  - intros q Hq Hle.
    destruct (insert_order db uid env p) as [db'|e] eqn:E.
    + destruct (Hok db' eq_refl) as (q' & t & Hq' & Hpos & _).
      fold r in Hq'. rewrite Hq in Hq'. inversion Hq'; subst q'.
      exfalso. exact (Qlt_not_le _ _ Hpos Hle).
    + split; [exists e; reflexivity | reflexivity].
  - intros t Ht Hlt.
    destruct (insert_order db uid env p) as [db'|e] eqn:E.
    + destruct (Hok db' eq_refl) as (q & t' & _ & _ & Ht' & Hnn).
      fold r in Ht'. rewrite Ht in Ht'. inversion Ht'; subst t'.
      exfalso. exact (Qlt_not_le _ _ Hlt Hnn).
    + split; [exists e; reflexivity | reflexivity].
  - intros Hbad Ha Hp Hn. apply orders_checks_fail in Hbad.
    unfold insert_order. fold r. rewrite Ha, Hp, Hn, Hbad. reflexivity.
Qed.

(** ** Messages *)

(** C7.  A message insert succeeds only when the row's sender_id is the
    requester; in particular a row addressed to the requester whose
    sender_id names another identity is refused. *)
Theorem messages_insert_sender :
  forall (db : DB) (uid : uuid) (env : ServerEnv) (p : Messages.payload),
    let r := Messages.new_row env p in
    (forall db', insert_message db (Some uid) env p = Ok db' ->
       Messages.sender_id r = Some uid)
    /\ (Messages.sender_id r <> Some uid ->
        insert_message db (Some uid) env p = Err PolicyViolation)
    /\ (forall other, other <> uid ->
        Messages.sender_id p = Supplied (Some other) ->
        Messages.receiver_id p = Supplied (Some uid) ->
        insert_message db (Some uid) env p = Err PolicyViolation).
Proof.
  intros db uid env p r.
  assert (Hrej : Messages.sender_id r <> Some uid ->
                 insert_message db (Some uid) env p = Err PolicyViolation).
  { intro Hne. unfold insert_message. fold r. unfold Messages.insert_check.
    destruct (is_true (sql_eq_text (Messages.sender_id r) (Some uid))) eqn:E.
    - apply is_true_eq_text in E. contradiction.
    - reflexivity. }
  split; [|split].
  - intros db' Hok.
    destruct (is_true (sql_eq_text (Messages.sender_id r) (Some uid))) eqn:E.
    + apply is_true_eq_text in E. exact E.
    + rewrite Hrej in Hok; [discriminate|].
      intro Heq. apply (proj2 (is_true_eq_text _ _)) in Heq.
      rewrite E in Heq. discriminate.
  - exact Hrej.
  - intros other Hother Hs _. apply Hrej.
    unfold r, Messages.new_row. simpl. rewrite Hs. simpl.
    intro H. inversion H. contradiction.
Qed.

(** The scenario of the specification, run: R orders 5 kg of F's tomatoes
    priced 20, and the stored order is pending with total_price 100. *)
Example place_order_five_at_twenty :
  Client.handlePlaceOrder Client.digits_parseFloat Client.exact_numeric
    (Scenario.db_with []) Scenario.env (Some Scenario.user_R)
    Scenario.tomatoes_listing Scenario.five_kg
  = Ok (Scenario.db_with [Scenario.order_row "pending" "farmer-F"]).
Proof. vm_compute. reflexivity. Qed.

(** ** Primary keys identify rows *)

Lemma unique_keys_inj (A : Type) (key : A -> option string) (l : list A) :
  unique_keys (map key l) = true ->
  forall (a b : A) (x : string),
    In a l -> In b l -> key a = Some x -> key b = Some x -> a = b.
Proof.
  induction l as [|h l IH]; simpl; intros Hu a b x Ha Hb Hka Hkb; [contradiction|].
  apply andb_true_iff in Hu. destruct Hu as [Hh Hl].
  rewrite negb_true_iff in Hh.
  assert (Hclash : forall c, In c l -> key h = Some x -> key c = Some x -> False).
  { intros c Hc Hkh Hkc.
    assert (Hex : existsb (fun k' => is_true (sql_eq_text (key h) k')) (map key l) = true).
    { apply existsb_exists. exists (key c). split; [apply in_map; exact Hc|].
      rewrite Hkc. apply is_true_eq_text. exact Hkh. }
    rewrite Hex in Hh. discriminate. }
  destruct Ha as [<-|Ha], Hb as [<-|Hb].
  - reflexivity.
  - exfalso. exact (Hclash b Hb Hka Hkb).
  - exfalso. exact (Hclash a Ha Hkb Hka).
  - exact (IH Hl a b x Ha Hb Hka Hkb).
Qed.

(** ** Placing an order *)

(** The storage does not look at which stored identity an order names as
    farmer: an accepted insert is accepted with any other one. *)
Lemma naming_farmer_accepted (db db' : DB) (uid : option uuid) (env : ServerEnv)
    (p : Orders.payload) (g : uuid) :
  insert_order db uid env p = Ok db' ->
  references (map (@Profiles.id _) (profiles db)) (Some g) = true ->
  insert_order db uid env (naming_farmer p g)
  = Ok {| profiles := profiles db;
          products := products db;
          orders := orders db ++ [Orders.new_row env (naming_farmer p g)];
          messages := messages db |}.
Proof.
  intros Hok Hg.
  set (r := Orders.new_row env p).
  unfold insert_order in Hok. fold r in Hok.
  pass_guard Hok. pass_guard Hok. pass_guard Hok. pass_guard Hok. pass_guard Hok.
  clear Hok.
  match goal with
  | Hp : authenticated uid && _ = true |- _ =>
      apply andb_true_iff in Hp; destruct Hp as [Hauth Hchk]
  end.
  match goal with
  | Hf : _ && _ && _ = true |- _ =>
      repeat rewrite andb_true_iff in Hf; destruct Hf as [[Hfp Hfr] _]
  end.
  match goal with Hn : Orders.not_null r = true |- _ => rename Hn into Hnn end.
  match goal with Hc : Orders.checks r = true |- _ => rename Hc into Hck end.
  match goal with Hk : unique_keys _ = true |- _ => rename Hk into Hu end.
  set (r' := Orders.new_row env (naming_farmer p g)).
  assert (Hchk' : is_true (Orders.insert_check (profiles db) uid r') = true)
    by exact Hchk.
  assert (Hnn' : Orders.not_null r' = true).
  { unfold Orders.not_null in *.
    change (Orders.id r') with (Orders.id r).
    change (Orders.product_id r') with (Orders.product_id r).
    change (Orders.retailer_id r') with (Orders.retailer_id r).
    change (Orders.farmer_id r') with (Some g).
    change (Orders.quantity r') with (Orders.quantity r).
    change (Orders.total_price r') with (Orders.total_price r).
    change (Orders.status r') with (Orders.status r).
    change (Orders.payment_method r') with (Orders.payment_method r).
    change (Orders.delivery_address r') with (Orders.delivery_address r).
    destruct (is_null (Orders.id r)), (is_null (Orders.product_id r)),
      (is_null (Orders.retailer_id r)), (is_null (Orders.farmer_id r));
      try discriminate; exact Hnn. }
  assert (Hck' : Orders.checks r' = true) by exact Hck.
  assert (Hu' : unique_keys (map (@Orders.id _) (orders db ++ [r'])) = true).
  { rewrite map_app in *. exact Hu. }
  assert (Hfp' : references (map (@Products.id _) (products db)) (Orders.product_id r')
                 = true) by exact Hfp.
  assert (Hfr' : references (map (@Profiles.id _) (profiles db)) (Orders.retailer_id r')
                 = true) by exact Hfr.
  assert (Hff' : references (map (@Profiles.id _) (profiles db)) (Orders.farmer_id r')
                 = true) by exact Hg.
  unfold insert_order. fold r'.
  rewrite Hauth, Hchk', Hnn', Hck', Hu', Hfp', Hfr', Hff'. reflexivity.
Qed.

Section PlaceOrder.
Import Client.
Variable parseFloat : string -> float.
Variable numeric_of_number : float -> option Q.

(** A successful [handlePlaceOrder] appends exactly the row built from its
    request body. *)
Lemma handlePlaceOrder_inv (db db' : DB) (env : ServerEnv) (user : option User.t)
    (product : Product.t) (orderData : OrderData) :
  handlePlaceOrder parseFloat numeric_of_number db env user product orderData = Ok db' ->
  orders db' =
  (orders db ++ [Orders.new_row env
                   (order_payload parseFloat numeric_of_number user product orderData)])%list.
Proof.
  unfold handlePlaceOrder. intro H.
  apply insert_order_inv in H.
  destruct H as (_ & _ & _ & _ & ->). reflexivity.
Qed.

(** C5.  The request body of the order-placement operation names status
    'pending' and total_price = quantity * product.price, the product of
    two JavaScript numbers, product being the listing object the modal
    shows; every order it creates is stored with that status and that
    total.  Whenever that object carries the stored unit price of the
    listing the order references and the product is exact, the stored
    total is the stored quantity times that stored unit price.  Quantity 5
    at price 20 gives 100. *)
Theorem place_order_pending_total :
  forall (db : DB) (env : ServerEnv) (user : option User.t)
         (product : Product.t) (orderData : OrderData),
    let quantity := parseFloat (od_quantity orderData) in
    let body := order_payload parseFloat numeric_of_number user product orderData in
    Orders.status body = Supplied (Some (status_text pending))
    /\ Orders.quantity body = Supplied (numeric_of_number quantity)
    /\ Orders.total_price body =
       Supplied (numeric_of_number (quantity * Product.price product)%float)
    /\ (forall db',
          handlePlaceOrder parseFloat numeric_of_number db env user product orderData
          = Ok db' ->
          exists r, orders db' = (orders db ++ [r])%list
                    /\ Orders.status r = Some "pending"
                    /\ Orders.product_id r = Some (Product.id product)
                    /\ Orders.quantity r = numeric_of_number quantity
                    /\ Orders.total_price r =
                       numeric_of_number (quantity * Product.price product)%float)
    /\ (forall db' shown (q p : Q),
          handlePlaceOrder parseFloat numeric_of_number db env user product orderData
          = Ok db' ->
          unique_keys (map (@Products.id _) (products db)) = true ->
          In shown (products db) ->
          Products.id shown = Some (Product.id product) ->
          Products.price shown = Some p ->
          numeric_of_number (Product.price product) = Some p ->
          numeric_of_number quantity = Some q ->
          (exists t, numeric_of_number (quantity * Product.price product)%float = Some t
                     /\ (t == q * p)%Q) ->
          exists r t, orders db' = (orders db ++ [r])%list
                      /\ Orders.status r = Some "pending"
                      /\ Orders.quantity r = Some q
                      /\ Orders.total_price r = Some t
                      /\ (t == q * p)%Q
                      /\ forall l, In l (products db') ->
                                   Products.id l = Orders.product_id r ->
                                   Products.price l = Some p)
    /\ (quantity = 5%float -> Product.price product = 20%float ->
        Orders.total_price body = Supplied (numeric_of_number 100%float)).
Proof.
  intros db env user product orderData quantity body.
  split; [reflexivity|]. split; [reflexivity|]. split; [reflexivity|].
  split; [|split].
  - intros db' H. apply handlePlaceOrder_inv in H.
    eexists. split; [exact H|]. repeat split.
  - intros db' shown q p H Hu Hin Hid Hprice Hshown Hq (t & Ht & Heq).
    assert (Hprod : products db' = products db).
    { unfold handlePlaceOrder in H. apply insert_order_inv in H.
      destruct H as (_ & _ & _ & _ & ->). reflexivity. }
    apply handlePlaceOrder_inv in H.
    eexists. exists t. split; [exact H|].
    split; [reflexivity|]. split; [exact Hq|]. split; [exact Ht|].
    split; [exact Heq|].
    intros l Hl Hlid. rewrite Hprod in Hl.
    change (Products.id l = Some (Product.id product)) in Hlid.
    rewrite (unique_keys_inj (@Products.id _) (products db) Hu l shown Hl Hin Hlid Hid).
    exact Hprice.
  - intros Hq Hp. unfold body, order_payload. simpl.
    fold quantity. rewrite Hq, Hp. reflexivity.
Qed.

(** C6.  The order-placement operation records on the order the product id
    and the farmer_id of the listing object the modal shows; when that
    object agrees with the stored listing on both (listing ids being
    distinct), the new order and the stored listing it references name the
    same farmer.  The storage does not check the equality: whenever it
    accepts an order insert, it accepts the same insert naming any other
    stored identity as the farmer; nor is it checked afterwards, the
    retailer of a stored order can point its farmer_id at another
    identity. *)
Theorem place_order_farmer_of_listing :
  forall (db : DB) (env : ServerEnv) (user : option User.t)
         (product : Product.t) (orderData : OrderData),
    let body := order_payload parseFloat numeric_of_number user product orderData in
    (Orders.product_id body = Supplied (Some (Product.id product))
     /\ Orders.farmer_id body = Supplied (Some (Product.farmer_id product)))
    /\ (forall db',
          handlePlaceOrder parseFloat numeric_of_number db env user product orderData
          = Ok db' ->
          exists r, orders db' = (orders db ++ [r])%list
                    /\ Orders.product_id r = Some (Product.id product)
                    /\ Orders.farmer_id r = Some (Product.farmer_id product))
    /\ (forall db' shown,
          handlePlaceOrder parseFloat numeric_of_number db env user product orderData
          = Ok db' ->
          unique_keys (map (@Products.id _) (products db)) = true ->
          In shown (products db) ->
          Products.id shown = Some (Product.id product) ->
          Products.farmer_id shown = Some (Product.farmer_id product) ->
          exists r, orders db' = (orders db ++ [r])%list
                    /\ forall l, In l (products db') ->
                                 Products.id l = Orders.product_id r ->
                                 Products.farmer_id l = Orders.farmer_id r)
    /\ (forall (db0 db1 : DB) (uid : option uuid) (env0 : ServerEnv)
               (p : Orders.payload) (g : uuid),
          insert_order db0 uid env0 p = Ok db1 ->
          references (map (@Profiles.id _) (profiles db0)) (Some g) = true ->
          insert_order db0 uid env0 (naming_farmer p g)
          = Ok {| profiles := profiles db0;
                  products := products db0;
                  orders := orders db0 ++ [Orders.new_row env0 (naming_farmer p g)];
                  messages := messages db0 |}
          /\ Orders.farmer_id (Orders.new_row env0 (naming_farmer p g)) = Some g
          /\ Orders.product_id (Orders.new_row env0 (naming_farmer p g))
             = Orders.product_id (Orders.new_row env0 p))
    /\ (update_orders (Scenario.db_with [Scenario.order_row "pending" "farmer-F"])
                      (Some "retailer-R") (eq_order_id "order-1")
                      (Scenario.repoint_farmer "farmer-G")
        = Ok (Scenario.db_with [Scenario.order_row "pending" "farmer-G"])
        /\ Products.farmer_id Scenario.tomatoes = Some "farmer-F").
Proof.
  intros db env user product orderData body.
  split; [split; reflexivity|]. split; [|split; [|split]].
  - intros db' H. apply handlePlaceOrder_inv in H.
    eexists. split; [exact H|]. split; reflexivity.
  - intros db' shown H Hu Hin Hid Hfarmer.
    assert (Hprod : products db' = products db).
    { unfold handlePlaceOrder in H. apply insert_order_inv in H.
      destruct H as (_ & _ & _ & _ & ->). reflexivity. }
    apply handlePlaceOrder_inv in H.
    eexists. split; [exact H|].
    intros l Hl Hlid. rewrite Hprod in Hl.
    change (Products.id l = Some (Product.id product)) in Hlid.
    change (Products.farmer_id l = Some (Product.farmer_id product)).
    rewrite (unique_keys_inj (@Products.id _) (products db) Hu l shown Hl Hin Hlid Hid).
    exact Hfarmer.
  - intros db0 db1 uid env0 p g Hok Hg.
    split; [|split; reflexivity].
    apply naming_farmer_accepted with (db' := db1); assumption.
  - split; vm_compute; reflexivity.
Qed.

End PlaceOrder.

(** C5 as stated fails: R's marketplace loaded the tomatoes when they cost
    15, F has since re-priced them to 20, and R's order for 5 kg is stored
    against the listing with total_price 75, not 5 x 20. *)
Lemma stale_price_total :
  Products.id Scenario.tomatoes = Some "listing-1"
  /\ Products.price Scenario.tomatoes = Some (20 # 1)
  /\ (exists db',
        Client.handlePlaceOrder Client.digits_parseFloat Client.exact_numeric
          (Scenario.db_with []) Scenario.env (Some Scenario.user_R)
          (Scenario.tomatoes_loaded_at 15%float) Scenario.five_kg
        = Ok db'
        /\ products db' = [Scenario.tomatoes]
        /\ map (@Orders.product_id _) (orders db') = [Some "listing-1"]
        /\ map (@Orders.status _) (orders db') = [Some "pending"]
        /\ map (@Orders.quantity _) (orders db') = [Some (5 # 1)]
        /\ map (@Orders.total_price _) (orders db') = [Some (75 # 1)])
  /\ ~ (75 # 1 == (5 # 1) * (20 # 1))%Q.
Proof.
  split; [reflexivity|]. split; [reflexivity|]. split.
  - eexists. split; [vm_compute; reflexivity|].
    repeat split.
  - intro H. vm_compute in H. discriminate.
Qed.

(** R orders 5 kg of the tomatoes as stored, priced 20: the stored total is
    the stored quantity times the stored unit price. *)
Lemma place_order_pending_total_witness :
  exists r t,
    orders (Scenario.db_with [Scenario.order_row "pending" "farmer-F"])
    = (orders (Scenario.db_with []) ++ [r])%list
    /\ Orders.status r = Some "pending"
    /\ Orders.quantity r = Some (5 # 1)
    /\ Orders.total_price r = Some t
    /\ (t == (5 # 1) * (20 # 1))%Q
    /\ forall l,
         In l (products (Scenario.db_with [Scenario.order_row "pending" "farmer-F"])) ->
         Products.id l = Orders.product_id r ->
         Products.price l = Some (20 # 1).
Proof.
  destruct (@place_order_pending_total Client.digits_parseFloat Client.exact_numeric
              (Scenario.db_with []) Scenario.env (Some Scenario.user_R)
              Scenario.tomatoes_listing Scenario.five_kg)
    as (_ & _ & _ & _ & H & _).
  apply (H (Scenario.db_with [Scenario.order_row "pending" "farmer-F"])
           Scenario.tomatoes (5 # 1) (20 # 1)).
  - vm_compute. reflexivity.
  - reflexivity.
  - left. reflexivity.
  - reflexivity.
  - reflexivity.
  - vm_compute. reflexivity.
  - vm_compute. reflexivity.
  - exists (100 # 1). split; vm_compute; reflexivity.
Defined.

(** C6 as stated fails: the storage accepts R's order on F's tomatoes that
    names G as the farmer. *)
Lemma order_names_another_farmer :
  insert_order (Scenario.db_with []) (Some "retailer-R") Scenario.env
               (Scenario.direct_order "farmer-G")
  = Ok (Scenario.db_with [Scenario.order_row "pending" "farmer-G"])
  /\ Orders.product_id (Scenario.order_row "pending" "farmer-G")
     = Products.id Scenario.tomatoes
  /\ Orders.farmer_id (Scenario.order_row "pending" "farmer-G") = Some "farmer-G"
  /\ Products.farmer_id Scenario.tomatoes = Some "farmer-F"
  /\ Orders.farmer_id (Scenario.order_row "pending" "farmer-G")
     <> Products.farmer_id Scenario.tomatoes.
Proof.
  split; [vm_compute; reflexivity|]. split; [reflexivity|].
  split; [reflexivity|]. split; [reflexivity|].
  intro H. vm_compute in H. discriminate.
Qed.

(** R's order through the modal names F, the farmer of the stored
    tomatoes; the same request naming G is accepted as well. *)
Lemma place_order_farmer_of_listing_witness :
  (exists r,
     orders (Scenario.db_with [Scenario.order_row "pending" "farmer-F"])
     = (orders (Scenario.db_with []) ++ [r])%list
     /\ forall l,
          In l (products (Scenario.db_with [Scenario.order_row "pending" "farmer-F"])) ->
          Products.id l = Orders.product_id r ->
          Products.farmer_id l = Orders.farmer_id r)
  /\ insert_order (Scenario.db_with []) (Some "retailer-R") Scenario.env
                  (naming_farmer (Scenario.direct_order "farmer-F") "farmer-G")
     = Ok (Scenario.db_with [Scenario.order_row "pending" "farmer-G"]).
Proof.
  destruct (@place_order_farmer_of_listing Client.digits_parseFloat Client.exact_numeric
              (Scenario.db_with []) Scenario.env (Some Scenario.user_R)
              Scenario.tomatoes_listing Scenario.five_kg)
    as (_ & _ & Hshown & Hany & _).
  split.
  - apply (Hshown (Scenario.db_with [Scenario.order_row "pending" "farmer-F"])
                  Scenario.tomatoes).
    + vm_compute. reflexivity.
    + reflexivity.
    + left. reflexivity.
    + reflexivity.
    + reflexivity.
  - destruct (Hany (Scenario.db_with [])
                   (Scenario.db_with [Scenario.order_row "pending" "farmer-F"])
                   (Some "retailer-R") Scenario.env
                   (Scenario.direct_order "farmer-F") "farmer-G") as (Hok & _).
    + vm_compute. reflexivity.
    + reflexivity.
    + exact Hok.
Defined.

(** ** Marketplace search *)



Lemma filter_filter (A : Type) (f g : A -> bool) (l : list A) :
  filter g (filter f l) = filter (fun x => f x && g x) l.
Proof.
  induction l as [|x l IH]; simpl; [reflexivity|].
  destruct (f x); simpl; [destruct (g x)|]; rewrite IH; reflexivity.
Qed.

Lemma filter_all (A : Type) (l : list A) : filter (fun _ => true) l = l.
Proof. induction l as [|x l IH]; simpl; [|rewrite IH]; reflexivity. Qed.

Section Marketplace.
Import Client.
Variable toLowerCase : string -> string.




End Marketplace.

(** ** Editing a listing *)

Lemma update_products_inv (db db' : DB) (uid : option uuid)
    (where_ : Products.row -> tri) (p : Products.payload) :
  update_products db uid where_ p = Ok db' ->
  products db' =
  map (fun r => if products_target uid where_ r then Products.assign p r else r)
      (products db).
Proof.
  unfold update_products. intro H.
  destruct (first_error _); [discriminate|].
  pass_guard H. pass_guard H.
  inversion H. reflexivity.
Qed.

Section EditProduct.
Import Client.
Variable parseFloat : string -> float.
Variable numeric_of_number : float -> option Q.

(** C10.  The update path of the product modal sends exactly the columns
    name, description, category, price, unit, quantity_available, image_url
    and location; whatever the outcome, every stored listing keeps its
    farmer_id and its is_available flag. *)
Theorem edit_product_frame :
  forall (db : DB) (env : ServerEnv) (user : option User.t)
         (product : Product.t) (formData : FormData),
    let body := productData parseFloat numeric_of_number formData Omitted in
    let after :=
      commit db (handleSubmit parseFloat numeric_of_number db env user
                              (Some product) formData) in
    Products.supplied_columns body
    = ["name"; "description"; "category"; "price"; "unit";
       "quantity_available"; "image_url"; "location"]
    /\ handleSubmit parseFloat numeric_of_number db env user (Some product) formData
       = update_products db (session_uid user) (eq_product_id (Product.id product)) body
    /\ map (@Products.farmer_id _) (products after)
       = map (@Products.farmer_id _) (products db)
    /\ map (@Products.is_available _) (products after)
       = map (@Products.is_available _) (products db).
Proof.
  intros db env user product formData body after.
  split; [reflexivity|]. split; [reflexivity|].
  unfold after, handleSubmit. fold body.
  destruct (update_products db (session_uid user)
                            (eq_product_id (Product.id product)) body)
    as [db'|e] eqn:E; simpl commit; [|split; reflexivity].
  apply update_products_inv in E. rewrite E, !map_map.
  split; apply map_ext; intro r;
    destruct (products_target (session_uid user)
                              (eq_product_id (Product.id product)) r);
    reflexivity.
Qed.

End EditProduct.

(** ** Order status: what the view offers and what the storage accepts *)

Section StatusUpdate.
Import Client.

Lemma status_text_allowed (s : OrderStatus) :
  sql_in (Some (status_text s)) ["pending"; "accepted"; "rejected"; "completed"]
  = Some true.
Proof. destruct s; reflexivity. Qed.

(** Re-labelling the status of a valid row a party may update yields a row
    the storage accepts. *)
Lemma orders_verdict_status (uid : option uuid) (r : Orders.row)
    (s : OrderStatus) (date : string) :
  is_true (Orders.update_using uid r) = true ->
  Orders.not_null r = true ->
  Orders.checks r = true ->
  orders_verdict uid (Orders.assign (status_payload s date) r) = None.
Proof.
  intros Hu Hn Hc. unfold orders_verdict.
  change (Orders.update_check uid (Orders.assign (status_payload s date) r))
    with (Orders.update_using uid r).
  change (Orders.select_using uid (Orders.assign (status_payload s date) r))
    with (Orders.update_using uid r).
  rewrite Hu. simpl.
  assert (Hn' : Orders.not_null (Orders.assign (status_payload s date) r) = true).
  { unfold Orders.not_null in *. simpl.
    destruct (Orders.id r), (Orders.product_id r), (Orders.retailer_id r),
      (Orders.farmer_id r), (Orders.quantity r), (Orders.total_price r),
      (Orders.status r), (Orders.payment_method r), (Orders.delivery_address r);
      simpl in *; try discriminate; reflexivity. }
  assert (Hc' : Orders.checks (Orders.assign (status_payload s date) r) = true).
  { unfold Orders.checks in *. cbn [Orders.assign Orders.quantity Orders.total_price
      Orders.status Orders.payment_method status_payload update_value].
    rewrite status_text_allowed.
    repeat rewrite andb_true_iff in Hc. destruct Hc as [[[H1 H2] _] H4].
    rewrite H1, H2, H4. reflexivity. }
  rewrite Hn', Hc'. reflexivity.
Qed.

Lemma first_error_none (A : Type) (verdict : A -> option Error) (l : list A) :
  Forall (fun x => verdict x = None) l -> first_error (map verdict l) = None.
Proof.
  induction 1 as [|x l Hx _ IH]; simpl; [reflexivity|].
  rewrite Hx. exact IH.
Qed.

Lemma Forall_changed (A : Type) (P Q : A -> Prop) (target : A -> bool)
    (f : A -> A) (l : list A) :
  Forall P l ->
  (forall x, P x -> target x = true -> Q (f x)) ->
  Forall Q (map f (filter target l)).
Proof.
  intros Hl Hstep. induction Hl as [|x l Hx _ IH]; simpl; [constructor|].
  destruct (target x) eqn:E; simpl; [constructor; auto | exact IH].
Qed.

(** On a consistent orders table a status update never fails: it rewrites
    the rows the requester is a party to and that match the WHERE clause. *)
Lemma update_status_accepted (db : DB) (uid : option uuid)
    (where_ : Orders.row -> tri) (s : OrderStatus) (date : string) :
  orders_consistent db ->
  update_orders db uid where_ (status_payload s date)
  = Ok {| profiles := profiles db;
          products := products db;
          orders := map (fun r => if orders_target uid where_ r
                                  then Orders.assign (status_payload s date) r
                                  else r) (orders db);
          messages := messages db |}.
Proof.
  intros [Huniq Hvalid]. unfold update_orders.
  rewrite first_error_none.
  - assert (Hids : map (@Orders.id _)
                     (map (fun r => if orders_target uid where_ r
                                    then Orders.assign (status_payload s date) r
                                    else r) (orders db))
                   = map (@Orders.id _) (orders db)).
    { rewrite map_map. apply map_ext. intro r.
      destruct (orders_target uid where_ r); reflexivity. }
    rewrite Hids, Huniq. simpl.
    rewrite (proj2 (forallb_forall _ _)); [reflexivity|].
    apply Forall_forall.
    apply Forall_changed with (P := order_row_valid db); [exact Hvalid|].
    intros r (_ & _ & H1 & H2 & H3) _.
    change (Orders.product_id (Orders.assign (status_payload s date) r))
      with (Orders.product_id r).
    change (Orders.retailer_id (Orders.assign (status_payload s date) r))
      with (Orders.retailer_id r).
    change (Orders.farmer_id (Orders.assign (status_payload s date) r))
      with (Orders.farmer_id r).
    rewrite H1, H2, H3. reflexivity.
  - apply Forall_changed with (P := order_row_valid db); [exact Hvalid|].
    intros r (Hn & Hc & _) Ht. apply orders_verdict_status; try assumption.
    unfold orders_target in Ht. repeat rewrite andb_true_iff in Ht. tauto.
Qed.

(** C2, as the code has it.  The Orders view renders no status button on an
    order it shows as rejected or completed, whoever looks at it, so the
    client offers no transition out of these states.  The storage keeps no
    such rule: on a consistent table, an update by either party of an order
    in a terminal status to any of the four statuses is accepted and
    stored. *)
Theorem terminal_status_by_view_only :
  forall (profile : option Profile.t) (order : Order.t)
         (db : DB) (uid oid : string) (r : Orders.row)
         (s : OrderStatus) (date : string),
    Order.status order = rejected \/ Order.status order = completed ->
    orders_consistent db ->
    In r (orders db) ->
    Orders.id r = Some oid ->
    Orders.retailer_id r = Some uid \/ Orders.farmer_id r = Some uid ->
    Orders.status r = Some "rejected" \/ Orders.status r = Some "completed" ->
    status_buttons profile order = []
    /\ exists db',
         update_orders db (Some uid) (eq_order_id oid) (status_payload s date) = Ok db'
         /\ In (Orders.assign (status_payload s date) r) (orders db')
         /\ Orders.id (Orders.assign (status_payload s date) r) = Some oid
         /\ Orders.status (Orders.assign (status_payload s date) r)
            = Some (status_text s).
Proof.
  intros profile order db uid oid r s date Hterm Hcons Hin Hid Hparty _.
  split.
  - unfold status_buttons.
    destruct Hterm as [-> | ->]; simpl; rewrite !andb_false_r; reflexivity.
  - eexists. split; [apply update_status_accepted; exact Hcons|].
    split; [|split; [exact Hid | reflexivity]].
    simpl orders.
    apply in_map_iff. exists r. split; [|exact Hin].
    assert (Ht : orders_target (Some uid) (eq_order_id oid) r = true).
    { unfold orders_target, eq_order_id. simpl authenticated. simpl andb.
      assert (Hu : is_true (Orders.update_using (Some uid) r) = true).
      { unfold Orders.update_using. apply is_true_sql_or.
        destruct Hparty as [H|H]; [left|right]; apply is_true_eq_text; exact H. }
      change (Orders.select_using (Some uid) r) with (Orders.update_using (Some uid) r).
      rewrite Hu. simpl. apply is_true_eq_text. exact Hid. }
    rewrite Ht. reflexivity.
Qed.

End StatusUpdate.

(** The farmer, looking at the rejected order of the scenario, is offered no
    button, and yet the farmer's update of it to 'accepted' is stored. *)
Lemma terminal_status_by_view_only_witness :
  Client.status_buttons (Some Scenario.profile_F)
                        (Scenario.order_card Client.rejected) = []
  /\ exists db',
       update_orders (Scenario.db_with [Scenario.order_row "rejected" "farmer-F"])
                     (Some "farmer-F") (Client.eq_order_id "order-1")
                     (Client.status_payload Client.accepted "2025-10-18T08:00:00Z")
       = Ok db'
       /\ In (Orders.assign (Client.status_payload Client.accepted "2025-10-18T08:00:00Z")
                            (Scenario.order_row "rejected" "farmer-F"))
             (orders db')
       /\ Orders.id (Orders.assign
                       (Client.status_payload Client.accepted "2025-10-18T08:00:00Z")
                       (Scenario.order_row "rejected" "farmer-F"))
          = Some "order-1"
       /\ Orders.status (Orders.assign
                           (Client.status_payload Client.accepted "2025-10-18T08:00:00Z")
                           (Scenario.order_row "rejected" "farmer-F"))
          = Some (Client.status_text Client.accepted).
Proof.
  apply (@terminal_status_by_view_only (Some Scenario.profile_F)
           (Scenario.order_card Client.rejected)
           (Scenario.db_with [Scenario.order_row "rejected" "farmer-F"])
           "farmer-F" "order-1" (Scenario.order_row "rejected" "farmer-F")
           Client.accepted "2025-10-18T08:00:00Z").
  - left. reflexivity.
  - split; [reflexivity|].
    constructor; [|constructor]. repeat split; reflexivity.
  - left. reflexivity.
  - reflexivity.
  - right. reflexivity.
  - left. reflexivity.
Defined.

(** C2 as stated fails on the storage: the order of the scenario, once
    rejected, is set to 'accepted' by its farmer, both through the update
    statement and through the view's own handler. *)
Lemma rejected_order_reopened :
  map (@Orders.status _)
      (orders (Scenario.db_with [Scenario.order_row "rejected" "farmer-F"]))
  = [Some "rejected"]
  /\ update_orders (Scenario.db_with [Scenario.order_row "rejected" "farmer-F"])
                   (Some "farmer-F") (Client.eq_order_id "order-1")
                   (Client.status_payload Client.accepted "2025-10-17T09:00:00Z")
     = Ok (Scenario.db_with [Scenario.order_row "accepted" "farmer-F"])
  /\ Client.handleUpdateStatus
       (Scenario.db_with [Scenario.order_row "rejected" "farmer-F"])
       (Some Scenario.user_F) [Scenario.order_card Client.rejected]
       "2025-10-17T09:00:00Z" "order-1" Client.accepted
     = (Scenario.db_with [Scenario.order_row "accepted" "farmer-F"],
        [Scenario.order_card Client.accepted]).
Proof. repeat split; vm_compute; reflexivity. Qed.

(** ** The scenario, run *)

(** A hidden listing is read by its owner and by nobody else. *)
Example hidden_listing_visibility :
  select_products Scenario.db_hidden (Some "farmer-F") (fun _ => Some true)
  = [Scenario.tomatoes_hidden]
  /\ select_products Scenario.db_hidden (Some "retailer-R") (fun _ => Some true) = []
  /\ select_products Scenario.db_hidden None (fun _ => Some true) = [].
Proof. repeat split; vm_compute; reflexivity. Qed.

(** F lists tomatoes through the product modal; R, a retailer, cannot. *)
Example farmer_lists_tomatoes :
  Client.handleSubmit Client.digits_parseFloat Client.exact_numeric
    {| profiles := [Scenario.farmer_F; Scenario.farmer_G; Scenario.retailer_R];
       products := []; orders := []; messages := [] |}
    {| now := "2025-10-16T17:00:00Z"; gen_random_uuid := "listing-1" |}
    (Some Scenario.user_F) None (Scenario.tomatoes_form "20")
  = Ok {| profiles := [Scenario.farmer_F; Scenario.farmer_G; Scenario.retailer_R];
          products :=
            [{| Products.id := Some "listing-1";
                Products.farmer_id := Some "farmer-F";
                Products.name := Some "Tomatoes";
                Products.description := Some "";
                Products.category := Some "Vegetables";
                Products.price := Some (20 # 1);
                Products.unit := Some "kg";
                Products.quantity_available := Some (100 # 1);
                Products.image_url := None;
                Products.location := None;
                Products.is_available := Some true;
                Products.created_at := Some "2025-10-16T17:00:00Z";
                Products.updated_at := Some "2025-10-16T17:00:00Z" |}];
          orders := []; messages := [] |}
  /\ Client.handleSubmit Client.digits_parseFloat Client.exact_numeric
       {| profiles := [Scenario.farmer_F; Scenario.farmer_G; Scenario.retailer_R];
          products := []; orders := []; messages := [] |}
       {| now := "2025-10-16T17:00:00Z"; gen_random_uuid := "listing-1" |}
       (Some Scenario.user_R) None (Scenario.tomatoes_form "20")
     = Err PolicyViolation.
Proof. split; vm_compute; reflexivity. Qed.

(** F re-prices the hidden listing: the edit goes through and the listing
    stays F's and stays hidden. *)
Example farmer_reprices_listing :
  exists db',
    Client.handleSubmit Client.digits_parseFloat Client.exact_numeric
      Scenario.db_hidden Scenario.env (Some Scenario.user_F)
      (Some Scenario.tomatoes_listing) (Scenario.tomatoes_form "25")
    = Ok db'
    /\ map (@Products.price _) (products db') = [Some (25 # 1)]
    /\ map (@Products.farmer_id _) (products db') = [Some "farmer-F"]
    /\ map (@Products.is_available _) (products db') = [Some false].
Proof. eexists. repeat split; vm_compute; reflexivity. Qed.

(** An order for zero kilograms is refused by the quantity check. *)
Example zero_quantity_refused :
  insert_order (Scenario.db_with []) (Some "retailer-R") Scenario.env
    (Client.order_payload (fun _ => 0%float) Client.exact_numeric
       (Some Scenario.user_R) Scenario.tomatoes_listing Scenario.five_kg)
  = Err CheckViolation.
Proof. vm_compute. reflexivity. Qed.

(** R writes to F; R cannot write to itself in F's name. *)
Example message_sender_checked :
  (exists db',
     insert_message (Scenario.db_with []) (Some "retailer-R")
       {| now := "2025-10-17T10:00:00Z"; gen_random_uuid := "message-1" |}
       (Scenario.message_body "retailer-R" "farmer-F") = Ok db'
     /\ map (@Messages.sender_id _) (messages db') = [Some "retailer-R"])
  /\ insert_message (Scenario.db_with []) (Some "retailer-R")
       {| now := "2025-10-17T10:00:00Z"; gen_random_uuid := "message-1" |}
       (Scenario.message_body "farmer-F" "retailer-R") = Err PolicyViolation.
Proof. split; [eexists; split|]; vm_compute; reflexivity. Qed.

(** The search keeps the tomatoes for the query "TOMA" in any category and
    drops them for the category Fruits. *)
Example search_tomatoes :
  Client.filterProducts Client.ascii_toLowerCase [Scenario.tomatoes_listing] "TOMA" "All"
  = [Scenario.tomatoes_listing]
  /\ Client.filterProducts Client.ascii_toLowerCase [Scenario.tomatoes_listing] "" "Fruits"
     = [].
Proof. split; vm_compute; reflexivity. Qed.

(** What the farmer's Orders view offers, status by status. *)
Example farmer_buttons :
  Client.status_buttons (Some Scenario.profile_F) (Scenario.order_card Client.pending)
  = [Client.accepted; Client.rejected]
  /\ Client.status_buttons (Some Scenario.profile_F) (Scenario.order_card Client.accepted)
     = [Client.completed]
  /\ Client.status_buttons (Some Scenario.profile_F) (Scenario.order_card Client.completed)
     = []
  /\ Client.status_buttons None (Scenario.order_card Client.pending) = [].
Proof. repeat split; reflexivity. Qed.

(** ** Beyond the listed claims: reading orders and messages *)

(** X1.  A principal P reads order O exactly when O is stored and P is its
    retailer or its farmer. *)
Theorem orders_read_visibility :
  forall (db : DB) (P : uuid) (where_ : Orders.row -> tri) (O : Orders.row),
    In O (select_orders db (Some P) where_) <->
    In O (orders db)
    /\ (Orders.retailer_id O = Some P \/ Orders.farmer_id O = Some P)
    /\ is_true (where_ O) = true.
Proof.
  intros db P where_ O. unfold select_orders.
  rewrite filter_In. simpl.
  rewrite andb_true_iff. unfold Orders.select_using.
  rewrite is_true_sql_or, !is_true_eq_text.
  tauto.
Qed.

(** X2.  A principal P reads message M exactly when M is stored and P is its
    sender or its receiver. *)
Theorem messages_read_visibility :
  forall (db : DB) (P : uuid) (where_ : Messages.row -> tri) (M : Messages.row),
    In M (select_messages db (Some P) where_) <->
    In M (messages db)
    /\ (Messages.sender_id M = Some P \/ Messages.receiver_id M = Some P)
    /\ is_true (where_ M) = true.
Proof.
  intros db P where_ M. unfold select_messages.
  rewrite filter_In. simpl.
  rewrite andb_true_iff. unfold Messages.select_using.
  rewrite is_true_sql_or, !is_true_eq_text.
  tauto.
Qed.

(** ** Requests without a principal *)

Lemma filter_none (A : Type) (l : list A) : filter (fun _ => false) l = [].
Proof. induction l as [|x l IH]; simpl; [reflexivity | exact IH]. Qed.

(** X3.  No policy covers a request made without a principal: it reads no
    row of any table, and whatever statement it carries leaves the database
    as it was. *)
Theorem unauthenticated_request_denied :
  forall (db : DB) (env : ServerEnv) (st : Statement),
    commit db (execute db {| req_uid := None; req_env := env; req_statement := st |}) = db
    /\ (forall w, select_profiles db None w = [])
    /\ (forall w, select_products db None w = [])
    /\ (forall w, select_orders db None w = [])
    /\ (forall w, select_messages db None w = []).
Proof.
  intros db env st. split.
  - destruct db as [pf pd od ms].
    destruct st; unfold execute; simpl req_statement; simpl req_uid; simpl req_env;
      try reflexivity;
      [unfold update_profiles, profiles_target
      |unfold update_products, products_target
      |unfold delete_products, products_doomed
      |unfold update_orders, orders_target
      |unfold update_messages, messages_target];
      simpl; repeat rewrite filter_none; repeat rewrite filter_all;
      repeat rewrite map_id; simpl; repeat rewrite filter_all;
      repeat rewrite map_id;
      repeat match goal with
             | |- context [if negb ?c then _ else _] => destruct c; simpl
             end;
      reflexivity.
  - repeat split; intro w;
      [unfold select_profiles | unfold select_products
       | unfold select_orders | unfold select_messages];
      simpl; apply filter_none.
Qed.

(** ** Updates: what a successful statement went through *)

Lemma first_error_none_inv (A : Type) (verdict : A -> option Error) (l : list A) :
  first_error (map verdict l) = None -> Forall (fun x => verdict x = None) l.
Proof.
  induction l as [|x l IH]; simpl; intro H; [constructor|].
  destruct (verdict x) eqn:E; [discriminate|].
  constructor; [exact E | exact (IH H)].
Qed.

Lemma Forall_changed_inv (A : Type) (Q : A -> Prop) (target : A -> bool)
    (f : A -> A) (l : list A) :
  Forall Q (map f (filter target l)) ->
  forall x, In x l -> target x = true -> Q (f x).
Proof.
  intros H x Hin Ht. rewrite Forall_forall in H. apply H.
  apply in_map. apply filter_In. split; assumption.
Qed.

Lemma Forall2_map_if (A : Type) (R : A -> A -> Prop) (target : A -> bool)
    (f : A -> A) (l : list A) :
  (forall r, In r l -> target r = false -> R r r) ->
  (forall r, In r l -> target r = true -> R r (f r)) ->
  Forall2 R l (map (fun r => if target r then f r else r) l).
Proof.
  induction l as [|x l IH]; simpl; intros Hf Ht; [constructor|].
  constructor.
  - destruct (target x) eqn:E; [apply Ht | apply Hf]; auto.
  - apply IH; intros r Hr; [apply Hf | apply Ht]; auto.
Qed.

Lemma Forall2_same (A : Type) (R : A -> A -> Prop) (l : list A) :
  (forall r, In r l -> R r r) -> Forall2 R l l.
Proof.
  induction l as [|x l IH]; intro H; constructor.
  - apply H. left. reflexivity.
  - apply IH. intros r Hr. apply H. right. exact Hr.
Qed.

Lemma is_true_eq_text_eq (x y : option string) :
  is_true (sql_eq_text x y) = true -> x = y /\ x <> None.
Proof.
  destruct x as [a|], y as [b|]; simpl; try discriminate.
  destruct (String.eqb_spec a b) as [->|]; [|discriminate].
  intros _. split; [reflexivity | discriminate].
Qed.

Lemma forallb_map_In (A B : Type) (p : B -> bool) (f : A -> B) (l : list A) :
  forallb p (map f l) = true -> forall x, In x l -> p (f x) = true.
Proof.
  intros H x Hx. rewrite forallb_forall in H. apply H. apply in_map. exact Hx.
Qed.

Lemma update_products_ok (db db' : DB) (uid : option uuid)
    (where_ : Products.row -> tri) (p : Products.payload) :
  update_products db uid where_ p = Ok db' ->
  let target := products_target uid where_ in
  let rows' := map (fun r => if target r then Products.assign p r else r) (products db) in
  let changed := map (Products.assign p) (filter target (products db)) in
  Forall (fun r' => products_verdict uid r' = None) changed
  /\ unique_keys (map (@Products.id _) rows') = true
  /\ forallb (fun r' => references (map (@Profiles.id _) (profiles db))
                                   (Products.farmer_id r')) changed = true
  /\ forallb (references (map (@Products.id _) rows'))
             (map (@Orders.product_id _) (orders db)) = true
  /\ forallb (references (map (@Products.id _) rows'))
             (map (@Messages.product_id _) (messages db)) = true
  /\ db' = {| profiles := profiles db; products := rows';
              orders := orders db; messages := messages db |}.
Proof.
  intros H target rows' changed. unfold update_products in H.
  fold target in H. fold rows' in H. fold changed in H.
  destruct (first_error (map (products_verdict uid) changed)) eqn:Ev; [discriminate|].
  apply first_error_none_inv in Ev.
  pass_guard H. pass_guard H.
  repeat rewrite andb_true_iff in E0. destruct E0 as [[H1 H2] H3].
  inversion H. repeat split; assumption.
Qed.

Lemma products_verdict_inv (uid : option uuid) (r' : Products.row) :
  products_verdict uid r' = None ->
  is_true (Products.update_check uid r') = true
  /\ Products.not_null r' = true /\ Products.checks r' = true.
Proof.
  unfold products_verdict. intro H.
  destruct (is_true (Products.update_check uid r')); simpl in H; [|discriminate].
  destruct (is_true (Products.select_using uid r')); simpl in H; [|discriminate].
  destruct (Products.not_null r'); simpl in H; [|discriminate].
  destruct (Products.checks r'); simpl in H; [|discriminate].
  repeat split.
Qed.

Lemma products_target_inv (uid : option uuid) (where_ : Products.row -> tri)
    (r : Products.row) :
  products_target uid where_ r = true ->
  authenticated uid = true
  /\ is_true (Products.update_using uid r) = true
  /\ is_true (where_ r) = true.
Proof.
  unfold products_target. repeat rewrite andb_true_iff. tauto.
Qed.

(** X4.  Whatever columns an update of listings names, and whether it
    succeeds or fails, every listing keeps its owner, listings of other
    farmers stay exactly as they were, and no other table changes. *)
Theorem listing_owner_fixed :
  forall (db : DB) (uid : option uuid) (where_ : Products.row -> tri)
         (p : Products.payload),
    let after := commit db (update_products db uid where_ p) in
    Forall2 (fun r r' => Products.farmer_id r' = Products.farmer_id r
                         /\ (Products.farmer_id r <> uid -> r' = r))
            (products db) (products after)
    /\ profiles after = profiles db
    /\ orders after = orders db
    /\ messages after = messages db.
Proof.
  intros db uid where_ p after. unfold after.
  destruct (update_products db uid where_ p) as [db'|e] eqn:E; simpl commit.
  - apply update_products_ok in E.
    destruct E as (Hv & _ & _ & _ & _ & ->). simpl.
    split; [|repeat split].
    apply Forall2_map_if.
    + intros r _ _. split; [reflexivity | intros _; reflexivity].
    + intros r Hin Ht.
      pose proof (@Forall_changed_inv _ _ _ _ _ Hv r Hin Ht) as Hr.
      apply products_verdict_inv in Hr. destruct Hr as (Hc & _ & _).
      apply products_target_inv in Ht. destruct Ht as (_ & Hu & _).
      apply is_true_eq_text_eq in Hc. apply is_true_eq_text_eq in Hu.
      destruct Hc as [Hc _], Hu as [Hu _].
      split; [congruence | intro Hne; contradiction].
  - split; [|repeat split].
    apply Forall2_same. intros r _. split; [reflexivity | intros _; reflexivity].
Qed.

Lemma update_orders_ok (db db' : DB) (uid : option uuid)
    (where_ : Orders.row -> tri) (p : Orders.payload) :
  update_orders db uid where_ p = Ok db' ->
  let target := orders_target uid where_ in
  let rows' := map (fun r => if target r then Orders.assign p r else r) (orders db) in
  let changed := map (Orders.assign p) (filter target (orders db)) in
  Forall (fun r' => orders_verdict uid r' = None) changed
  /\ unique_keys (map (@Orders.id _) rows') = true
  /\ forallb (fun r' =>
                references (map (@Products.id _) (products db)) (Orders.product_id r')
                && references (map (@Profiles.id _) (profiles db)) (Orders.retailer_id r')
                && references (map (@Profiles.id _) (profiles db)) (Orders.farmer_id r'))
             changed = true
  /\ db' = {| profiles := profiles db; products := products db;
              orders := rows'; messages := messages db |}.
Proof.
  intros H target rows' changed. unfold update_orders in H.
  fold target in H. fold rows' in H. fold changed in H.
  destruct (first_error (map (orders_verdict uid) changed)) eqn:Ev; [discriminate|].
  apply first_error_none_inv in Ev.
  pass_guard H. pass_guard H.
  inversion H. repeat split; assumption.
Qed.

Lemma orders_verdict_inv (uid : option uuid) (r' : Orders.row) :
  orders_verdict uid r' = None ->
  is_true (Orders.update_check uid r') = true
  /\ Orders.not_null r' = true /\ Orders.checks r' = true.
Proof.
  unfold orders_verdict. intro H.
  destruct (is_true (Orders.update_check uid r')); simpl in H; [|discriminate].
  destruct (is_true (Orders.select_using uid r')); simpl in H; [|discriminate].
  destruct (Orders.not_null r'); simpl in H; [|discriminate].
  destruct (Orders.checks r'); simpl in H; [|discriminate].
  repeat split.
Qed.

Lemma orders_target_inv (uid : option uuid) (where_ : Orders.row -> tri)
    (r : Orders.row) :
  orders_target uid where_ r = true ->
  authenticated uid = true
  /\ is_true (Orders.update_using uid r) = true
  /\ is_true (where_ r) = true.
Proof.
  unfold orders_target. repeat rewrite andb_true_iff. tauto.
Qed.

Lemma orders_party_spec (P : uuid) (r : Orders.row) :
  is_true (Orders.update_using (Some P) r) = true <->
  Orders.retailer_id r = Some P \/ Orders.farmer_id r = Some P.
Proof.
  unfold Orders.update_using. rewrite is_true_sql_or, !is_true_eq_text. tauto.
Qed.

(** X5.  Whatever an update of orders names, and whether it succeeds or
    fails, an order either stays exactly as it was or had the requester as
    a party before and still has it after; no other table changes.  So a
    third principal alters no order, and a party cannot write itself out of
    one. *)
Theorem order_update_by_parties_only :
  forall (db : DB) (P : uuid) (where_ : Orders.row -> tri) (p : Orders.payload),
    let after := commit db (update_orders db (Some P) where_ p) in
    Forall2 (fun r r' =>
               r' = r
               \/ ((Orders.retailer_id r = Some P \/ Orders.farmer_id r = Some P)
                   /\ (Orders.retailer_id r' = Some P \/ Orders.farmer_id r' = Some P)))
            (orders db) (orders after)
    /\ profiles after = profiles db
    /\ products after = products db
    /\ messages after = messages db.
Proof.
  intros db P where_ p after. unfold after.
  destruct (update_orders db (Some P) where_ p) as [db'|e] eqn:E; simpl commit.
  - apply update_orders_ok in E. destruct E as (Hv & _ & _ & ->). simpl.
    split; [|repeat split].
    apply Forall2_map_if.
    + intros r _ _. left. reflexivity.
    + intros r Hin Ht. right.
      pose proof (@Forall_changed_inv _ _ _ _ _ Hv r Hin Ht) as Hr.
      apply orders_verdict_inv in Hr. destruct Hr as (Hc & _ & _).
      apply orders_target_inv in Ht. destruct Ht as (_ & Hu & _).
      split; [apply orders_party_spec; exact Hu|].
      apply orders_party_spec. exact Hc.
  - split; [|repeat split].
    apply Forall2_same. intros r _. left. reflexivity.
Qed.

Lemma update_messages_ok (db db' : DB) (uid : option uuid)
    (where_ : Messages.row -> tri) (p : Messages.payload) :
  update_messages db uid where_ p = Ok db' ->
  let target := messages_target uid where_ in
  let rows' := map (fun r => if target r then Messages.assign p r else r) (messages db) in
  let changed := map (Messages.assign p) (filter target (messages db)) in
  Forall (fun r' => messages_verdict uid r' = None) changed
  /\ unique_keys (map (@Messages.id _) rows') = true
  /\ forallb (fun r' =>
                references (map (@Profiles.id _) (profiles db)) (Messages.sender_id r')
                && references (map (@Profiles.id _) (profiles db)) (Messages.receiver_id r')
                && references (map (@Products.id _) (products db)) (Messages.product_id r'))
             changed = true
  /\ db' = {| profiles := profiles db; products := products db;
              orders := orders db; messages := rows' |}.
Proof.
  intros H target rows' changed. unfold update_messages in H.
  fold target in H. fold rows' in H. fold changed in H.
  destruct (first_error (map (messages_verdict uid) changed)) eqn:Ev; [discriminate|].
  apply first_error_none_inv in Ev.
  pass_guard H. pass_guard H.
  inversion H. repeat split; assumption.
Qed.

Lemma messages_verdict_inv (uid : option uuid) (r' : Messages.row) :
  messages_verdict uid r' = None ->
  is_true (Messages.update_check uid r') = true /\ Messages.not_null r' = true.
Proof.
  unfold messages_verdict. intro H.
  destruct (is_true (Messages.update_check uid r')); simpl in H; [|discriminate].
  destruct (is_true (Messages.select_using uid r')); simpl in H; [|discriminate].
  destruct (Messages.not_null r'); simpl in H; [|discriminate].
  repeat split.
Qed.

Lemma messages_target_inv (uid : option uuid) (where_ : Messages.row -> tri)
    (r : Messages.row) :
  messages_target uid where_ r = true ->
  authenticated uid = true
  /\ is_true (Messages.update_using uid r) = true
  /\ is_true (where_ r) = true.
Proof.
  unfold messages_target. repeat rewrite andb_true_iff. tauto.
Qed.

(** X6.  Whatever an update of messages names, and whether it succeeds or
    fails, a message either stays exactly as it was or was addressed to the
    requester before and still is after; no other table changes.  So only
    the receiver changes a message (its read flag or any other column), and
    cannot re-address it. *)
Theorem message_update_by_receiver_only :
  forall (db : DB) (P : uuid) (where_ : Messages.row -> tri) (p : Messages.payload),
    let after := commit db (update_messages db (Some P) where_ p) in
    Forall2 (fun r r' =>
               r' = r
               \/ (Messages.receiver_id r = Some P /\ Messages.receiver_id r' = Some P))
            (messages db) (messages after)
    /\ profiles after = profiles db
    /\ products after = products db
    /\ orders after = orders db.
Proof.
  intros db P where_ p after. unfold after.
  destruct (update_messages db (Some P) where_ p) as [db'|e] eqn:E; simpl commit.
  - apply update_messages_ok in E. destruct E as (Hv & _ & _ & ->). simpl.
    split; [|repeat split].
    apply Forall2_map_if.
    + intros r _ _. left. reflexivity.
    + intros r Hin Ht. right.
      pose proof (@Forall_changed_inv _ _ _ _ _ Hv r Hin Ht) as Hr.
      apply messages_verdict_inv in Hr. destruct Hr as (Hc & _).
      apply messages_target_inv in Ht. destruct Ht as (_ & Hu & _).
      unfold Messages.update_check in Hc. unfold Messages.update_using in Hu.
      apply is_true_eq_text in Hc. apply is_true_eq_text in Hu.
      split; assumption.
  - split; [|repeat split].
    apply Forall2_same. intros r _. left. reflexivity.
Qed.

Lemma update_profiles_ok (db db' : DB) (uid : option uuid)
    (where_ : Profiles.row -> tri) (p : Profiles.payload) :
  update_profiles db uid where_ p = Ok db' ->
  let target := profiles_target uid where_ in
  let rows' := map (fun r => if target r then Profiles.assign p r else r) (profiles db) in
  let changed := map (Profiles.assign p) (filter target (profiles db)) in
  Forall (fun r' => profiles_verdict uid r' = None) changed
  /\ unique_keys (map (@Profiles.id _) rows') = true
  /\ (forallb (references (map (@Profiles.id _) rows'))
              (map (@Products.farmer_id _) (products db)) = true
      /\ forallb (references (map (@Profiles.id _) rows'))
                 (map (@Orders.retailer_id _) (orders db)) = true
      /\ forallb (references (map (@Profiles.id _) rows'))
                 (map (@Orders.farmer_id _) (orders db)) = true
      /\ forallb (references (map (@Profiles.id _) rows'))
                 (map (@Messages.sender_id _) (messages db)) = true
      /\ forallb (references (map (@Profiles.id _) rows'))
                 (map (@Messages.receiver_id _) (messages db)) = true)
  /\ db' = {| profiles := rows'; products := products db;
              orders := orders db; messages := messages db |}.
Proof.
  intros H target rows' changed. unfold update_profiles in H.
  fold target in H. fold rows' in H. fold changed in H.
  destruct (first_error (map (profiles_verdict uid) changed)) eqn:Ev; [discriminate|].
  apply first_error_none_inv in Ev.
  pass_guard H. pass_guard H.
  repeat rewrite andb_true_iff in E0.
  inversion H. repeat split; tauto.
Qed.

Lemma profiles_verdict_inv (uid : option uuid) (r' : Profiles.row) :
  profiles_verdict uid r' = None ->
  is_true (Profiles.update_check uid r') = true
  /\ Profiles.not_null r' = true /\ Profiles.checks r' = true.
Proof.
  unfold profiles_verdict. intro H.
  destruct (is_true (Profiles.update_check uid r')); simpl in H; [|discriminate].
  destruct (Profiles.not_null r'); simpl in H; [|discriminate].
  destruct (Profiles.checks r'); simpl in H; [|discriminate].
  repeat split.
Qed.

Lemma profiles_target_inv (uid : option uuid) (where_ : Profiles.row -> tri)
    (r : Profiles.row) :
  profiles_target uid where_ r = true ->
  authenticated uid = true
  /\ is_true (Profiles.update_using uid r) = true
  /\ is_true (where_ r) = true.
Proof.
  unfold profiles_target. repeat rewrite andb_true_iff. tauto.
Qed.

(** X7.  Whatever an update of profiles names, and whether it succeeds or
    fails, an identity record either stays exactly as it was or carried the
    requester's id before and still does after; no other table changes.  So
    a principal rewrites only its own record and cannot change whose record
    it is. *)
Theorem profile_update_own_only :
  forall (db : DB) (P : uuid) (where_ : Profiles.row -> tri) (p : Profiles.payload),
    let after := commit db (update_profiles db (Some P) where_ p) in
    Forall2 (fun r r' =>
               r' = r \/ (Profiles.id r = Some P /\ Profiles.id r' = Some P))
            (profiles db) (profiles after)
    /\ products after = products db
    /\ orders after = orders db
    /\ messages after = messages db.
Proof.
  intros db P where_ p after. unfold after.
  destruct (update_profiles db (Some P) where_ p) as [db'|e] eqn:E; simpl commit.
  - apply update_profiles_ok in E. destruct E as (Hv & _ & _ & ->). simpl.
    split; [|repeat split].
    apply Forall2_map_if.
    + intros r _ _. left. reflexivity.
    + intros r Hin Ht. right.
      pose proof (@Forall_changed_inv _ _ _ _ _ Hv r Hin Ht) as Hr.
      apply profiles_verdict_inv in Hr. destruct Hr as (Hc & _ & _).
      apply profiles_target_inv in Ht. destruct Ht as (_ & Hu & _).
      unfold Profiles.update_check in Hc. unfold Profiles.update_using in Hu.
      apply is_true_eq_text_eq in Hc. apply is_true_eq_text_eq in Hu.
      destruct Hc as [Hc _], Hu as [Hu _]. split; congruence.
  - split; [|repeat split].
    apply Forall2_same. intros r _. left. reflexivity.
Qed.

(** ** Inserts: what a successful statement went through *)

Lemma insert_profile_ok (db db' : DB) (uid : option uuid) (env : ServerEnv)
    (p : Profiles.payload) :
  insert_profile db uid env p = Ok db' ->
  let r := Profiles.new_row env p in
  (authenticated uid = true /\ is_true (Profiles.insert_check uid r) = true)
  /\ Profiles.not_null r = true
  /\ Profiles.checks r = true
  /\ unique_keys (map (@Profiles.id _) (profiles db ++ [r])) = true
  /\ db' = {| profiles := profiles db ++ [r]; products := products db;
              orders := orders db; messages := messages db |}.
Proof.
  intros H r. unfold insert_profile in H. fold r in H.
  pass_guard H. pass_guard H. pass_guard H. pass_guard H.
  apply andb_true_iff in E. inversion H. repeat split; tauto.
Qed.

Lemma insert_product_ok (db db' : DB) (uid : option uuid) (env : ServerEnv)
    (p : Products.payload) :
  insert_product db uid env p = Ok db' ->
  let r := Products.new_row env p in
  (authenticated uid = true
   /\ is_true (Products.insert_check (profiles db) uid r) = true)
  /\ Products.not_null r = true
  /\ Products.checks r = true
  /\ unique_keys (map (@Products.id _) (products db ++ [r])) = true
  /\ references (map (@Profiles.id _) (profiles db)) (Products.farmer_id r) = true
  /\ db' = {| profiles := profiles db; products := products db ++ [r];
              orders := orders db; messages := messages db |}.
Proof.
  intros H r. unfold insert_product in H. fold r in H.
  pass_guard H. pass_guard H. pass_guard H. pass_guard H. pass_guard H.
  apply andb_true_iff in E. inversion H. repeat split; tauto.
Qed.

Lemma insert_order_ok (db db' : DB) (uid : option uuid) (env : ServerEnv)
    (p : Orders.payload) :
  insert_order db uid env p = Ok db' ->
  let r := Orders.new_row env p in
  (authenticated uid = true
   /\ is_true (Orders.insert_check (profiles db) uid r) = true)
  /\ unique_keys (map (@Orders.id _) (orders db ++ [r])) = true
  /\ order_row_valid db r
  /\ db' = {| profiles := profiles db; products := products db;
              orders := orders db ++ [r]; messages := messages db |}.
Proof.
  intros H r. unfold insert_order in H. fold r in H.
  pass_guard H. pass_guard H. pass_guard H. pass_guard H. pass_guard H.
  apply andb_true_iff in E. repeat rewrite andb_true_iff in E3.
  inversion H. unfold order_row_valid. repeat split; tauto.
Qed.

Lemma insert_message_ok (db db' : DB) (uid : option uuid) (env : ServerEnv)
    (p : Messages.payload) :
  insert_message db uid env p = Ok db' ->
  let r := Messages.new_row env p in
  (authenticated uid = true /\ is_true (Messages.insert_check uid r) = true)
  /\ unique_keys (map (@Messages.id _) (messages db ++ [r])) = true
  /\ message_row_valid db r
  /\ db' = {| profiles := profiles db; products := products db;
              orders := orders db; messages := messages db ++ [r] |}.
Proof.
  intros H r. unfold insert_message in H. fold r in H.
  pass_guard H. pass_guard H. pass_guard H. pass_guard H.
  apply andb_true_iff in E. repeat rewrite andb_true_iff in E2.
  inversion H. unfold message_row_valid. repeat split; tauto.
Qed.

(** ** Keys and references under growth and removal *)

Lemma references_incl (keys keys' : list (option uuid)) (fk : option uuid) :
  (forall k, In k keys -> In k keys') ->
  references keys fk = true -> references keys' fk = true.
Proof.
  intros Hincl. destruct fk as [x|]; simpl; [|reflexivity].
  rewrite !existsb_exists. intros (k & Hk & Hx). exists k. auto.
Qed.

Lemma keys_grow (A : Type) (key : A -> option uuid) (l : list A) (r : A) :
  forall k, In k (map key l) -> In k (map key (l ++ [r])).
Proof.
  intros k Hk. rewrite map_app. apply in_or_app. left. exact Hk.
Qed.

Lemma existsb_filter_keys (A : Type) (key : A -> option uuid) (g : option uuid -> bool)
    (f : A -> bool) (l : list A) :
  existsb g (map key (filter f l)) = true -> existsb g (map key l) = true.
Proof.
  rewrite !existsb_exists. intros (k & Hk & Hg). exists k. split; [|exact Hg].
  apply in_map_iff in Hk. destruct Hk as (x & <- & Hx).
  apply filter_In in Hx. apply in_map. tauto.
Qed.

Lemma unique_keys_filter (A : Type) (key : A -> option uuid) (f : A -> bool)
    (l : list A) :
  unique_keys (map key l) = true -> unique_keys (map key (filter f l)) = true.
Proof.
  induction l as [|x l IH]; simpl; intro H; [reflexivity|].
  apply andb_true_iff in H. destruct H as [Hx Hl].
  destruct (f x); simpl; [|exact (IH Hl)].
  rewrite (IH Hl), andb_true_r.
  rewrite negb_true_iff in *.
  destruct (existsb _ (map key (filter f l))) eqn:E; [|reflexivity].
  apply existsb_filter_keys in E. congruence.
Qed.

(** A reference that named a stored row, and names none of the removed
    ones, names a row that is left. *)
Lemma references_after_removal (A : Type) (key : A -> option uuid)
    (doomed : A -> bool) (l : list A) (fk : option uuid) :
  references (map key l) fk = true ->
  refers_to (map key (filter doomed l)) fk = false ->
  references (map key (filter (fun r => negb (doomed r)) l)) fk = true.
Proof.
  destruct fk as [x|]; simpl; [|reflexivity]. unfold refers_to.
  rewrite !existsb_exists. intros (k & Hk & Hx) Hgone.
  apply in_map_iff in Hk. destruct Hk as (r & <- & Hr).
  exists (key r). split; [|exact Hx].
  apply in_map. apply filter_In. split; [exact Hr|].
  destruct (doomed r) eqn:Ed; [|reflexivity].
  assert (Hex : existsb (fun k => is_true (sql_eq_text k (Some x)))
                        (map key (filter doomed l)) = true).
  { apply existsb_exists. exists (key r). split; [|exact Hx].
    apply in_map. apply filter_In. split; assumption. }
  congruence.
Qed.

Lemma Forall_app_one (A : Type) (P : A -> Prop) (l : list A) (r : A) :
  Forall P l -> P r -> Forall P (l ++ [r]).
Proof.
  intros Hl Hr. apply Forall_app. split; [exact Hl | constructor; [exact Hr | constructor]].
Qed.

Lemma Forall_map_if (A : Type) (P P' : A -> Prop) (target : A -> bool)
    (f : A -> A) (l : list A) :
  Forall P l ->
  (forall r, P r -> P' r) ->
  (forall r, In r l -> target r = true -> P' (f r)) ->
  Forall P' (map (fun r => if target r then f r else r) l).
Proof.
  intros Hl Hkeep Hnew. apply Forall_forall. intros r' Hr'.
  apply in_map_iff in Hr'. destruct Hr' as (r & <- & Hr).
  destruct (target r) eqn:E; [apply Hnew; assumption|].
  apply Hkeep. rewrite Forall_forall in Hl. apply Hl. exact Hr.
Qed.

(** ** Every statement keeps the schema's constraints *)

Lemma product_row_valid_incl (db db' : DB) (r : Products.row) :
  (forall k, In k (map (@Profiles.id _) (profiles db)) ->
             In k (map (@Profiles.id _) (profiles db'))) ->
  product_row_valid db r -> product_row_valid db' r.
Proof.
  intros Hp (Hn & Hc & Hf). repeat split; try assumption.
  exact (@references_incl _ _ _ Hp Hf).
Qed.

Lemma order_row_valid_incl (db db' : DB) (r : Orders.row) :
  (forall k, In k (map (@Products.id _) (products db)) ->
             In k (map (@Products.id _) (products db'))) ->
  (forall k, In k (map (@Profiles.id _) (profiles db)) ->
             In k (map (@Profiles.id _) (profiles db'))) ->
  order_row_valid db r -> order_row_valid db' r.
Proof.
  intros Hd Hp (Hn & Hc & H1 & H2 & H3). repeat split; try assumption.
  - exact (@references_incl _ _ _ Hd H1).
  - exact (@references_incl _ _ _ Hp H2).
  - exact (@references_incl _ _ _ Hp H3).
Qed.

Lemma message_row_valid_incl (db db' : DB) (r : Messages.row) :
  (forall k, In k (map (@Products.id _) (products db)) ->
             In k (map (@Products.id _) (products db'))) ->
  (forall k, In k (map (@Profiles.id _) (profiles db)) ->
             In k (map (@Profiles.id _) (profiles db'))) ->
  message_row_valid db r -> message_row_valid db' r.
Proof.
  intros Hd Hp (Hn & H1 & H2 & H3). repeat split; try assumption.
  - exact (@references_incl _ _ _ Hp H1).
  - exact (@references_incl _ _ _ Hp H2).
  - exact (@references_incl _ _ _ Hd H3).
Qed.

Lemma forallb_changed (A : Type) (q : A -> bool) (target : A -> bool)
    (f : A -> A) (l : list A) :
  forallb q (map f (filter target l)) = true ->
  forall r, In r l -> target r = true -> q (f r) = true.
Proof.
  intros H r Hr Ht. rewrite forallb_forall in H. apply H.
  apply in_map. apply filter_In. split; assumption.
Qed.

Lemma insert_profile_consistent (db db' : DB) (uid : option uuid) (env : ServerEnv)
    (p : Profiles.payload) :
  db_consistent db -> insert_profile db uid env p = Ok db' -> db_consistent db'.
Proof.
  intros ((_ & Hpv) & (Hdu & Hdv) & (Hou & Hov) & (Hmu & Hmv)) H.
  apply insert_profile_ok in H. destruct H as (_ & Hn & Hc & Hu & ->).
  unfold db_consistent, orders_consistent. simpl.
  repeat split; try assumption.
  - apply Forall_app_one; [exact Hpv | split; assumption].
  - eapply Forall_impl; [|exact Hdv]. intro r.
    apply product_row_valid_incl. simpl. apply keys_grow.
  - eapply Forall_impl; [|exact Hov]. intro r.
    apply order_row_valid_incl; simpl; [auto | apply keys_grow].
  - eapply Forall_impl; [|exact Hmv]. intro r.
    apply message_row_valid_incl; simpl; [auto | apply keys_grow].
Qed.

Lemma insert_product_consistent (db db' : DB) (uid : option uuid) (env : ServerEnv)
    (p : Products.payload) :
  db_consistent db -> insert_product db uid env p = Ok db' -> db_consistent db'.
Proof.
  intros ((Hpu & Hpv) & (_ & Hdv) & (Hou & Hov) & (Hmu & Hmv)) H.
  apply insert_product_ok in H. destruct H as (_ & Hn & Hc & Hu & Hf & ->).
  unfold db_consistent, orders_consistent. simpl.
  repeat split; try assumption.
  - apply Forall_app_one; [exact Hdv | repeat split; assumption].
  - eapply Forall_impl; [|exact Hov]. intro r.
    apply order_row_valid_incl; simpl; [apply keys_grow | auto].
  - eapply Forall_impl; [|exact Hmv]. intro r.
    apply message_row_valid_incl; simpl; [apply keys_grow | auto].
Qed.

Lemma insert_order_consistent (db db' : DB) (uid : option uuid) (env : ServerEnv)
    (p : Orders.payload) :
  db_consistent db -> insert_order db uid env p = Ok db' -> db_consistent db'.
Proof.
  intros ((Hpu & Hpv) & (Hdu & Hdv) & (_ & Hov) & (Hmu & Hmv)) H.
  apply insert_order_ok in H. destruct H as (_ & Hu & Hr & ->).
  unfold db_consistent, orders_consistent. simpl.
  repeat split; try assumption.
  apply Forall_app_one; assumption.
Qed.

Lemma insert_message_consistent (db db' : DB) (uid : option uuid) (env : ServerEnv)
    (p : Messages.payload) :
  db_consistent db -> insert_message db uid env p = Ok db' -> db_consistent db'.
Proof.
  intros ((Hpu & Hpv) & (Hdu & Hdv) & (Hou & Hov) & (_ & Hmv)) H.
  apply insert_message_ok in H. destruct H as (_ & Hu & Hr & ->).
  unfold db_consistent, orders_consistent. simpl.
  repeat split; try assumption.
  apply Forall_app_one; assumption.
Qed.

Lemma update_profiles_consistent (db db' : DB) (uid : option uuid)
    (where_ : Profiles.row -> tri) (p : Profiles.payload) :
  db_consistent db -> update_profiles db uid where_ p = Ok db' -> db_consistent db'.
Proof.
  intros ((_ & Hpv) & (Hdu & Hdv) & (Hou & Hov) & (Hmu & Hmv)) H.
  apply update_profiles_ok in H.
  destruct H as (Hv & Hu & (F1 & F2 & F3 & F4 & F5) & ->).
  unfold db_consistent, orders_consistent. simpl.
  repeat split; try assumption.
  - apply Forall_map_if with (P := profile_row_valid); [exact Hpv | auto |].
    intros r Hr Ht.
    pose proof (@Forall_changed_inv _ _ _ _ _ Hv r Hr Ht) as Hok.
    apply profiles_verdict_inv in Hok. split; tauto.
  - apply Forall_forall. intros r Hr.
    rewrite Forall_forall in Hdv. destruct (Hdv r Hr) as (Hn & Hc & _).
    repeat split; try assumption. simpl.
    exact (@forallb_map_In _ _ _ _ _ F1 r Hr).
  - apply Forall_forall. intros r Hr.
    rewrite Forall_forall in Hov. destruct (Hov r Hr) as (Hn & Hc & Hd & _ & _).
    repeat split; try assumption; simpl.
    + exact (@forallb_map_In _ _ _ _ _ F2 r Hr).
    + exact (@forallb_map_In _ _ _ _ _ F3 r Hr).
  - apply Forall_forall. intros r Hr.
    rewrite Forall_forall in Hmv. destruct (Hmv r Hr) as (Hn & _ & _ & Hd).
    repeat split; try assumption; simpl.
    + exact (@forallb_map_In _ _ _ _ _ F4 r Hr).
    + exact (@forallb_map_In _ _ _ _ _ F5 r Hr).
Qed.

Lemma update_products_consistent (db db' : DB) (uid : option uuid)
    (where_ : Products.row -> tri) (p : Products.payload) :
  db_consistent db -> update_products db uid where_ p = Ok db' -> db_consistent db'.
Proof.
  intros ((Hpu & Hpv) & (_ & Hdv) & (Hou & Hov) & (Hmu & Hmv)) H.
  apply update_products_ok in H.
  destruct H as (Hv & Hu & F1 & F2 & F3 & ->).
  unfold db_consistent, orders_consistent. simpl.
  repeat split; try assumption.
  - apply Forall_map_if with (P := product_row_valid db); [exact Hdv | auto |].
    intros r Hr Ht.
    pose proof (@Forall_changed_inv _ _ _ _ _ Hv r Hr Ht) as Hok.
    apply products_verdict_inv in Hok. destruct Hok as (_ & Hn & Hc).
    repeat split; try assumption. simpl.
    exact (@forallb_changed _ _ _ _ _ F1 r Hr Ht).
  - apply Forall_forall. intros r Hr.
    rewrite Forall_forall in Hov. destruct (Hov r Hr) as (Hn & Hc & _ & H2 & H3).
    repeat split; try assumption. simpl.
    exact (@forallb_map_In _ _ _ _ _ F2 r Hr).
  - apply Forall_forall. intros r Hr.
    rewrite Forall_forall in Hmv. destruct (Hmv r Hr) as (Hn & H1 & H2 & _).
    repeat split; try assumption. simpl.
    exact (@forallb_map_In _ _ _ _ _ F3 r Hr).
Qed.

Lemma update_orders_consistent (db db' : DB) (uid : option uuid)
    (where_ : Orders.row -> tri) (p : Orders.payload) :
  db_consistent db -> update_orders db uid where_ p = Ok db' -> db_consistent db'.
Proof.
  intros ((Hpu & Hpv) & (Hdu & Hdv) & (_ & Hov) & (Hmu & Hmv)) H.
  apply update_orders_ok in H. destruct H as (Hv & Hu & F & ->).
  unfold db_consistent, orders_consistent. simpl.
  repeat split; try assumption.
  apply Forall_map_if with (P := order_row_valid db); [exact Hov | auto |].
  intros r Hr Ht.
  pose proof (@Forall_changed_inv _ _ _ _ _ Hv r Hr Ht) as Hok.
  apply orders_verdict_inv in Hok. destruct Hok as (_ & Hn & Hc).
  pose proof (@forallb_changed _ _ _ _ _ F r Hr Ht) as Hf.
  repeat rewrite andb_true_iff in Hf.
  unfold order_row_valid. simpl. tauto.
Qed.

Lemma update_messages_consistent (db db' : DB) (uid : option uuid)
    (where_ : Messages.row -> tri) (p : Messages.payload) :
  db_consistent db -> update_messages db uid where_ p = Ok db' -> db_consistent db'.
Proof.
  intros ((Hpu & Hpv) & (Hdu & Hdv) & (Hou & Hov) & (_ & Hmv)) H.
  apply update_messages_ok in H. destruct H as (Hv & Hu & F & ->).
  unfold db_consistent, orders_consistent. simpl.
  repeat split; try assumption.
  apply Forall_map_if with (P := message_row_valid db); [exact Hmv | auto |].
  intros r Hr Ht.
  pose proof (@Forall_changed_inv _ _ _ _ _ Hv r Hr Ht) as Hok.
  apply messages_verdict_inv in Hok. destruct Hok as (_ & Hn).
  pose proof (@forallb_changed _ _ _ _ _ F r Hr Ht) as Hf.
  repeat rewrite andb_true_iff in Hf.
  unfold message_row_valid. simpl. tauto.
Qed.

Lemma map_id_if (A B : Type) (key : A -> B) (c : A -> bool) (f : A -> A) (l : list A) :
  (forall r, key (f r) = key r) ->
  map key (map (fun r => if c r then f r else r) l) = map key l.
Proof.
  intro Hk. rewrite map_map. apply map_ext. intro r.
  destruct (c r); [apply Hk | reflexivity].
Qed.

Lemma delete_products_consistent (db db' : DB) (uid : option uuid)
    (where_ : Products.row -> tri) :
  db_consistent db -> delete_products db uid where_ = Ok db' -> db_consistent db'.
Proof.
  intros ((Hpu & Hpv) & (Hdu & Hdv) & (Hou & Hov) & (Hmu & Hmv)) H.
  unfold delete_products in H. inversion H as [Hdb]. clear H Hdb.
  unfold db_consistent, orders_consistent. simpl.
  repeat split; try assumption.
  - apply unique_keys_filter. exact Hdu.
  - apply Forall_forall. intros r Hr. apply filter_In in Hr.
    rewrite Forall_forall in Hdv. exact (Hdv r (proj1 Hr)).
  - apply unique_keys_filter. exact Hou.
  - apply Forall_forall. intros r Hr. apply filter_In in Hr.
    destruct Hr as [Hr Hkeep]. rewrite negb_true_iff in Hkeep.
    rewrite Forall_forall in Hov. destruct (Hov r Hr) as (Hn & Hc & H1 & H2 & H3).
    repeat split; try assumption. simpl.
    apply references_after_removal; assumption.
  - rewrite map_id_if; [exact Hmu | reflexivity].
  - apply Forall_forall. intros m' Hm'.
    apply in_map_iff in Hm'. destruct Hm' as (m & <- & Hm).
    rewrite Forall_forall in Hmv. destruct (Hmv m Hm) as (Hn & H1 & H2 & H3).
    destruct (refers_to _ (Messages.product_id m)) eqn:E.
    + repeat split; assumption.
    + repeat split; try assumption. simpl.
      apply references_after_removal; assumption.
Qed.

Lemma execute_consistent (db db' : DB) (rq : Request) :
  db_consistent db -> execute db rq = Ok db' -> db_consistent db'.
Proof.
  intro Hc. unfold execute. destruct (req_statement rq); intro H.
  - eapply insert_profile_consistent; eassumption.
  - eapply update_profiles_consistent; eassumption.
  - eapply insert_product_consistent; eassumption.
  - eapply update_products_consistent; eassumption.
  - eapply delete_products_consistent; eassumption.
  - eapply insert_order_consistent; eassumption.
  - eapply update_orders_consistent; eassumption.
  - eapply insert_message_consistent; eassumption.
  - eapply update_messages_consistent; eassumption.
Qed.

Lemma run_consistent (rqs : list Request) (db : DB) :
  db_consistent db -> db_consistent (run db rqs).
Proof.
  revert db. induction rqs as [|rq rqs IH]; intros db Hc; [exact Hc|].
  unfold run. simpl. apply IH.
  destruct (execute db rq) as [db'|e] eqn:E; simpl; [|exact Hc].
  eapply execute_consistent; eassumption.
Qed.

(** X8.  Starting from empty tables, whatever requests are made, by whom
    and in what order, the stored rows always satisfy what the schema
    declares: primary keys are distinct, the NOT NULL and CHECK constraints
    hold (an order's quantity is positive, its total non-negative, its
    status and payment method among the listed ones), and every foreign key
    names a stored row, also after listings are deleted. *)
Theorem reachable_database_consistent :
  forall rqs : list Request, db_consistent (run empty_db rqs).
Proof.
  intro rqs. apply run_consistent.
  unfold db_consistent, orders_consistent, empty_db. simpl.
  repeat split; constructor.
Qed.

(** ** Deleting listings *)

Lemma products_doomed_spec (P : uuid) (where_ : Products.row -> tri) (l : Products.row) :
  products_doomed (Some P) where_ l = true <->
  Products.farmer_id l = Some P /\ is_true (where_ l) = true.
Proof.
  unfold products_doomed, Products.select_using, Products.delete_using. simpl.
  rewrite !andb_true_iff, is_true_sql_or, is_true_eq_text. tauto.
Qed.

Lemma refers_to_spec (keys : list (option uuid)) (fk : option uuid) :
  refers_to keys fk = true <-> exists x, fk = Some x /\ In (Some x) keys.
Proof.
  unfold refers_to. rewrite existsb_exists. split.
  - intros (k & Hk & Hx). apply is_true_eq_text_eq in Hx. destruct Hx as [<- Hn].
    destruct k as [x|]; [|contradiction]. exists x. split; [reflexivity | exact Hk].
  - intros (x & -> & Hx). exists (Some x). split; [exact Hx|].
    apply is_true_eq_text. reflexivity.
Qed.

(** X9.  A delete of listings removes exactly the requester's own listings
    that match, and with each of them every order placed on it, whoever
    placed it and whatever its status; all other listings and orders stay
    as they were, no profile changes, and a message is kept, at most losing
    its reference to a listing. *)
Theorem delete_listing_cascades :
  forall (db : DB) (P : uuid) (where_ : Products.row -> tri),
    let after := commit db (delete_products db (Some P) where_) in
    let removed l := In l (products db) /\ Products.farmer_id l = Some P
                     /\ is_true (where_ l) = true in
    (forall l, In l (products after) <-> In l (products db) /\ ~ removed l)
    /\ (forall o, In o (orders after) <->
                  In o (orders db)
                  /\ ~ exists l x, removed l /\ Products.id l = Some x
                                   /\ Orders.product_id o = Some x)
    /\ profiles after = profiles db
    /\ Forall2 (fun m m' => m' = m \/ m' = Messages.clear_product m)
               (messages db) (messages after).
Proof.
  intros db P where_ after removed. unfold after, delete_products. simpl.
  split; [|split; [|split]].
  - intro l. rewrite filter_In, negb_true_iff.
    unfold removed. split.
    + intros (Hl & Hd). split; [exact Hl|]. intros (_ & Hf & Hw).
      assert (products_doomed (Some P) where_ l = true)
        by (apply products_doomed_spec; tauto).
      congruence.
    + intros (Hl & Hn). split; [exact Hl|].
      destruct (products_doomed (Some P) where_ l) eqn:E; [|reflexivity].
      apply products_doomed_spec in E. exfalso. apply Hn. tauto.
  - intro o. rewrite filter_In, negb_true_iff. unfold removed. split.
    + intros (Ho & Hr). split; [exact Ho|].
      intros (l & x & (Hl & Hf & Hw) & Hid & Hpid).
      assert (refers_to (map (@Products.id _)
                           (filter (products_doomed (Some P) where_) (products db)))
                        (Orders.product_id o) = true).
      { apply refers_to_spec. exists x. split; [exact Hpid|].
        rewrite <- Hid. apply in_map. apply filter_In. split; [exact Hl|].
        apply products_doomed_spec. tauto. }
      congruence.
    + intros (Ho & Hn). split; [exact Ho|].
      match goal with |- ?t = false => destruct t eqn:E; [|reflexivity] end.
      apply refers_to_spec in E. destruct E as (x & Hpid & Hx).
      apply in_map_iff in Hx. destruct Hx as (l & Hid & Hl).
      apply filter_In in Hl. destruct Hl as [Hl Hd].
      apply products_doomed_spec in Hd.
      exfalso. apply Hn. exists l, x. tauto.
  - reflexivity.
  - apply Forall2_map_if.
    + intros m _ _. left. reflexivity.
    + intros m _ _. right. reflexivity.
Qed.

(** ** Identity records *)

Lemma unique_keys_last (keys : list (option uuid)) (k : option uuid) :
  unique_keys (keys ++ [k]) = true ->
  forall k', In k' keys -> is_true (sql_eq_text k' k) = false.
Proof.
  induction keys as [|h keys IH]; simpl; intros H k' Hk'; [contradiction|].
  apply andb_true_iff in H. destruct H as [Hh Hl].
  destruct Hk' as [<-|Hk']; [|exact (IH Hl k' Hk')].
  rewrite negb_true_iff in Hh.
  destruct (is_true (sql_eq_text h k)) eqn:E; [|reflexivity].
  assert (existsb (fun k' => is_true (sql_eq_text h k')) (keys ++ [k]) = true).
  { apply existsb_exists. exists k. split; [|exact E].
    apply in_or_app. right. left. reflexivity. }
  congruence.
Qed.

(** X10.  A principal creates an identity record only under its own id, with
    role farmer or retailer, and only while no record with that id is
    stored: a second record for the same principal is always refused. *)
Theorem profile_insert_own_once :
  forall (db : DB) (P : uuid) (env : ServerEnv) (p : Profiles.payload),
    let r := Profiles.new_row env p in
    (forall db', insert_profile db (Some P) env p = Ok db' ->
       Profiles.id r = Some P
       /\ (Profiles.user_type r = Some "farmer" \/ Profiles.user_type r = Some "retailer")
       /\ (forall pr, In pr (profiles db) -> Profiles.id pr <> Some P)
       /\ profiles db' = (profiles db ++ [r])%list)
    /\ ((exists pr, In pr (profiles db) /\ Profiles.id pr = Some P) ->
        exists e, insert_profile db (Some P) env p = Err e).
Proof.
  intros db P env p r.
  assert (Hok : forall db', insert_profile db (Some P) env p = Ok db' ->
       Profiles.id r = Some P
       /\ (Profiles.user_type r = Some "farmer" \/ Profiles.user_type r = Some "retailer")
       /\ (forall pr, In pr (profiles db) -> Profiles.id pr <> Some P)
       /\ profiles db' = (profiles db ++ [r])%list).
  { intros db' H. apply insert_profile_ok in H. fold r in H.
    destruct H as ((_ & Hp) & Hn & Hc & Hu & ->).
    unfold Profiles.insert_check in Hp. apply is_true_eq_text_eq in Hp.
    destruct Hp as [Hid _]. symmetry in Hid.
    split; [exact Hid|]. split; [|split; [|reflexivity]].
    - unfold Profiles.checks in Hc.
      destruct (Profiles.user_type r) as [t|] eqn:Et.
      + simpl in Hc. rewrite orb_false_r in Hc.
        destruct (String.eqb_spec t "farmer") as [->|]; [left; reflexivity|].
        destruct (String.eqb_spec t "retailer") as [->|]; [right; reflexivity|].
        discriminate.
      + unfold Profiles.not_null in Hn. rewrite Et in Hn. simpl in Hn.
        rewrite orb_true_r in Hn. discriminate.
    - intros pr Hpr Heq. rewrite map_app in Hu. simpl in Hu. fold r in Hu.
      pose proof (unique_keys_last _ _ Hu (Profiles.id pr) (in_map _ _ _ Hpr)) as Hne.
      change (insert_value None (Profiles.id p)) with (Profiles.id r) in Hne.
      rewrite Heq, Hid in Hne.
      rewrite (proj2 (is_true_eq_text (Some P) P) eq_refl) in Hne. discriminate. }
  split; [exact Hok|].
  intros (pr & Hpr & Hid).
  destruct (insert_profile db (Some P) env p) as [db'|e] eqn:E.
  - destruct (Hok db' eq_refl) as (_ & _ & Hnone & _).
    exfalso. exact (Hnone pr Hpr Hid).
  - exists e. reflexivity.
Qed.

(** ** ORDER BY: the same rows, newest first *)

Section OrderByFacts.
Variable timestamptz_leb : string -> string -> bool.
Variable A : Type.
Variable key : A -> option string.

Lemma insert_desc_perm (x : A) (l : list A) :
  Permutation (insert_desc timestamptz_leb key x l) (x :: l).
Proof.
  induction l as [|y l IH]; simpl; [apply Permutation_refl|].
  destruct (desc_before timestamptz_leb (key x) (key y)).
  - apply Permutation_refl.
  - apply perm_trans with (y :: x :: l).
    + apply perm_skip. exact IH.
    + apply perm_swap.
Qed.

Lemma order_by_desc_perm (l : list A) :
  Permutation (order_by_desc timestamptz_leb key l) l.
Proof.
  induction l as [|x l IH]; simpl; [apply perm_nil|].
  apply perm_trans with (x :: order_by_desc timestamptz_leb key l).
  - apply insert_desc_perm.
  - apply perm_skip. exact IH.
Qed.

Lemma order_by_desc_In (l : list A) (x : A) :
  In x (order_by_desc timestamptz_leb key l) <-> In x l.
Proof.
  split; apply Permutation_in;
    [apply order_by_desc_perm | apply Permutation_sym, order_by_desc_perm].
Qed.

Hypothesis leb_total :
  forall a b, timestamptz_leb a b = true \/ timestamptz_leb b a = true.

Lemma desc_before_total (a b : option string) :
  desc_before timestamptz_leb a b = true \/ desc_before timestamptz_leb b a = true.
Proof.
  destruct a as [x|], b as [y|]; simpl; auto.
Qed.

Lemma insert_desc_sorted (x : A) (l : list A) :
  Sorted (fun a b => desc_before timestamptz_leb (key a) (key b) = true) l ->
  Sorted (fun a b => desc_before timestamptz_leb (key a) (key b) = true)
         (insert_desc timestamptz_leb key x l).
Proof.
  induction 1 as [|y l Hs IH Hhd]; simpl.
  - constructor; constructor.
  - destruct (desc_before timestamptz_leb (key x) (key y)) eqn:E.
    + constructor; [constructor; assumption | constructor; exact E].
    + constructor; [exact IH|].
      assert (Hyx : desc_before timestamptz_leb (key y) (key x) = true).
      { destruct (desc_before_total (key x) (key y)); congruence. }
      destruct l as [|z l]; simpl.
      * constructor. exact Hyx.
      * destruct (desc_before timestamptz_leb (key x) (key z));
          constructor; [exact Hyx | inversion Hhd; assumption].
Qed.

Lemma order_by_desc_sorted (l : list A) :
  Sorted (fun a b => desc_before timestamptz_leb (key a) (key b) = true)
         (order_by_desc timestamptz_leb key l).
Proof.
  induction l as [|x l IH]; simpl; [constructor|].
  apply insert_desc_sorted. exact IH.
Qed.

End OrderByFacts.

(** ** What the parties see after a placement or a new listing *)

Lemma select_orders_In (db : DB) (P : uuid) (where_ : Orders.row -> tri)
    (O : Orders.row) :
  In O (select_orders db (Some P) where_) <->
  In O (orders db)
  /\ (Orders.retailer_id O = Some P \/ Orders.farmer_id O = Some P)
  /\ is_true (where_ O) = true.
Proof.
  unfold select_orders. rewrite filter_In. simpl.
  rewrite andb_true_iff, orders_party_spec. tauto.
Qed.

Lemma select_products_In (db : DB) (P : uuid) (where_ : Products.row -> tri)
    (L : Products.row) :
  In L (select_products db (Some P) where_) <->
  In L (products db)
  /\ (Products.is_available L = Some true \/ Products.farmer_id L = Some P)
  /\ is_true (where_ L) = true.
Proof.
  unfold select_products. rewrite filter_In. simpl.
  rewrite andb_true_iff. unfold Products.select_using.
  rewrite is_true_sql_or, is_true_eq_bool, is_true_eq_text. tauto.
Qed.

Lemma products_insert_check_spec (db : DB) (uid : uuid) (r : Products.row) :
  is_true (Products.insert_check (profiles db) (Some uid) r) = true <->
  Products.farmer_id r = Some uid /\ has_role db uid "farmer".
Proof.
  unfold Products.insert_check.
  rewrite is_true_sql_and, is_true_eq_text, is_true_Some, exists_profile_spec.
  tauto.
Qed.

Section AfterPlacement.
Import Client.
Variable parseFloat : string -> float.
Variable numeric_of_number : float -> option Q.

(** X11.  An order placed by a signed-in user is read by that user and by
    the farmer named on the listing shown in the modal (product.farmer_id),
    and by no other principal.  When the listing shown agrees with the
    stored listing on id and farmer_id, listing ids being distinct, that
    farmer is the farmer of the stored listing the order references: its
    farmer reads the order, and nobody but the user and that farmer. *)
Theorem placed_order_visible_to_parties :
  forall (db db' : DB) (env : ServerEnv) (user : User.t)
         (product : Product.t) (orderData : OrderData),
    handlePlaceOrder parseFloat numeric_of_number db env (Some user) product orderData
    = Ok db' ->
    let r := Orders.new_row env
               (order_payload parseFloat numeric_of_number (Some user) product orderData) in
    In r (orders db')
    /\ In r (select_orders db' (Some (User.id user)) (fun _ => Some true))
    /\ In r (select_orders db' (Some (Product.farmer_id product)) (fun _ => Some true))
    /\ (forall Q w, Q <> User.id user -> Q <> Product.farmer_id product ->
                    ~ In r (select_orders db' (Some Q) w))
    /\ (forall shown,
          unique_keys (map (@Products.id _) (products db)) = true ->
          In shown (products db) ->
          Products.id shown = Some (Product.id product) ->
          Products.farmer_id shown = Some (Product.farmer_id product) ->
          (exists l, In l (products db') /\ Products.id l = Orders.product_id r)
          /\ forall l, In l (products db') ->
                       Products.id l = Orders.product_id r ->
                       exists F, Products.farmer_id l = Some F
                                 /\ In r (select_orders db' (Some F) (fun _ => Some true))
                                 /\ forall Q w, Q <> User.id user -> Q <> F ->
                                                ~ In r (select_orders db' (Some Q) w)).
Proof.
  intros db db' env user product orderData H r.
  assert (Hprod : products db' = products db).
  { unfold handlePlaceOrder in H. apply insert_order_inv in H.
    destruct H as (_ & _ & _ & _ & ->). reflexivity. }
  apply handlePlaceOrder_inv in H. fold r in H.
  assert (Hin : In r (orders db'))
    by (rewrite H; apply in_or_app; right; left; reflexivity).
  assert (Hret : Orders.retailer_id r = Some (User.id user)) by reflexivity.
  assert (Hfar : Orders.farmer_id r = Some (Product.farmer_id product)) by reflexivity.
  assert (Hfarmer : In r (select_orders db' (Some (Product.farmer_id product))
                            (fun _ => Some true)))
    by (apply select_orders_In; repeat split; auto).
  assert (Hothers : forall Q w, Q <> User.id user -> Q <> Product.farmer_id product ->
                                ~ In r (select_orders db' (Some Q) w)).
  { intros Q w HQ1 HQ2 Hr. apply select_orders_In in Hr.
    destruct Hr as (_ & [Hq|Hq] & _); congruence. }
  split; [exact Hin|]. split; [|split; [exact Hfarmer|split; [exact Hothers|]]].
  - apply select_orders_In. repeat split; auto.
  - intros shown Hu Hshown Hid Hf. split.
    + exists shown. rewrite Hprod. split; [exact Hshown | exact Hid].
    + intros l Hl Hlid. rewrite Hprod in Hl.
      change (Products.id l = Some (Product.id product)) in Hlid.
      exists (Product.farmer_id product).
      rewrite (unique_keys_inj (@Products.id _) (products db) Hu l shown
                 Hl Hshown Hlid Hid).
      split; [exact Hf|]. split; [exact Hfarmer | exact Hothers].
Qed.

End AfterPlacement.

Section AfterListing.
Import Client.
Variable parseFloat : string -> float.
Variable numeric_of_number : float -> option Q.
Variable timestamptz_leb : string -> string -> bool.

Lemma select_available_only (db : DB) (P : uuid) :
  select_products db (Some P)
    (fun r => sql_eq_bool (Products.is_available r) (Some true))
  = filter (fun r => is_true (sql_eq_bool (Products.is_available r) (Some true)))
           (products db).
Proof.
  unfold select_products. apply filter_ext. intro r. simpl.
  unfold Products.select_using.
  destruct (Products.is_available r) as [[|]|]; simpl;
    try rewrite andb_false_r; reflexivity.
Qed.

Lemma marketplace_rows (db : DB) (user : User.t) :
  map fst (Marketplace_loadProducts timestamptz_leb db (Some user))
  = order_by_desc timestamptz_leb (@Products.created_at _)
      (filter (fun r => is_true (sql_eq_bool (Products.is_available r) (Some true)))
              (products db)).
Proof.
  unfold Marketplace_loadProducts. rewrite map_map. simpl.
  rewrite map_id. rewrite select_available_only. reflexivity.
Qed.

(** X12.  A listing added through the product modal is stored as the
    user's own and available, the user being a farmer; every signed-in
    principal then reads it, and it is on everyone's marketplace. *)
Theorem new_listing_visible_to_all :
  forall (db db' : DB) (env : ServerEnv) (user : User.t) (formData : FormData),
    handleSubmit parseFloat numeric_of_number db env (Some user) None formData
    = Ok db' ->
    let r := Products.new_row env
               (productData parseFloat numeric_of_number formData
                            (user_id_field (Some user))) in
    products db' = (products db ++ [r])%list
    /\ Products.farmer_id r = Some (User.id user)
    /\ Products.is_available r = Some true
    /\ has_role db (User.id user) "farmer"
    /\ (forall Q, In r (select_products db' (Some Q) (fun _ => Some true)))
    /\ (forall viewer,
          In r (map fst (Marketplace_loadProducts timestamptz_leb db' (Some viewer)))).
Proof.
  intros db db' env user formData H r.
  unfold handleSubmit in H.
  apply insert_product_ok in H. fold r in H.
  destruct H as ((_ & Hrole) & _ & _ & _ & _ & ->).
  apply products_insert_check_spec in Hrole. simpl.
  assert (Hin : In r (products db ++ [r]))
    by (apply in_or_app; right; left; reflexivity).
  split; [reflexivity|]. split; [reflexivity|]. split; [reflexivity|].
  split; [exact (proj2 Hrole)|]. split.
  - intro Q. apply select_products_In.
    split; [exact Hin|]. split; [left; reflexivity | reflexivity].
  - intro viewer. rewrite marketplace_rows. apply order_by_desc_In.
    apply filter_In. split; [exact Hin | reflexivity].
Qed.

End AfterListing.

(** R's order for F's tomatoes is read by R and by F, the farmer of the
    stored tomatoes, and by nobody else. *)
Lemma placed_order_visible_to_parties_witness :
  let db' := Scenario.db_with [Scenario.order_row "pending" "farmer-F"] in
  let r := Orders.new_row Scenario.env
             (Client.order_payload Client.digits_parseFloat Client.exact_numeric
                (Some Scenario.user_R) Scenario.tomatoes_listing Scenario.five_kg) in
  (In r (orders db')
   /\ In r (select_orders db' (Some "retailer-R") (fun _ => Some true))
   /\ In r (select_orders db' (Some "farmer-F") (fun _ => Some true))
   /\ (forall Q w, Q <> "retailer-R" -> Q <> "farmer-F" ->
                   ~ In r (select_orders db' (Some Q) w)))
  /\ (exists l, In l (products db') /\ Products.id l = Orders.product_id r)
  /\ (forall l, In l (products db') ->
                Products.id l = Orders.product_id r ->
                exists F, Products.farmer_id l = Some F
                          /\ In r (select_orders db' (Some F) (fun _ => Some true))
                          /\ forall Q w, Q <> "retailer-R" -> Q <> F ->
                                         ~ In r (select_orders db' (Some Q) w)).
Proof.
  destruct (@placed_order_visible_to_parties
              Client.digits_parseFloat Client.exact_numeric
              (Scenario.db_with [])
              (Scenario.db_with [Scenario.order_row "pending" "farmer-F"])
              Scenario.env Scenario.user_R Scenario.tomatoes_listing Scenario.five_kg)
    as (H1 & H2 & H3 & H4 & Hstored).
  - vm_compute. reflexivity.
  - split; [repeat split; assumption|].
    apply (Hstored Scenario.tomatoes).
    + reflexivity.
    + left. reflexivity.
    + reflexivity.
    + reflexivity.
Defined.

(** F's new tomatoes are on everyone's marketplace. *)
Lemma new_listing_visible_to_all_witness :
  exists db',
    let r := Products.new_row
               {| now := "2025-10-16T17:00:00Z"; gen_random_uuid := "listing-1" |}
               (Client.productData Client.digits_parseFloat Client.exact_numeric
                  (Scenario.tomatoes_form "20")
                  (Client.user_id_field (Some Scenario.user_F))) in
    products db' = [r]
    /\ Products.farmer_id r = Some "farmer-F"
    /\ Products.is_available r = Some true
    /\ has_role
         {| profiles := [Scenario.farmer_F; Scenario.farmer_G; Scenario.retailer_R];
            products := []; orders := []; messages := [] |}
         "farmer-F" "farmer"
    /\ (forall Q, In r (select_products db' (Some Q) (fun _ => Some true)))
    /\ (forall viewer,
          In r (map fst (Client.Marketplace_loadProducts String.leb db' (Some viewer)))).
Proof.
  eexists.
  apply (@new_listing_visible_to_all Client.digits_parseFloat Client.exact_numeric
           String.leb
           {| profiles := [Scenario.farmer_F; Scenario.farmer_G; Scenario.retailer_R];
              products := []; orders := []; messages := [] |}
           _ {| now := "2025-10-16T17:00:00Z"; gen_random_uuid := "listing-1" |}
           Scenario.user_F (Scenario.tomatoes_form "20")).
  vm_compute. reflexivity.
Defined.

(** ** What the three views load *)

Lemma existsb_find (A : Type) (f : A -> bool) (l : list A) :
  existsb f l = true -> exists x, find f l = Some x.
Proof.
  induction l as [|y l IH]; simpl; [discriminate|].
  destruct (f y); [intros _; exists y; reflexivity | exact IH].
Qed.

Section Loads.
Import Client.
Variable timestamptz_leb : string -> string -> bool.

(** X13.  The marketplace of any signed-in user holds exactly the stored
    listings whose availability flag is true, each once: a hidden listing
    is not on it, not even on its owner's.  On a consistent database every
    entry comes with its farmer's identity record. *)
Theorem marketplace_lists_available :
  forall (db : DB) (user : User.t),
    Permutation
      (map fst (Marketplace_loadProducts timestamptz_leb db (Some user)))
      (filter (fun r => is_true (sql_eq_bool (Products.is_available r) (Some true)))
              (products db))
    /\ (forall r, In r (map fst (Marketplace_loadProducts timestamptz_leb db (Some user)))
                  <-> In r (products db) /\ Products.is_available r = Some true)
    /\ (db_consistent db ->
        Forall (fun e => exists pr, snd e = Some pr
                                    /\ In pr (profiles db)
                                    /\ Profiles.id pr = Products.farmer_id (fst e))
               (Marketplace_loadProducts timestamptz_leb db (Some user))).
Proof.
  intros db user. split; [|split].
  - rewrite marketplace_rows. apply order_by_desc_perm.
  - intro r. rewrite marketplace_rows, order_by_desc_In, filter_In, is_true_eq_bool.
    tauto.
  - intros (_ & (_ & Hdv) & _). apply Forall_forall. intros e He.
    unfold Marketplace_loadProducts in He. apply in_map_iff in He.
    destruct He as (r & <- & Hr). simpl.
    apply order_by_desc_In in Hr. apply filter_In in Hr. destruct Hr as [Hr _].
    rewrite Forall_forall in Hdv. destruct (Hdv r Hr) as (Hn & _ & Hf).
    unfold embed_profile. simpl.
    assert (Hfk : exists x, Products.farmer_id r = Some x).
    { unfold Products.not_null in Hn. rewrite negb_true_iff in Hn.
      repeat rewrite orb_false_iff in Hn.
      destruct (Products.farmer_id r) as [x|]; [exists x; reflexivity|].
      simpl in Hn. intuition discriminate. }
    destruct Hfk as (x & Hx). rewrite Hx in *. simpl in Hf.
    rewrite existsb_exists in Hf. destruct Hf as (k & Hk & Hkx).
    apply in_map_iff in Hk. destruct Hk as (pr0 & <- & Hpr0).
    destruct (@existsb_find _ (fun p => is_true (sql_eq_text (Profiles.id p) (Some x)))
                            (profiles db)) as (pr & Hfind).
    { apply existsb_exists. exists pr0. split; assumption. }
    exists pr. split; [exact Hfind|].
    apply find_some in Hfind. destruct Hfind as [Hin Hid].
    apply is_true_eq_text in Hid. split; assumption.
Qed.

(** X14.  The farmer's dashboard holds exactly the stored listings whose
    farmer_id is the user's id, each once, hidden ones included. *)
Theorem dashboard_lists_own :
  forall (db : DB) (user : User.t),
    Permutation
      (FarmerDashboard_loadProducts timestamptz_leb db user)
      (filter (fun r => is_true (sql_eq_text (Products.farmer_id r) (Some (User.id user))))
              (products db))
    /\ (forall r, In r (FarmerDashboard_loadProducts timestamptz_leb db user)
                  <-> In r (products db) /\ Products.farmer_id r = Some (User.id user)).
Proof.
  intros db user.
  assert (Hsel : select_products db (Some (User.id user))
                   (fun r => sql_eq_text (Products.farmer_id r) (Some (User.id user)))
                 = filter (fun r => is_true (sql_eq_text (Products.farmer_id r)
                                                         (Some (User.id user))))
                          (products db)).
  { unfold select_products. apply filter_ext. intro r. simpl.
    unfold Products.select_using.
    destruct (sql_eq_text (Products.farmer_id r) (Some (User.id user))) as [[|]|];
      simpl; try rewrite andb_false_r; try reflexivity.
    destruct (sql_eq_bool (Products.is_available r) (Some true)) as [[|]|]; reflexivity. }
  unfold FarmerDashboard_loadProducts. rewrite Hsel. split.
  - apply order_by_desc_perm.
  - intro r. rewrite order_by_desc_In, filter_In, is_true_eq_text. tauto.
Qed.

(** X15.  The Orders view of a farmer holds exactly the stored orders whose
    farmer_id is the user's id, and that of anyone else those whose
    retailer_id is; each once.  The listing embedded in an entry is always
    one the user may read, so with distinct listing keys the entry of an
    order on a listing that is hidden and not the user's carries none. *)
Theorem orders_view_lists_own_side :
  forall (db : DB) (user : User.t) (profile : option Profile.t),
    let side (o : Orders.row) :=
      if is_farmer profile then Orders.farmer_id o else Orders.retailer_id o in
    let entries := Orders_loadOrders timestamptz_leb db user profile in
    Permutation
      (map entry_order entries)
      (filter (fun o => is_true (sql_eq_text (side o) (Some (User.id user)))) (orders db))
    /\ (forall e l, In e entries -> entry_products e = Some l ->
          In l (products db)
          /\ Products.id l = Orders.product_id (entry_order e)
          /\ (Products.is_available l = Some true
              \/ Products.farmer_id l = Some (User.id user)))
    /\ (unique_keys (map (@Products.id _) (products db)) = true ->
        forall e l x, In e entries -> In l (products db) ->
          Products.id l = Some x -> Orders.product_id (entry_order e) = Some x ->
          Products.is_available l <> Some true ->
          Products.farmer_id l <> Some (User.id user) ->
          entry_products e = None).
Proof.
  intros db user profile side entries.
  assert (Hsel : select_orders db (Some (User.id user))
                   (fun o => sql_eq_text (side o) (Some (User.id user)))
                 = filter (fun o => is_true (sql_eq_text (side o) (Some (User.id user))))
                          (orders db)).
  { unfold select_orders. apply filter_ext. intro o. simpl.
    unfold Orders.select_using, side.
    destruct (is_farmer profile);
      destruct (sql_eq_text (Orders.farmer_id o) (Some (User.id user))) as [[|]|];
      destruct (sql_eq_text (Orders.retailer_id o) (Some (User.id user))) as [[|]|];
      reflexivity. }
  assert (Hemb : forall e l, In e entries -> entry_products e = Some l ->
            In l (products db)
            /\ Products.id l = Orders.product_id (entry_order e)
            /\ (Products.is_available l = Some true
                \/ Products.farmer_id l = Some (User.id user))).
  { intros e l He Hl. unfold entries, Orders_loadOrders in He.
    apply in_map_iff in He. destruct He as (o & <- & _). simpl in *.
    unfold embed_product in Hl. apply find_some in Hl. destruct Hl as [Hin Hp].
    simpl in Hp. rewrite andb_true_iff in Hp. destruct Hp as [Hv Hid].
    apply is_true_eq_text_eq in Hid. destruct Hid as [Hid _].
    unfold Products.select_using in Hv.
    rewrite is_true_sql_or, is_true_eq_bool, is_true_eq_text in Hv.
    repeat split; assumption. }
  split; [|split].
  - unfold entries, Orders_loadOrders. rewrite map_map. simpl. rewrite map_id.
    subst side. cbv beta in Hsel. rewrite Hsel. apply order_by_desc_perm.
  - exact Hemb.
  - intros Hu e l x He Hl Hid Hpid Hhidden Hother.
    destruct (entry_products e) as [l'|] eqn:El; [|reflexivity].
    destruct (Hemb e l' He El) as (Hl' & Hid' & Hvis).
    rewrite Hpid in Hid'.
    assert (l' = l) by exact (unique_keys_inj _ _ Hu l' l Hl' Hl Hid' Hid).
    subst l'. tauto.
Qed.

Hypothesis leb_total :
  forall a b, timestamptz_leb a b = true \/ timestamptz_leb b a = true.

(** X16.  Whenever any two timestamps compare one way or the other, each
    view loads its rows newest first: every row is created no earlier than
    the one after it, rows without a timestamp leading. *)
Theorem views_load_newest_first :
  forall (db : DB) (user : User.t) (profile : option Profile.t),
    Sorted (fun a b => desc_before timestamptz_leb
                         (Products.created_at a) (Products.created_at b) = true)
           (map fst (Marketplace_loadProducts timestamptz_leb db (Some user)))
    /\ Sorted (fun a b => desc_before timestamptz_leb
                            (Products.created_at a) (Products.created_at b) = true)
              (FarmerDashboard_loadProducts timestamptz_leb db user)
    /\ Sorted (fun a b => desc_before timestamptz_leb
                            (Orders.created_at a) (Orders.created_at b) = true)
              (map entry_order (Orders_loadOrders timestamptz_leb db user profile)).
Proof.
  intros db user profile. split; [|split].
  - rewrite marketplace_rows. apply order_by_desc_sorted. exact leb_total.
  - apply order_by_desc_sorted. exact leb_total.
  - unfold Orders_loadOrders. rewrite map_map. simpl. rewrite map_id.
    apply order_by_desc_sorted. exact leb_total.
Qed.

End Loads.

(** Any two timestamps compare one way or the other as instants. *)
Lemma utc_leb_total (a b : string) :
  Client.utc_leb a b = true \/ Client.utc_leb b a = true.
Proof.
  unfold Client.utc_leb.
  destruct (Qlt_le_dec (Client.utc_key a) (Client.utc_key b)) as [H|H].
  - left. apply Qle_bool_iff, Qlt_le_weak. exact H.
  - right. apply Qle_bool_iff. exact H.
Qed.

(** F's three listings and three incoming orders are stored oldest first,
    half and a quarter of a second apart among them; under the order of
    instants F's views load them newest first. *)
Lemma views_load_newest_first_witness :
  (map (@Products.id _) (products Scenario.db_busy)
   = [Some "listing-1"; Some "listing-2"; Some "listing-3"]
   /\ map (@Orders.id _) (orders Scenario.db_busy)
      = [Some "order-1"; Some "order-2"; Some "order-3"]
   /\ map (@Products.id _)
          (map fst (Client.Marketplace_loadProducts Client.utc_leb Scenario.db_busy
                      (Some Scenario.user_F)))
      = [Some "listing-3"; Some "listing-2"; Some "listing-1"]
   /\ map (@Products.id _)
          (Client.FarmerDashboard_loadProducts Client.utc_leb Scenario.db_busy
             Scenario.user_F)
      = [Some "listing-3"; Some "listing-2"; Some "listing-1"]
   /\ map (@Orders.id _)
          (map Client.entry_order
             (Client.Orders_loadOrders Client.utc_leb Scenario.db_busy
                Scenario.user_F (Some Scenario.profile_F)))
      = [Some "order-3"; Some "order-2"; Some "order-1"])
  /\ Sorted (fun a b => desc_before Client.utc_leb
                          (Products.created_at a) (Products.created_at b) = true)
            (map fst (Client.Marketplace_loadProducts Client.utc_leb Scenario.db_busy
                        (Some Scenario.user_F)))
  /\ Sorted (fun a b => desc_before Client.utc_leb
                          (Products.created_at a) (Products.created_at b) = true)
            (Client.FarmerDashboard_loadProducts Client.utc_leb Scenario.db_busy
               Scenario.user_F)
  /\ Sorted (fun a b => desc_before Client.utc_leb
                          (Orders.created_at a) (Orders.created_at b) = true)
            (map Client.entry_order
               (Client.Orders_loadOrders Client.utc_leb Scenario.db_busy
                  Scenario.user_F (Some Scenario.profile_F))).
Proof.
  split.
  - repeat split; vm_compute; reflexivity.
  - apply (@views_load_newest_first Client.utc_leb utc_leb_total
             Scenario.db_busy Scenario.user_F (Some Scenario.profile_F)).
Defined.

(** Once F has hidden the tomatoes, R's order card carries no listing while
    F's still does. *)
Example hidden_listing_leaves_order_card :
  map Client.entry_products
      (Client.Orders_loadOrders String.leb
         {| profiles := profiles Scenario.db_hidden;
            products := products Scenario.db_hidden;
            orders := [Scenario.order_row "accepted" "farmer-F"];
            messages := [] |}
         Scenario.user_R None)
  = [None]
  /\ map Client.entry_products
         (Client.Orders_loadOrders String.leb
            {| profiles := profiles Scenario.db_hidden;
               products := products Scenario.db_hidden;
               orders := [Scenario.order_row "accepted" "farmer-F"];
               messages := [] |}
            Scenario.user_F (Some Scenario.profile_F))
     = [Some Scenario.tomatoes_hidden].
Proof. split; vm_compute; reflexivity. Qed.

(** ** The farmer's dashboard: hiding and deleting listings *)

Section Dashboard.
Import Client.

Lemma forallb_changed_intro (A : Type) (q : A -> bool) (target : A -> bool)
    (f : A -> A) (l : list A) :
  (forall r, In r l -> target r = true -> q (f r) = true) ->
  forallb q (map f (filter target l)) = true.
Proof.
  intro H. apply forallb_forall. intros r' Hr'.
  apply in_map_iff in Hr'. destruct Hr' as (r & <- & Hr).
  apply filter_In in Hr. apply H; tauto.
Qed.

(** On a consistent database a switch of the availability flag never
    fails: it rewrites the flag of the requester's own listings that match
    the WHERE clause. *)
Lemma update_availability_accepted (db : DB) (uid : option uuid)
    (where_ : Products.row -> tri) (v : bool) :
  db_consistent db ->
  update_products db uid where_ (availability_payload v)
  = Ok {| profiles := profiles db;
          products := map (fun r => if products_target uid where_ r
                                    then Products.assign (availability_payload v) r
                                    else r) (products db);
          orders := orders db;
          messages := messages db |}.
Proof.
  intros (_ & (Hdu & Hdv) & (_ & Hov) & (_ & Hmv)). unfold update_products.
  assert (Hids : map (@Products.id _)
                   (map (fun r => if products_target uid where_ r
                                  then Products.assign (availability_payload v) r
                                  else r) (products db))
                 = map (@Products.id _) (products db))
    by (apply map_id_if; reflexivity).
  rewrite first_error_none.
  - rewrite Hids, Hdu. simpl.
    rewrite forallb_changed_intro.
    + rewrite (proj2 (forallb_forall _ _)).
      * rewrite (proj2 (forallb_forall _ _)); [reflexivity|].
        intros fk Hfk. apply in_map_iff in Hfk. destruct Hfk as (m & <- & Hm).
        rewrite Forall_forall in Hmv. destruct (Hmv m Hm) as (_ & _ & _ & H3).
        exact H3.
      * intros fk Hfk. apply in_map_iff in Hfk. destruct Hfk as (o & <- & Ho).
        rewrite Forall_forall in Hov. destruct (Hov o Ho) as (_ & _ & H1 & _).
        exact H1.
    + intros r Hr _. rewrite Forall_forall in Hdv.
      destruct (Hdv r Hr) as (_ & _ & Hf). exact Hf.
  - apply Forall_changed with (P := product_row_valid db); [exact Hdv|].
    intros r (Hn & Hc & _) Ht. unfold products_verdict.
    apply products_target_inv in Ht. destruct Ht as (_ & Hu & _).
    change (Products.update_check uid (Products.assign (availability_payload v) r))
      with (Products.update_using uid r).
    change (Products.not_null (Products.assign (availability_payload v) r))
      with (Products.not_null r).
    change (Products.checks (Products.assign (availability_payload v) r))
      with (Products.checks r).
    assert (Hs : is_true (Products.select_using uid
                            (Products.assign (availability_payload v) r)) = true).
    { unfold Products.select_using. apply is_true_sql_or. right. exact Hu. }
    rewrite Hu, Hs, Hn, Hc. reflexivity.
Qed.

Lemma own_listing_targeted (user : User.t) (pid : string) (r : Products.row) :
  Products.id r = Some pid ->
  Products.farmer_id r = Some (User.id user) ->
  products_target (Some (User.id user)) (eq_product_id pid) r = true.
Proof.
  intros Hid Hf. unfold products_target, eq_product_id,
    Products.select_using, Products.update_using. simpl.
  rewrite (proj2 (is_true_eq_text _ _) Hid), (proj2 (is_true_eq_text _ _) Hf).
  rewrite (proj2 (is_true_sql_or _ _)); [reflexivity|].
  right. apply is_true_eq_text. exact Hf.
Qed.

Lemma other_listing_not_targeted (uid : option uuid) (pid : string) (r : Products.row) :
  Products.id r <> Some pid ->
  products_target uid (eq_product_id pid) r = false.
Proof.
  intro Hne. unfold products_target, eq_product_id.
  destruct (is_true (sql_eq_text (Products.id r) (Some pid))) eqn:E.
  - apply is_true_eq_text in E. contradiction.
  - apply andb_false_r.
Qed.

(** X17.  On a consistent database, when a farmer switches one of their own
    listings from the dashboard, the stored listing takes the opposite of
    the flag the card shows and nothing else about it changes; listings
    with another id stay as they were.  Switched off, the listing is read
    by no other principal and is on nobody's marketplace, while its owner
    still reads it. *)
Theorem toggle_availability_effect :
  forall (db : DB) (user : User.t) (cards : list Product.t) (product : Product.t)
         (l : Products.row),
    db_consistent db ->
    In l (products db) ->
    Products.id l = Some (Product.id product) ->
    Products.farmer_id l = Some (User.id user) ->
    let db' := fst (handleToggleAvailability db (Some user) cards product) in
    let l' := Products.assign
                (availability_payload (negb (Product.is_available product))) l in
    In l' (products db')
    /\ (forall r, In r (products db') -> Products.id r = Some (Product.id product) ->
                  r = l')
    /\ (forall r, Products.id r <> Some (Product.id product) ->
                  (In r (products db') <-> In r (products db)))
    /\ In l' (select_products db' (Some (User.id user)) (fun _ => Some true))
    /\ (Product.is_available product = true ->
        (forall Q w r, Q <> User.id user ->
                       In r (select_products db' (Some Q) w) ->
                       Products.id r <> Some (Product.id product))
        /\ (forall leb viewer r,
              In r (map fst (Marketplace_loadProducts leb db' (Some viewer))) ->
              Products.id r <> Some (Product.id product))).
Proof.
  intros db user cards product l Hc Hl Hid Hf db' l'.
  pose proof Hc as (_ & (Hdu & _) & _).
  unfold db', handleToggleAvailability. simpl session_uid.
  rewrite (update_availability_accepted _ _ _ Hc). simpl.
  set (step := fun r => if products_target (Some (User.id user))
                             (eq_product_id (Product.id product)) r
                        then Products.assign
                               (availability_payload (negb (Product.is_available product))) r
                        else r).
  assert (Hl' : In l' (map step (products db))).
  { apply in_map_iff. exists l. split; [|exact Hl].
    unfold step. rewrite (@own_listing_targeted user _ _ Hid Hf). reflexivity. }
  assert (Hsame : forall r, In r (map step (products db)) ->
                    Products.id r = Some (Product.id product) -> r = l').
  { intros r Hr Hrid. apply in_map_iff in Hr. destruct Hr as (r0 & <- & Hr0).
    assert (Hid0 : Products.id r0 = Some (Product.id product)).
    { unfold step in Hrid.
      destruct (products_target _ _ r0); exact Hrid. }
    rewrite (unique_keys_inj _ _ Hdu r0 l Hr0 Hl Hid0 Hid).
    unfold step. rewrite (@own_listing_targeted user _ _ Hid Hf). reflexivity. }
  split; [exact Hl'|]. split; [exact Hsame|]. split; [|split].
  - intros r Hne. split.
    + intro Hr. apply in_map_iff in Hr. destruct Hr as (r0 & <- & Hr0).
      unfold step in *.
      destruct (products_target (Some (User.id user))
                  (eq_product_id (Product.id product)) r0) eqn:E; [|exact Hr0].
      exfalso. apply Hne.
      apply products_target_inv in E. destruct E as (_ & _ & E).
      apply is_true_eq_text in E. exact E.
    + intro Hr. apply in_map_iff. exists r. split; [|exact Hr].
      unfold step. rewrite (@other_listing_not_targeted _ _ _ Hne). reflexivity.
  - apply select_products_In. simpl products.
    split; [exact Hl'|]. split; [right; exact Hf | reflexivity].
  - intro Hav. split.
    + intros Q w r HQ Hr Hrid. apply select_products_In in Hr. simpl products in Hr.
      destruct Hr as (Hr & Hvis & _).
      rewrite (Hsame r Hr Hrid) in Hvis. unfold l' in Hvis. rewrite Hav in Hvis.
      simpl in Hvis. destruct Hvis as [Hv|Hv]; [discriminate|].
      rewrite Hf in Hv. congruence.
    + intros leb viewer r Hr Hrid. rewrite marketplace_rows in Hr.
      apply order_by_desc_In in Hr. apply filter_In in Hr. simpl products in Hr.
      destruct Hr as (Hr & Hav').
      rewrite (Hsame r Hr Hrid) in Hav'. unfold l' in Hav'. rewrite Hav in Hav'.
      discriminate.
Qed.

End Dashboard.

(** The scenario's database is consistent. *)
Ltac scenario_consistent :=
  unfold db_consistent, orders_consistent; simpl;
  repeat split;
  repeat (constructor; [repeat split; reflexivity|]);
  try constructor; reflexivity.

(** F hides the tomatoes: R no longer reads them, F still does. *)
Lemma toggle_availability_effect_witness :
  let db := Scenario.db_with [Scenario.order_row "pending" "farmer-F"] in
  let db' := fst (Client.handleToggleAvailability db (Some Scenario.user_F)
                    [Scenario.tomatoes_listing] Scenario.tomatoes_listing) in
  let l' := Products.assign (Client.availability_payload false) Scenario.tomatoes in
  In l' (products db')
  /\ (forall r, In r (products db') -> Products.id r = Some "listing-1" -> r = l')
  /\ (forall r, Products.id r <> Some "listing-1" ->
                (In r (products db') <-> In r (products db)))
  /\ In l' (select_products db' (Some "farmer-F") (fun _ => Some true))
  /\ (true = true ->
      (forall Q w r, Q <> "farmer-F" ->
                     In r (select_products db' (Some Q) w) ->
                     Products.id r <> Some "listing-1")
      /\ (forall leb viewer r,
            In r (map fst (Client.Marketplace_loadProducts leb db' (Some viewer))) ->
            Products.id r <> Some "listing-1")).
Proof.
  apply (@toggle_availability_effect
           (Scenario.db_with [Scenario.order_row "pending" "farmer-F"])
           Scenario.user_F [Scenario.tomatoes_listing] Scenario.tomatoes_listing
           Scenario.tomatoes).
  - scenario_consistent.
  - left. reflexivity.
  - reflexivity.
  - reflexivity.
Defined.

Section DashboardSync.
Import Client.

(** X18.  If the dashboard shows what is stored and listing keys are
    distinct, it still does after the user switches the availability of
    one of its cards, whether the storage accepted the request or not. *)
Theorem toggle_keeps_dashboard_in_sync :
  forall (db : DB) (user : User.t) (cards : list Product.t) (product : Product.t),
    listings_in_sync db (User.id user) cards ->
    unique_keys (map (@Products.id _) (products db)) = true ->
    In product cards ->
    listings_in_sync
      (fst (handleToggleAvailability db (Some user) cards product))
      (User.id user)
      (snd (handleToggleAvailability db (Some user) cards product)).
Proof.
  intros db user cards product Hsync Hu Hp.
  unfold handleToggleAvailability. simpl session_uid.
  destruct (update_products db (Some (User.id user))
              (eq_product_id (Product.id product))
              (availability_payload (negb (Product.is_available product))))
    as [db'|e] eqn:E; simpl; [|exact Hsync].
  apply update_products_ok in E. destruct E as (_ & _ & _ & _ & _ & ->).
  unfold listings_in_sync in *. rewrite Forall_forall in Hsync.
  destruct (Hsync product Hp) as (rp & Hrp & Hrpid & _ & Hrpav).
  apply Forall_forall. intros c' Hc'.
  apply in_map_iff in Hc'. destruct Hc' as (c & <- & Hc).
  destruct (Hsync c Hc) as (r & Hr & Hrid & Hrf & Hrav). simpl products.
  destruct (String.eqb_spec (Product.id c) (Product.id product)) as [Heq|Hne].
  - exists (Products.assign
              (availability_payload (negb (Product.is_available product))) r).
    rewrite Heq in Hrid.
    assert (r = rp) by exact (unique_keys_inj _ _ Hu r rp Hr Hrp Hrid Hrpid).
    subst rp. split.
    + apply in_map_iff. exists r. split; [|exact Hr].
      rewrite (@own_listing_targeted user _ _ Hrid Hrf). reflexivity.
    + simpl. rewrite Heq. repeat split; try assumption.
      assert (Product.is_available c = Product.is_available product) by congruence.
      congruence.
  - exists r. split.
    + apply in_map_iff. exists r. split; [|exact Hr].
      rewrite (@other_listing_not_targeted _ _ _); [reflexivity|].
      rewrite Hrid. congruence.
    + repeat split; assumption.
Qed.

Lemma other_listing_not_doomed (uid : option uuid) (pid : string) (r : Products.row) :
  Products.id r <> Some pid ->
  products_doomed uid (eq_product_id pid) r = false.
Proof.
  intro Hne. unfold products_doomed, eq_product_id.
  destruct (is_true (sql_eq_text (Products.id r) (Some pid))) eqn:E.
  - apply is_true_eq_text in E. contradiction.
  - apply andb_false_r.
Qed.

(** X19.  Deleting from the dashboard does nothing when the dialog is
    declined.  When it is confirmed, no card with that id is left on the
    dashboard, no listing of the user with that id is left in the storage,
    no stored order refers to a listing that is gone, and a dashboard that
    showed what is stored still does. *)
Theorem dashboard_delete_effect :
  forall (db : DB) (user : User.t) (cards : list Product.t)
         (confirmed : bool) (id : string),
    listings_in_sync db (User.id user) cards ->
    let db' := fst (handleDelete db (Some user) cards confirmed id) in
    let cards' := snd (handleDelete db (Some user) cards confirmed id) in
    listings_in_sync db' (User.id user) cards'
    /\ (confirmed = false -> db' = db /\ cards' = cards)
    /\ (confirmed = true ->
        (forall c, In c cards' -> Product.id c <> id)
        /\ (forall r, In r (products db') ->
                      Products.farmer_id r = Some (User.id user) ->
                      Products.id r <> Some id)
        /\ (forall o r, In o (orders db') -> In r (products db) ->
                        Products.id r = Orders.product_id o ->
                        Orders.product_id o <> None ->
                        In r (products db'))).
Proof.
  intros db user cards confirmed id Hsync db' cards'.
  unfold db', cards', handleDelete. destruct confirmed; simpl.
  - split; [|split; [discriminate|intros _; split; [|split]]].
    + unfold listings_in_sync in *. rewrite Forall_forall in Hsync.
      apply Forall_forall. intros c Hc. apply filter_In in Hc.
      destruct Hc as [Hc Hne]. rewrite negb_true_iff in Hne.
      apply String.eqb_neq in Hne.
      destruct (Hsync c Hc) as (r & Hr & Hrid & Hrest).
      exists r. split; [|split; assumption].
      apply filter_In. split; [exact Hr|].
      rewrite other_listing_not_doomed; [reflexivity|].
      rewrite Hrid. congruence.
    + intros c Hc. apply filter_In in Hc. destruct Hc as [_ Hne].
      rewrite negb_true_iff in Hne. apply String.eqb_neq in Hne. exact Hne.
    + intros r Hr Hf Hid. apply filter_In in Hr. destruct Hr as [_ Hnd].
      rewrite negb_true_iff in Hnd.
      assert (products_doomed (Some (User.id user)) (eq_product_id id) r = true).
      { apply products_doomed_spec. split; [exact Hf|].
        apply is_true_eq_text. exact Hid. }
      congruence.
    + intros o r Ho Hr Hid Hnn. apply filter_In in Ho. destruct Ho as [_ Hkeep].
      rewrite negb_true_iff in Hkeep.
      apply filter_In. split; [exact Hr|]. rewrite negb_true_iff.
      destruct (products_doomed (Some (User.id user)) (eq_product_id id) r) eqn:Ed;
        [|reflexivity].
      assert (refers_to
                (map (@Products.id _)
                   (filter (products_doomed (Some (User.id user)) (eq_product_id id))
                           (products db)))
                (Orders.product_id o) = true).
      { apply refers_to_spec. destruct (Orders.product_id o) as [x|] eqn:Ex;
          [|contradiction].
        exists x. split; [reflexivity|]. rewrite <- Hid.
        apply in_map. apply filter_In. split; assumption. }
      congruence.
  - split; [exact Hsync|]. split; [intros _; split; reflexivity | discriminate].
Qed.

End DashboardSync.

(** F's dashboard, showing the stored tomatoes, stays in sync when F hides
    them. *)
Lemma toggle_keeps_dashboard_in_sync_witness :
  listings_in_sync
    (fst (Client.handleToggleAvailability
            (Scenario.db_with [Scenario.order_row "pending" "farmer-F"])
            (Some Scenario.user_F) [Scenario.tomatoes_listing]
            Scenario.tomatoes_listing))
    "farmer-F"
    (snd (Client.handleToggleAvailability
            (Scenario.db_with [Scenario.order_row "pending" "farmer-F"])
            (Some Scenario.user_F) [Scenario.tomatoes_listing]
            Scenario.tomatoes_listing)).
Proof.
  apply (@toggle_keeps_dashboard_in_sync
           (Scenario.db_with [Scenario.order_row "pending" "farmer-F"])
           Scenario.user_F [Scenario.tomatoes_listing] Scenario.tomatoes_listing).
  - constructor; [|constructor].
    exists Scenario.tomatoes. repeat split; try reflexivity. left. reflexivity.
  - reflexivity.
  - left. reflexivity.
Defined.

(** F deletes the tomatoes from the dashboard; R's order goes with them. *)
Lemma dashboard_delete_effect_witness :
  let db := Scenario.db_with [Scenario.order_row "pending" "farmer-F"] in
  let db' := fst (Client.handleDelete db (Some Scenario.user_F)
                    [Scenario.tomatoes_listing] true "listing-1") in
  let cards' := snd (Client.handleDelete db (Some Scenario.user_F)
                       [Scenario.tomatoes_listing] true "listing-1") in
  listings_in_sync db' "farmer-F" cards'
  /\ (true = false -> db' = db /\ cards' = [Scenario.tomatoes_listing])
  /\ (true = true ->
      (forall c, In c cards' -> Client.Product.id c <> "listing-1")
      /\ (forall r, In r (products db') ->
                    Products.farmer_id r = Some "farmer-F" ->
                    Products.id r <> Some "listing-1")
      /\ (forall o r, In o (orders db') -> In r (products db) ->
                      Products.id r = Orders.product_id o ->
                      Orders.product_id o <> None ->
                      In r (products db'))).
Proof.
  apply (@dashboard_delete_effect
           (Scenario.db_with [Scenario.order_row "pending" "farmer-F"])
           Scenario.user_F [Scenario.tomatoes_listing] true "listing-1").
  constructor; [|constructor].
  exists Scenario.tomatoes. repeat split; try reflexivity. left. reflexivity.
Defined.

Example delete_removes_listing_and_order :
  Client.handleDelete (Scenario.db_with [Scenario.order_row "completed" "farmer-F"])
    (Some Scenario.user_F) [Scenario.tomatoes_listing] true "listing-1"
  = ({| profiles := [Scenario.farmer_F; Scenario.farmer_G; Scenario.retailer_R];
        products := []; orders := []; messages := [] |}, []).
Proof. vm_compute. reflexivity. Qed.

(** ** The Orders view: status updates and tabs *)

Section OrdersView.
Import Client.

Lemma other_order_not_targeted (uid : option uuid) (oid : string) (r : Orders.row) :
  Orders.id r <> Some oid ->
  orders_target uid (eq_order_id oid) r = false.
Proof.
  intro Hne. unfold orders_target, eq_order_id.
  destruct (is_true (sql_eq_text (Orders.id r) (Some oid))) eqn:E.
  - apply is_true_eq_text in E. contradiction.
  - apply andb_false_r.
Qed.

Lemma party_order_targeted (uid oid : string) (r : Orders.row) :
  Orders.id r = Some oid ->
  Orders.retailer_id r = Some uid \/ Orders.farmer_id r = Some uid ->
  orders_target (Some uid) (eq_order_id oid) r = true.
Proof.
  intros Hid Hparty. unfold orders_target, eq_order_id. simpl.
  change (Orders.select_using (Some uid) r) with (Orders.update_using (Some uid) r).
  rewrite (proj2 (orders_party_spec uid r) Hparty).
  rewrite (proj2 (is_true_eq_text _ _) Hid). reflexivity.
Qed.

(** X20.  If the Orders view shows what is stored, it still does after a
    status update issued from it, whether the storage accepted the request
    or not; and when the orders table is consistent, every card with the
    order's id shows the new status afterwards. *)
Theorem status_update_keeps_view_in_sync :
  forall (db : DB) (user : User.t) (cards : list Order.t) (date oid : string)
         (s : OrderStatus),
    orders_in_sync db (User.id user) cards ->
    let db' := fst (handleUpdateStatus db (Some user) cards date oid s) in
    let cards' := snd (handleUpdateStatus db (Some user) cards date oid s) in
    orders_in_sync db' (User.id user) cards'
    /\ (orders_consistent db ->
        forall c, In c cards' -> Order.id c = oid -> Order.status c = s).
Proof.
  intros db user cards date oid s Hsync db' cards'.
  unfold db', cards', handleUpdateStatus. simpl session_uid. split.
  - destruct (update_orders db (Some (User.id user)) (eq_order_id oid)
                            (status_payload s date)) as [d|e] eqn:E;
      simpl; [|exact Hsync].
    apply update_orders_ok in E. destruct E as (_ & _ & _ & ->).
    unfold orders_in_sync in *. rewrite Forall_forall in Hsync.
    apply Forall_forall. intros c' Hc'.
    apply in_map_iff in Hc'. destruct Hc' as (c & <- & Hc).
    destruct (Hsync c Hc) as (r & Hr & Hrid & Hparty & Hst). simpl orders.
    destruct (String.eqb_spec (Order.id c) oid) as [Heq|Hne].
    + exists (Orders.assign (status_payload s date) r). rewrite Heq in Hrid. split.
      * apply in_map_iff. exists r. split; [|exact Hr].
        rewrite (party_order_targeted _ Hrid Hparty). reflexivity.
      * simpl. rewrite Heq. repeat split; assumption.
    + exists r. split.
      * apply in_map_iff. exists r. split; [|exact Hr].
        rewrite other_order_not_targeted; [reflexivity|].
        rewrite Hrid. congruence.
      * repeat split; assumption.
  - intros Hc c Hin Hid.
    rewrite (update_status_accepted _ _ _ _ Hc) in Hin. simpl in Hin.
    apply in_map_iff in Hin. destruct Hin as (c0 & Hc0 & _).
    destruct (Order.id c0 =? oid) eqn:E; subst c; [reflexivity|].
    apply String.eqb_neq in E. contradiction.
Qed.

(** X21.  A status update for an order id under which the user is a party
    to no stored order is not reported as an error: on a consistent orders
    table the storage stays exactly as it was, and the view nevertheless
    shows the new status on every card with that id. *)
Theorem status_update_without_party_row :
  forall (db : DB) (user : User.t) (cards : list Order.t) (date oid : string)
         (s : OrderStatus),
    orders_consistent db ->
    (forall r, In r (orders db) -> Orders.id r = Some oid ->
               Orders.retailer_id r <> Some (User.id user)
               /\ Orders.farmer_id r <> Some (User.id user)) ->
    handleUpdateStatus db (Some user) cards date oid s
    = (db, map (fun o => if Order.id o =? oid then Order.with_status o s else o) cards).
Proof.
  intros db user cards date oid s Hc Hnone.
  unfold handleUpdateStatus. simpl session_uid.
  rewrite (update_status_accepted _ _ _ _ Hc).
  assert (Hsame : map (fun r => if orders_target (Some (User.id user)) (eq_order_id oid) r
                                then Orders.assign (status_payload s date) r else r)
                      (orders db) = orders db).
  { rewrite <- (map_id (orders db)) at 2. apply map_ext_in. intros r Hr.
    destruct (orders_target (Some (User.id user)) (eq_order_id oid) r) eqn:E;
      [|reflexivity].
    apply orders_target_inv in E. destruct E as (_ & Hu & Hw).
    apply orders_party_spec in Hu. apply is_true_eq_text in Hw.
    destruct (Hnone r Hr Hw). tauto. }
  rewrite Hsame. destruct db. reflexivity.
Qed.

(** X22.  The tab 'all' shows every order; the four status tabs split the
    orders: a status tab shows exactly the orders with that status, and
    together the four hold every order once. *)
Theorem status_tabs_partition :
  forall orders : list Order.t,
    filteredOrders all orders = orders
    /\ (forall s o, In o (filteredOrders (only s) orders) <->
                    In o orders /\ Order.status o = s)
    /\ Permutation orders
         (filteredOrders (only pending) orders
          ++ filteredOrders (only accepted) orders
          ++ filteredOrders (only rejected) orders
          ++ filteredOrders (only completed) orders)%list.
Proof.
  intro orders. split; [reflexivity|]. split.
  - intros s o. simpl. rewrite filter_In. split; intros [H1 H2]; split; auto.
    + destruct (Order.status o), s; simpl in H2; congruence.
    + rewrite H2. destruct s; reflexivity.
  - simpl. induction orders as [|o l IH]; simpl; [apply perm_nil|].
    destruct (Order.status o); simpl.
    + apply perm_skip. exact IH.
    + apply Permutation_cons_app. exact IH.
    + rewrite app_assoc. apply Permutation_cons_app.
      rewrite <- app_assoc. exact IH.
    + rewrite app_assoc. rewrite app_assoc. apply Permutation_cons_app.
      rewrite <- !app_assoc. exact IH.
Qed.

(** X23.  The Orders view offers a status button only to a farmer, and only
    for the moves pending to accepted, pending to rejected and accepted to
    completed; a retailer, or a visitor without a profile, is offered
    none. *)
Theorem status_buttons_moves :
  forall (profile : option Profile.t) (order : Order.t) (s : OrderStatus),
    In s (status_buttons profile order) <->
    (exists p, profile = Some p /\ Profile.user_type p = farmer)
    /\ ((Order.status order = pending /\ (s = accepted \/ s = rejected))
        \/ (Order.status order = accepted /\ s = completed)).
Proof.
  intros profile order s. unfold status_buttons, is_farmer.
  destruct profile as [p|].
  - destruct (Profile.user_type p) eqn:Et, (Order.status order) eqn:Es, s;
      simpl; split;
      try (intro H; repeat (destruct H as [H|H]; try discriminate);
           try contradiction;
           (split; [exists p; split; [reflexivity | exact Et]|]);
           first [ left; (split; [reflexivity|]);
                   first [left; reflexivity | right; reflexivity]
                 | right; split; reflexivity ]);
      try (intros ((p' & Hp & Hf) & Hm); inversion Hp; subst p';
           try (rewrite Et in Hf; discriminate);
           destruct Hm as [[Hs [Hm|Hm]]|[Hs Hm]]; try discriminate; auto).
  - simpl. split; [intros [] | intros ((p & Hp & _) & _); discriminate].
Qed.

End OrdersView.

(** F accepts R's pending order from an Orders view in sync. *)
Lemma status_update_keeps_view_in_sync_witness :
  let db := Scenario.db_with [Scenario.order_row "pending" "farmer-F"] in
  let db' := fst (Client.handleUpdateStatus db (Some Scenario.user_F)
                    [Scenario.order_card Client.pending]
                    "2025-10-18T08:00:00Z" "order-1" Client.accepted) in
  let cards' := snd (Client.handleUpdateStatus db (Some Scenario.user_F)
                       [Scenario.order_card Client.pending]
                       "2025-10-18T08:00:00Z" "order-1" Client.accepted) in
  orders_in_sync db' "farmer-F" cards'
  /\ (orders_consistent db ->
      forall c, In c cards' -> Client.Order.id c = "order-1" ->
                Client.Order.status c = Client.accepted).
Proof.
  apply (@status_update_keeps_view_in_sync
           (Scenario.db_with [Scenario.order_row "pending" "farmer-F"])
           Scenario.user_F [Scenario.order_card Client.pending]
           "2025-10-18T08:00:00Z" "order-1" Client.accepted).
  constructor; [|constructor].
  exists (Scenario.order_row "pending" "farmer-F").
  split; [left; reflexivity|]. split; [reflexivity|].
  split; [right; reflexivity | reflexivity].
Defined.

(** G, who is no party to R's order, presses Accept on a card of it: the
    storage keeps the order pending and G's view shows it accepted. *)
Lemma status_update_without_party_row_witness :
  Client.handleUpdateStatus
    (Scenario.db_with [Scenario.order_row "pending" "farmer-F"])
    (Some {| Client.User.id := "farmer-G" |})
    [Scenario.order_card Client.pending]
    "2025-10-18T08:00:00Z" "order-1" Client.accepted
  = (Scenario.db_with [Scenario.order_row "pending" "farmer-F"],
     map (fun o => if Client.Order.id o =? "order-1"
                   then Client.Order.with_status o Client.accepted else o)
         [Scenario.order_card Client.pending]).
Proof.
  apply (@status_update_without_party_row
           (Scenario.db_with [Scenario.order_row "pending" "farmer-F"])
           {| Client.User.id := "farmer-G" |}
           [Scenario.order_card Client.pending]
           "2025-10-18T08:00:00Z" "order-1" Client.accepted).
  - split; [reflexivity|].
    constructor; [|constructor]. repeat split; reflexivity.
  - intros r [<-|[]] _. split; discriminate.
Defined.

(** ** Narrowing the marketplace *)

Section Narrowing.
Import Client.
Variable toLowerCase : string -> string.

Lemma filterProducts_as_filter (products : list Product.t) (q c : string) :
  filterProducts toLowerCase products q c
  = filter (listing_selectedb toLowerCase c q) products.
Proof.
  unfold filterProducts, listing_selectedb.
  destruct (c =? "All") eqn:Ec, (q =? "") eqn:Eq; simpl.
  - symmetry. apply filter_all.
  - reflexivity.
  - apply filter_ext. intro p. rewrite andb_true_r. reflexivity.
  - apply filter_filter.
Qed.

(** X24.  With category 'All' and an empty query the marketplace filter
    returns the listings as they are; filtering a result again by the same
    choices changes nothing; and narrowing by category first and by the
    query afterwards gives what both give at once. *)
Theorem filterProducts_narrowing :
  forall (products : list Product.t) (q c : string),
    filterProducts toLowerCase products "" "All" = products
    /\ filterProducts toLowerCase (filterProducts toLowerCase products q c) q c
       = filterProducts toLowerCase products q c
    /\ filterProducts toLowerCase (filterProducts toLowerCase products "" c) q "All"
       = filterProducts toLowerCase products q c.
Proof.
  intros products q c. split; [reflexivity|]. split.
  - rewrite !filterProducts_as_filter, filter_filter.
    apply filter_ext. intro p. apply andb_diag.
  - rewrite !filterProducts_as_filter, filter_filter.
    apply filter_ext. intro p. unfold listing_selectedb. simpl.
    rewrite andb_true_r. reflexivity.
Qed.

End Narrowing.

(** ** Which screen a visitor gets *)

(** X25.  The application shows a view only to a signed-in user whose
    profile is loaded; a farmer then gets the dashboard or the orders and
    never the marketplace, a retailer the marketplace or the orders and
    never the dashboard.  Every item of the role's navigation bar leads to
    such a view, and the item 'messages' leads to the same view as the
    initial 'dashboard' selection. *)
Theorem app_views_by_role :
  forall (loading : bool) (user : option Client.User.t)
         (profile : option Client.Profile.t) (currentView : string),
    match Client.AppContent loading user profile currentView with
    | Client.MainScreen v =>
        loading = false
        /\ exists u p,
             user = Some u /\ profile = Some p
             /\ v = Client.renderView p currentView
             /\ match Client.Profile.user_type p with
                | Client.farmer =>
                    v = Client.FarmerDashboardView \/ v = Client.OrdersView
                | Client.retailer =>
                    v = Client.MarketplaceView \/ v = Client.OrdersView
                end
    | Client.AuthScreen => loading = false /\ (user = None \/ profile = None)
    | Client.LoadingScreen => loading = true
    end
    /\ (forall p item,
          In item (Client.navItems (Some p)) ->
          Client.renderView p (fst item)
          = (if fst item =? "orders" then Client.OrdersView
             else Client.renderView p "dashboard"))
    /\ (forall p, Client.renderView p "messages" = Client.renderView p "dashboard").
Proof.
  intros loading user profile currentView. split; [|split].
  - unfold Client.AppContent.
    destruct loading; [reflexivity|].
    destruct user as [u|], profile as [p|]; simpl; try (split; auto; fail).
    split; [reflexivity|]. exists u, p.
    split; [reflexivity|]. split; [reflexivity|]. split; [reflexivity|].
    unfold Client.renderView.
    destruct (Client.Profile.user_type p); simpl;
      destruct (currentView =? "dashboard"), (currentView =? "orders"),
               (currentView =? "marketplace"); auto.
  - intros p item Hin. unfold Client.navItems, Client.is_farmer, Client.renderView in *.
    destruct (Client.Profile.user_type p); simpl in Hin;
      destruct Hin as [<-|[<-|[<-|[]]]]; reflexivity.
  - intro p. unfold Client.renderView.
    destruct (Client.Profile.user_type p); reflexivity.
Qed.

(** ** Roles are not fixed by the schema *)

Lemma forallb_references_same (A : Type) (fk : A -> option uuid)
    (keys : list (option uuid)) (l : list A) :
  (forall r, In r l -> references keys (fk r) = true) ->
  forallb (references keys) (map fk l) = true.
Proof.
  intro H. apply forallb_forall. intros k Hk.
  apply in_map_iff in Hk. destruct Hk as (r & <- & Hr). exact (H r Hr).
Qed.

(** X26.  On a consistent database a principal with an identity record can
    set its own role to farmer or to retailer at any time: the update is
    accepted and the principal then holds the new role, so the role checks
    of the insert policies follow whatever the principal last wrote. *)
Theorem own_role_can_be_switched :
  forall (db : DB) (P : uuid) (pr : Profiles.row) (role : string),
    db_consistent db ->
    In pr (profiles db) ->
    Profiles.id pr = Some P ->
    role = "farmer" \/ role = "retailer" ->
    exists db',
      update_profiles db (Some P)
        (fun r => sql_eq_text (Profiles.id r) (Some P)) (Scenario.switch_role role)
      = Ok db'
      /\ has_role db' P role
      /\ products db' = products db
      /\ orders db' = orders db.
Proof.
  intros db P pr role ((Hpu & Hpv) & (_ & Hdv) & (_ & Hov) & (_ & Hmv)) Hpr Hid Hrole.
  set (w := fun r : Profiles.row => sql_eq_text (Profiles.id r) (Some P)).
  set (step := fun r => if profiles_target (Some P) w r
                        then Profiles.assign (Scenario.switch_role role) r else r).
  assert (Hids : map (@Profiles.id _) (map step (profiles db))
                 = map (@Profiles.id _) (profiles db))
    by (apply map_id_if; reflexivity).
  assert (Hok : update_profiles db (Some P) w (Scenario.switch_role role)
                = Ok {| profiles := map step (profiles db);
                        products := products db;
                        orders := orders db;
                        messages := messages db |}).
  { unfold update_profiles. fold step. rewrite first_error_none.
    - rewrite Hids, Hpu. simpl.
      rewrite !forallb_references_same; [reflexivity | | | | |];
        intros r Hr.
      + rewrite Forall_forall in Hmv. destruct (Hmv r Hr) as (_ & _ & H2 & _). exact H2.
      + rewrite Forall_forall in Hmv. destruct (Hmv r Hr) as (_ & H1 & _). exact H1.
      + rewrite Forall_forall in Hov. destruct (Hov r Hr) as (_ & _ & _ & _ & H3). exact H3.
      + rewrite Forall_forall in Hov. destruct (Hov r Hr) as (_ & _ & _ & H2 & _). exact H2.
      + rewrite Forall_forall in Hdv. destruct (Hdv r Hr) as (_ & _ & H1). exact H1.
    - apply Forall_changed with (P := profile_row_valid); [exact Hpv|].
      intros r (Hn & _) Ht. unfold profiles_verdict.
      apply profiles_target_inv in Ht. destruct Ht as (_ & Hu & _).
      change (Profiles.update_check (Some P) (Profiles.assign (Scenario.switch_role role) r))
        with (Profiles.update_using (Some P) r).
      rewrite Hu. simpl.
      assert (Hn' : Profiles.not_null (Profiles.assign (Scenario.switch_role role) r) = true).
      { unfold Profiles.not_null in *. simpl.
        destruct (Profiles.id r), (Profiles.full_name r); simpl in *;
          try rewrite orb_true_r in Hn; try discriminate; reflexivity. }
      assert (Hc' : Profiles.checks (Profiles.assign (Scenario.switch_role role) r) = true).
      { unfold Profiles.checks. simpl. destruct Hrole as [-> | ->]; reflexivity. }
      rewrite Hn', Hc'. reflexivity. }
  eexists. split; [exact Hok|]. split; [|split; reflexivity].
  exists (Profiles.assign (Scenario.switch_role role) pr). simpl.
  split; [|split; [exact Hid | reflexivity]].
  apply in_map_iff. exists pr. split; [|exact Hpr].
  unfold step, profiles_target, w, Profiles.update_using. simpl.
  rewrite Hid. simpl. rewrite String.eqb_refl. reflexivity.
Qed.

(** F turns retailer, and is one. *)
Lemma own_role_can_be_switched_witness :
  exists db',
    update_profiles (Scenario.db_with [Scenario.order_row "pending" "farmer-F"])
      (Some "farmer-F")
      (fun r => sql_eq_text (Profiles.id r) (Some "farmer-F"))
      (Scenario.switch_role "retailer")
    = Ok db'
    /\ has_role db' "farmer-F" "retailer"
    /\ products db' = products (Scenario.db_with [Scenario.order_row "pending" "farmer-F"])
    /\ orders db' = orders (Scenario.db_with [Scenario.order_row "pending" "farmer-F"]).
Proof.
  apply (@own_role_can_be_switched
           (Scenario.db_with [Scenario.order_row "pending" "farmer-F"])
           "farmer-F" Scenario.farmer_F "retailer").
  - scenario_consistent.
  - left. reflexivity.
  - reflexivity.
  - right. reflexivity.
Defined.

(** ** When a placement goes through *)

Lemma unique_keys_snoc (keys : list (option uuid)) (k : option uuid) :
  unique_keys keys = true ->
  (forall k', In k' keys -> is_true (sql_eq_text k' k) = false) ->
  unique_keys (keys ++ [k]) = true.
Proof.
  induction keys as [|h keys IH]; simpl; intros Hu Hfresh.
  - destruct k; reflexivity.
  - apply andb_true_iff in Hu. destruct Hu as [Hh Hl].
    rewrite IH; [|exact Hl | intros k' Hk'; apply Hfresh; right; exact Hk'].
    rewrite andb_true_r, existsb_app. simpl.
    rewrite negb_true_iff in Hh. rewrite Hh, orb_false_r. simpl.
    rewrite (Hfresh h (or_introl eq_refl)). reflexivity.
Qed.

Lemma references_stored (A : Type) (key : A -> option uuid) (l : list A)
    (r : A) (x : uuid) :
  In r l -> key r = Some x -> references (map key l) (Some x) = true.
Proof.
  intros Hr Hk. simpl. apply existsb_exists. exists (key r).
  split; [apply in_map; exact Hr | apply is_true_eq_text; exact Hk].
Qed.

Lemma orders_insert_check_spec (db : DB) (uid : uuid) (r : Orders.row) :
  is_true (Orders.insert_check (profiles db) (Some uid) r) = true <->
  Orders.retailer_id r = Some uid /\ has_role db uid "retailer".
Proof.
  unfold Orders.insert_check.
  rewrite is_true_sql_and, is_true_eq_text, is_true_Some, exists_profile_spec.
  tauto.
Qed.

Section PlacementSucceeds.
Import Client.
Variable parseFloat : string -> float.
Variable numeric_of_number : float -> option Q.

(** X27.  An order placed by a signed-in retailer goes through whenever the
    listing shown is stored and its farmer has an identity record, the
    quantity typed reaches the storage as a positive number and the total
    as a non-negative one, the payment method is one of the two listed,
    and the generated id is new among orders with distinct keys; the order
    built from the form is then appended to the stored orders. *)
Theorem place_order_succeeds :
  forall (db : DB) (env : ServerEnv) (user : User.t) (product : Product.t)
         (orderData : OrderData) (l : Products.row) (pf : Profiles.row) (q t : Q),
    has_role db (User.id user) "retailer" ->
    In l (products db) -> Products.id l = Some (Product.id product) ->
    In pf (profiles db) -> Profiles.id pf = Some (Product.farmer_id product) ->
    numeric_of_number (parseFloat (od_quantity orderData)) = Some q -> (0 < q)%Q ->
    numeric_of_number (parseFloat (od_quantity orderData) * Product.price product)%float
    = Some t -> (0 <= t)%Q ->
    od_payment_method orderData = "online"
    \/ od_payment_method orderData = "cash_on_delivery" ->
    unique_keys (map (@Orders.id _) (orders db)) = true ->
    (forall o, In o (orders db) -> Orders.id o <> Some (gen_random_uuid env)) ->
    handlePlaceOrder parseFloat numeric_of_number db env (Some user) product orderData
    = Ok {| profiles := profiles db;
            products := products db;
            orders := orders db
                      ++ [Orders.new_row env
                            (order_payload parseFloat numeric_of_number
                                           (Some user) product orderData)];
            messages := messages db |}.
Proof.
  intros db env user product orderData l pf q t
         Hrole Hl Hlid Hpf Hpfid Hq Hqpos Ht Htpos Hpay Hu Hfresh.
  set (r := Orders.new_row env
              (order_payload parseFloat numeric_of_number (Some user) product orderData)).
  assert (Hquantity : Orders.quantity r = Some q) by exact Hq.
  assert (Htotal : Orders.total_price r = Some t) by exact Ht.
  assert (Hpolicy : is_true (Orders.insert_check (profiles db)
                               (Some (User.id user)) r) = true).
  { apply orders_insert_check_spec. split; [reflexivity | exact Hrole]. }
  assert (Hnn : Orders.not_null r = true).
  { unfold Orders.not_null. rewrite Hquantity, Htotal. reflexivity. }
  assert (Hchecks : Orders.checks r = true).
  { unfold Orders.checks. rewrite Hquantity, Htotal. simpl.
    rewrite (proj2 (Qlt_bool_iff 0 q) Hqpos), (proj2 (Qle_bool_iff 0 t) Htpos).
    destruct Hpay as [-> | ->]; reflexivity. }
  assert (Hunique : unique_keys (map (@Orders.id _) (orders db ++ [r])) = true).
  { rewrite map_app. apply unique_keys_snoc; [exact Hu|].
    intros k Hk. apply in_map_iff in Hk. destruct Hk as (o & <- & Ho).
    destruct (is_true (sql_eq_text (Orders.id o) (Orders.id r))) eqn:E; [|reflexivity].
    apply is_true_eq_text in E. exfalso. exact (Hfresh o Ho E). }
  destruct Hrole as (pr & Hpr & Hprid & _).
  assert (Hfk1 : references (map (@Products.id _) (products db)) (Orders.product_id r)
                 = true)
    by exact (references_stored (@Products.id _) _ _ Hl Hlid).
  assert (Hfk2 : references (map (@Profiles.id _) (profiles db)) (Orders.retailer_id r)
                 = true)
    by exact (references_stored (@Profiles.id _) _ _ Hpr Hprid).
  assert (Hfk3 : references (map (@Profiles.id _) (profiles db)) (Orders.farmer_id r)
                 = true)
    by exact (references_stored (@Profiles.id _) _ _ Hpf Hpfid).
  unfold handlePlaceOrder, insert_order, session_uid. simpl option_map. fold r.
  rewrite Hpolicy, Hnn, Hchecks, Hunique, Hfk1, Hfk2, Hfk3. reflexivity.
Qed.

End PlacementSucceeds.

(** R's order for 5 kg of F's tomatoes goes through. *)
Lemma place_order_succeeds_witness :
  Client.handlePlaceOrder Client.digits_parseFloat Client.exact_numeric
    (Scenario.db_with []) Scenario.env (Some Scenario.user_R)
    Scenario.tomatoes_listing Scenario.five_kg
  = Ok {| profiles := profiles (Scenario.db_with []);
          products := products (Scenario.db_with []);
          orders := orders (Scenario.db_with [])
                    ++ [Orders.new_row Scenario.env
                          (Client.order_payload Client.digits_parseFloat
                             Client.exact_numeric (Some Scenario.user_R)
                             Scenario.tomatoes_listing Scenario.five_kg)];
          messages := messages (Scenario.db_with []) |}.
Proof.
  apply (@place_order_succeeds Client.digits_parseFloat Client.exact_numeric
           (Scenario.db_with []) Scenario.env Scenario.user_R
           Scenario.tomatoes_listing Scenario.five_kg
           Scenario.tomatoes Scenario.farmer_F (5 # 1) (100 # 1)).
  - exists Scenario.retailer_R. split; [|split; reflexivity].
    right. right. left. reflexivity.
  - left. reflexivity.
  - reflexivity.
  - left. reflexivity.
  - reflexivity.
  - vm_compute. reflexivity.
  - reflexivity.
  - vm_compute. reflexivity.
  - vm_compute. discriminate.
  - right. reflexivity.
  - reflexivity.
  - intros o [].
Defined.
